(** * Timetable generation (app/scheduler.py): model and verified properties

    A shallow embedding of [_normalize_data], [_clear_timetable] and
    [generate_timetable].  Python dictionaries used only for lookup
    (the identifier maps, [course_to_fac]) are finite maps; the
    dictionary [assign], whose iteration order decides the order of the
    variables handed to the solver and of the emitted rows, is an
    insertion-ordered association list.  The CP-SAT solver is an external
    collaborator: the answer it gives in the call at hand is a parameter of
    [generate_timetable], and the theorems state what they assume of it.
    What OR-tools does with a bound outside its integer range and what
    pandas writes or raises in [to_excel] depend on the release installed:
    they are a second parameter. *)

From Stdlib Require Import ZArith Lia.
From stdpp Require Import base option list gmap strings fin_maps pretty.

Open Scope string_scope.
Open Scope list_scope.
Open Scope Z_scope.

(** ** Exceptions and the two effect layers

    [KeyError] and [StopIteration] are raised by the scheduler's own
    subscripts and [next] calls; [LibraryError] is an exception of the named
    class raised inside a call into OR-tools or pandas. *)

Inductive exn :=
| KeyError (key : string)
| StopIteration
| LibraryError (class_name : string).

Inductive outcome (A : Type) :=
| Return (a : A)
| Raised (e : exn).
Arguments Return {A} a.
Arguments Raised {A} e.

#[global] Instance outcome_ret : MRet outcome := @Return.
#[global] Instance outcome_bind : MBind outcome := λ A B f m,
  match m with
  | Return a => f a
  | Raised e => Raised e
  end.

(** [d[key]] on a JSON object: the field is there or [KeyError] is raised. *)
Definition getitem {A} (key : string) (field : option A) : outcome A :=
  match field with
  | Some a => Return a
  | None => Raised (KeyError key)
  end.

(** [d.get(key, dflt)] *)
Definition get {A} (field : option A) (dflt : A) : A :=
  match field with
  | Some a => a
  | None => dflt
  end.

(** [next(x for x in l if p x)] *)
Definition next {A} (found : option A) : outcome A :=
  match found with
  | Some a => Return a
  | None => Raised StopIteration
  end.

(** ** Raw dataset: the content of data.json

    Every field of a JSON record may be absent; identifiers are the
    strings the frontend sends, numeric fields are Python integers.  A
    dataset with a field of another JSON type (an identifier that is a list
    or an object, a size that is a string) is outside this model. *)

Record RawFaculty := {
  rf_id : option string;
  rf_name : option string
}.

Record RawCourse := {
  rc_id : option string;
  rc_name : option string;
  rc_requiredSlots : option Z;
  rc_size : option Z;
  rc_faculty_id : option string
}.

Record RawClassroom := {
  rr_id : option string;
  rr_name : option string;
  rr_capacity : option Z;
  rr_type : option string
}.

Record RawTimeslot := {
  rt_id : option string;
  rt_label : option string
}.

Record RawData := {
  raw_faculties : option (list RawFaculty);
  raw_courses : option (list RawCourse);
  raw_classrooms : option (list RawClassroom);
  raw_timeslots : option (list RawTimeslot)
}.

(** ** Normalized dataset *)

Record Faculty := {
  f_id : Z;
  f_name : string;
  f_original_id : string
}.

Record Course := {
  c_id : Z;
  c_name : string;
  sessions_per_week : Z;
  size : Z;
  faculty_id : Z;
  c_original_id : string
}.

#[global] Instance Course_eq_dec : EqDecision Course.
Proof. solve_decision. Defined.

Record Classroom := {
  r_id : Z;
  r_name : string;
  capacity : Z;
  r_type : string;
  r_original_id : string
}.

Record Timeslot := {
  t_id : Z;
  label : string;
  t_original_id : string
}.

Record IdMappings := {
  faculty_map : gmap string Z;
  course_map : gmap string Z;
  classroom_map : gmap string Z;
  timeslot_map : gmap string Z
}.

Record Data := {
  faculties : list Faculty;
  courses : list Course;
  classrooms : list Classroom;
  timeslots : list Timeslot;
  id_mappings : IdMappings
}.

(** ** [_normalize_data] *)

(** [{x["id"]: idx + 1 for idx, x in enumerate(l)}], with [idx] the running
    index: a later record with the same identifier overwrites the entry. *)
Fixpoint id_map_from {A} (get_id : A → option string) (idx : nat) (l : list A)
    (m : gmap string Z) : outcome (gmap string Z) :=
  match l with
  | [] => Return m
  | x :: l' =>
      k ← getitem "id" (get_id x);
      id_map_from get_id (S idx) l' (<[k := Z.of_nat idx + 1]> m)
  end.

Definition id_map {A} (get_id : A → option string) (l : list A) : outcome (gmap string Z) :=
  id_map_from get_id 0 l ∅.

(** [m[k]] on an identifier map *)
Definition map_getitem (m : gmap string Z) (k : string) : outcome Z :=
  match m !! k with
  | Some v => Return v
  | None => Raised (KeyError k)
  end.

(** A [for] loop that appends one transformed record per input record. *)
Fixpoint for_append {A B} (f : A → outcome B) (l : list A) : outcome (list B) :=
  match l with
  | [] => Return []
  | x :: l' =>
      y ← f x;
      ys ← for_append f l';
      Return (y :: ys)
  end.

Definition norm_faculty (faculty_id_map : gmap string Z) (f : RawFaculty) : outcome Faculty :=
  k ← getitem "id" (rf_id f);
  i ← map_getitem faculty_id_map k;
  n ← getitem "name" (rf_name f);
  Return {| f_id := i; f_name := n; f_original_id := k |}.

Definition norm_course (course_id_map faculty_id_map : gmap string Z) (c : RawCourse)
  : outcome Course :=
  k ← getitem "id" (rc_id c);
  i ← map_getitem course_id_map k;
  n ← getitem "name" (rc_name c);
  Return {| c_id := i;
            c_name := n;
            sessions_per_week := get (rc_requiredSlots c) 1;
            size := get (rc_size c) 30;
            faculty_id := get (rc_faculty_id c ≫= λ fk, faculty_id_map !! fk) 1;
            c_original_id := k |}.

Definition norm_classroom (classroom_id_map : gmap string Z) (r : RawClassroom)
  : outcome Classroom :=
  k ← getitem "id" (rr_id r);
  i ← map_getitem classroom_id_map k;
  n ← getitem "name" (rr_name r);
  Return {| r_id := i;
            r_name := n;
            capacity := get (rr_capacity r) 50;
            r_type := get (rr_type r) "Lecture";
            r_original_id := k |}.

Definition norm_timeslot (timeslot_id_map : gmap string Z) (t : RawTimeslot)
  : outcome Timeslot :=
  k ← getitem "id" (rt_id t);
  i ← map_getitem timeslot_id_map k;
  n ← getitem "label" (rt_label t);
  Return {| t_id := i; label := n; t_original_id := k |}.

Definition _normalize_data (data : RawData) : outcome Data :=
  faculty_id_map ← id_map rf_id (get (raw_faculties data) []);
  course_id_map ← id_map rc_id (get (raw_courses data) []);
  classroom_id_map ← id_map rr_id (get (raw_classrooms data) []);
  timeslot_id_map ← id_map rt_id (get (raw_timeslots data) []);
  fs ← for_append (norm_faculty faculty_id_map) (get (raw_faculties data) []);
  cs ← for_append (norm_course course_id_map faculty_id_map) (get (raw_courses data) []);
  rs ← for_append (norm_classroom classroom_id_map) (get (raw_classrooms data) []);
  ts ← for_append (norm_timeslot timeslot_id_map) (get (raw_timeslots data) []);
  Return {| faculties := fs;
            courses := cs;
            classrooms := rs;
            timeslots := ts;
            id_mappings := {| faculty_map := faculty_id_map;
                              course_map := course_id_map;
                              classroom_map := classroom_id_map;
                              timeslot_map := timeslot_id_map |} |}.

(** ** The CP-SAT model

    A Boolean variable is its index in the model's variable table;
    [model.NewBoolVar] allocates the next index (the variable's name is a
    label the solver ignores and is left out).  The constraints the
    scheduler posts are [sum(vars) == k] and [sum(vars) <= k];
    [AlwaysFalse] is what [model.Add(False)] posts, a clause without
    literals. *)

Inductive Constraint :=
| SumEq (vars : list nat) (k : Z)
| SumLe (vars : list nat) (k : Z)
| AlwaysFalse.

Record CpModel := {
  num_vars : nat;
  constraints : list Constraint
}.

Definition CpModel_new : CpModel := {| num_vars := 0; constraints := [] |}.

Definition NewBoolVar (m : CpModel) : nat * CpModel :=
  (num_vars m, {| num_vars := S (num_vars m); constraints := constraints m |}).

Definition Add (m : CpModel) (c : Constraint) : CpModel :=
  {| num_vars := num_vars m; constraints := constraints m ++ [c] |}.

Inductive Status := UNKNOWN | MODEL_INVALID | FEASIBLE | INFEASIBLE | OPTIMAL.

#[global] Instance Status_eq_dec : EqDecision Status.
Proof. solve_decision. Defined.

(** What the solver holds after [Solve]: the value of each Boolean variable. *)
Definition Solution := nat → bool.

(** [solver.Value(var)] *)
Definition Value (sol : Solution) (var : nat) : Z := if sol var then 1 else 0.

(** [sum(vars)] under a solution *)
Definition sum_values (sol : Solution) (vars : list nat) : Z :=
  foldr (λ v acc, Value sol v + acc) 0 vars.

Definition holds (sol : Solution) (c : Constraint) : bool :=
  match c with
  | SumEq vars k => bool_decide (sum_values sol vars = k)
  | SumLe vars k => bool_decide (sum_values sol vars ≤ k)
  | AlwaysFalse => false
  end.

Definition satisfies (sol : Solution) (m : CpModel) : bool :=
  forallb (holds sol) (constraints m).

(** [solver.Solve(model)] with [max_time_in_seconds] set: a status and the
    values found.  A [Solver] stands for the answer given in one call of
    [generate_timetable], whatever model and limit that call hands over; the
    search runs eight workers against the clock, so another call is another
    [Solver]. *)
Definition Solver := CpModel → Z → Status * Solution.

(** A solver never claims a solution that breaks a constraint. *)
Definition sound (Solve : Solver) : Prop :=
  ∀ m tl, let '(st, sol) := Solve m tl in
          st = OPTIMAL ∨ st = FEASIBLE → satisfies sol m = true.

(** A solver reports [INFEASIBLE] only when no assignment exists. *)
Definition complete (Solve : Solver) : Prop :=
  ∀ m tl sol, (Solve m tl).1 = INFEASIBLE → satisfies sol m = false.

(** ** The libraries

    What the calls into OR-tools and pandas do on inputs the scheduler does
    not rule out is decided by the release installed. *)

Definition INT64_MIN : Z := - 2 ^ 63.
Definition INT64_MAX : Z := 2 ^ 63 - 1.

(** [model.Add(sum(vars) == k)] for a [k] that is not strictly inside the
    int64 range: the comparison raises (ValueError at INT64_MAX and at
    INT64_MIN in current releases), or the equality is posted as it is, or
    the comparison evaluates to [False] and [model.Add(False)] posts a
    constraint that nothing satisfies. *)
Inductive OutOfRange :=
| Raises (class_name : string)
| PostsAsIs
| PostsFalse.

(** One row of exports/timetable.json and timetable.xlsx *)
Record ExportRecord := {
  er_course : string;
  er_faculty : string;
  er_classroom : string;
  er_timeslot : string
}.

(** The cells of a worksheet, row by row. *)
Abbreviation Sheet := (list (list string)).

Record Library := {
  (** [model.Add(sum(vars) == k)] on a [k] outside the range *)
  add_out_of_range : Z → OutOfRange;
  (** [df.to_excel(path)] on the frame of these records, given the file
      that is there: the class of the exception it raises, if any, and the
      file it leaves *)
  to_excel : list ExportRecord → option Sheet → option string * option Sheet
}.

(** The characters openpyxl refuses in a cell: the control characters other
    than tab, line feed and carriage return. *)
Definition is_illegal_character (a : Ascii.ascii) : bool :=
  let n := Ascii.N_of_ascii a in
  (n <? 32)%N && negb ((n =? 9)%N || (n =? 10)%N || (n =? 13)%N).

Definition plain (s : string) : bool :=
  forallb (λ a, negb (is_illegal_character a)) (String.list_ascii_of_string s).

Definition plain_record (r : ExportRecord) : bool :=
  plain (er_course r) && plain (er_faculty r) &&
  plain (er_classroom r) && plain (er_timeslot r).

(** The rows of a worksheet, beyond which pandas refuses the frame. *)
Definition EXCEL_MAX_ROWS : Z := 2 ^ 20.

(** What the properties that need the export to succeed assume of
    [to_excel]: a frame within the row limit whose cells hold no refused
    character is written. *)
Definition writes_plain_text (lib : Library) : Prop :=
  ∀ records old,
    Z.of_nat (length records) ≤ EXCEL_MAX_ROWS →
    forallb plain_record records = true →
    (to_excel lib records old).1 = None.

(** ** The dictionary [assign]: keys [(course, timeslot, classroom)] in
    insertion order; assigning to a present key replaces its value in place. *)

Abbreviation Key := (Z * Z * Z)%type.
Abbreviation Assign := (list (Key * nat)).

Fixpoint dict_set (k : Key) (v : nat) (d : Assign) : Assign :=
  match d with
  | [] => [(k, v)]
  | (k', v') :: d' =>
      if decide (k = k') then (k, v) :: d' else (k', v') :: dict_set k v d'
  end.

Definition key_course (k : Key) : Z := k.1.1.
Definition key_timeslot (k : Key) : Z := k.1.2.
Definition key_classroom (k : Key) : Z := k.2.

(** ** Model building *)

(** The innermost loop body: a variable is allocated only for a room that
    is large enough. *)
Definition add_candidate (c : Course) (t : Timeslot) (st : CpModel * Assign) (r : Classroom)
  : CpModel * Assign :=
  if decide (size c ≤ capacity r) then
    let '(var, model) := NewBoolVar st.1 in
    (model, dict_set (c_id c, t_id t, r_id r) var st.2)
  else st.

Definition build_variables (cs : list Course) (ts : list Timeslot) (rs : list Classroom)
    (st : CpModel * Assign) : CpModel * Assign :=
  foldl (λ st c, foldl (λ st t, foldl (add_candidate c t) st rs) st ts) st cs.

(** [[v for (cid, _, _), v in assign.items() if cid == c["id"]]] *)
Definition vars_for_course (assign : Assign) (c : Course) : list nat :=
  (filter (λ kv, key_course kv.1 = c_id c) assign).*2.

(** [model.Add(sum(vars) == k)] *)
Definition add_equality (lib : Library) (model : CpModel) (vars : list nat) (k : Z)
  : outcome CpModel :=
  if decide (INT64_MIN < k < INT64_MAX) then Return (Add model (SumEq vars k))
  else
    match add_out_of_range lib k with
    | Raises class_name => Raised (LibraryError class_name)
    | PostsAsIs => Return (Add model (SumEq vars k))
    | PostsFalse => Return (Add model AlwaysFalse)
    end.

(** How the "Build model" part ends without a model: the early
    [return False] at a course without variables, or an exception out of
    [model.Add]. *)
Inductive BuildFailure :=
| NoCandidate (c : Course)
| AddRaised (e : exn).

(** Constraint 1 *)
Fixpoint coverage_constraints (lib : Library) (cs : list Course) (assign : Assign)
    (model : CpModel) : CpModel + BuildFailure :=
  match cs with
  | [] => inl model
  | c :: cs' =>
      match vars_for_course assign c with
      | [] => inr (NoCandidate c)
      | vars =>
          match add_equality lib model vars (sessions_per_week c) with
          | Return model' => coverage_constraints lib cs' assign model'
          | Raised e => inr (AddRaised e)
          end
      end
  end.

Definition vars_in_room (assign : Assign) (t : Timeslot) (r : Classroom) : list nat :=
  (filter (λ kv, key_timeslot kv.1 = t_id t ∧ key_classroom kv.1 = r_id r) assign).*2.

(** [model.Add(sum(vars_here) <= 1)] guarded by [if vars_here] *)
Definition add_at_most_one (model : CpModel) (vars_here : list nat) : CpModel :=
  match vars_here with
  | [] => model
  | _ => Add model (SumLe vars_here 1)
  end.

(** Constraint 2 *)
Definition room_constraints (ts : list Timeslot) (rs : list Classroom) (assign : Assign)
    (model : CpModel) : CpModel :=
  foldl (λ m t, foldl (λ m r, add_at_most_one m (vars_in_room assign t r)) m rs) model ts.

(** [{c["id"]: c["faculty_id"] for c in courses}] *)
Definition course_to_fac_of (cs : list Course) : gmap Z Z :=
  foldl (λ m c, <[c_id c := faculty_id c]> m) ∅ cs.

Definition vars_of_faculty (assign : Assign) (course_to_fac : gmap Z Z) (f_id : Z) (t : Timeslot)
  : list nat :=
  (filter (λ kv, key_timeslot kv.1 = t_id t ∧ course_to_fac !! key_course kv.1 = Some f_id)
          assign).*2.

(** Constraint 3 *)
Definition faculty_constraints (cs : list Course) (fs : list Faculty) (ts : list Timeslot)
    (assign : Assign) (model : CpModel) : CpModel :=
  let course_to_fac := course_to_fac_of cs in
  let faculty_ids := f_id <$> fs in
  foldl (λ m f_id,
           foldl (λ m t, add_at_most_one m (vars_of_faculty assign course_to_fac f_id t)) m ts)
        model faculty_ids.

(** The whole "Build model" part: the variables, then the three families of
    constraints. *)
Definition build_model (lib : Library) (d : Data) : (CpModel * Assign) + BuildFailure :=
  let '(model, assign) :=
    build_variables (courses d) (timeslots d) (classrooms d) (CpModel_new, []) in
  match coverage_constraints lib (courses d) assign model with
  | inr failure => inr failure
  | inl model =>
      let model := room_constraints (timeslots d) (classrooms d) assign model in
      let model := faculty_constraints (courses d) (faculties d) (timeslots d) assign model in
      inl (model, assign)
  end.

(** ** Persisted state and observable effects *)

(** One row of the Timetable table (the autoincrement key left out) *)
Record DbEntry := {
  course_id : Z;
  db_faculty_id : Z;
  timeslot_id : Z;
  classroom_id : Z
}.

(** Calls on the collaborators, in the order made. *)
Inductive Event :=
| EvSolve (model : CpModel) (time_limit : Z)
| EvClear
| EvCommit (rows : list DbEntry).

Record World := {
  data_file : option RawData;
  timetable_json : option (list ExportRecord);
  timetable_xlsx : option Sheet;
  db_timetable : list DbEntry;
  stdout : list string;
  trace : list Event
}.

(** The persisted schedule: the table and the two export files. *)
Definition store (w : World) : list DbEntry * option (list ExportRecord) * option Sheet :=
  (db_timetable w, timetable_json w, timetable_xlsx w).

(** Code that reads and writes the world and may raise. *)
Definition M (A : Type) : Type := World → outcome A * World.

#[global] Instance M_ret : MRet M := λ A a w, (Return a, w).
#[global] Instance M_bind : MBind M := λ A B f m w,
  match m w with
  | (Return a, w') => f a w'
  | (Raised e, w') => (Raised e, w')
  end.

Definition lift {A} (o : outcome A) : M A := λ w, (o, w).

Definition print (msg : string) : M unit := λ w,
  (Return (),
   {| data_file := data_file w; timetable_json := timetable_json w;
      timetable_xlsx := timetable_xlsx w; db_timetable := db_timetable w;
      stdout := stdout w ++ [msg]; trace := trace w |}).

Definition read_data_file : M (option RawData) := λ w, (Return (data_file w), w).

Definition call_solver (Solve : Solver) (model : CpModel) (time_limit : Z) : M (Status * Solution) :=
  λ w,
  (Return (Solve model time_limit),
   {| data_file := data_file w; timetable_json := timetable_json w;
      timetable_xlsx := timetable_xlsx w; db_timetable := db_timetable w;
      stdout := stdout w; trace := trace w ++ [EvSolve model time_limit] |}).

(** [_clear_timetable]: both export files unlinked if present, every row of
    the table deleted, the deletion committed. *)
Definition _clear_timetable : M unit := λ w,
  (Return (),
   {| data_file := data_file w; timetable_json := None; timetable_xlsx := None;
      db_timetable := []; stdout := stdout w; trace := trace w ++ [EvClear] |}).

(** [session.add] for each entry, then [session.commit()] *)
Definition save_to_database (db_entries : list DbEntry) : M unit := λ w,
  (Return (),
   {| data_file := data_file w; timetable_json := timetable_json w;
      timetable_xlsx := timetable_xlsx w; db_timetable := db_timetable w ++ db_entries;
      stdout := stdout w; trace := trace w ++ [EvCommit db_entries] |}).

Definition save_json (records : list ExportRecord) : M unit := λ w,
  (Return (),
   {| data_file := data_file w; timetable_json := Some records;
      timetable_xlsx := timetable_xlsx w; db_timetable := db_timetable w;
      stdout := stdout w; trace := trace w |}).

(** [pd.DataFrame(timetable_records).to_excel(...)] *)
Definition save_excel (lib : Library) (records : list ExportRecord) : M unit := λ w,
  (match (to_excel lib records (timetable_xlsx w)).1 with
   | None => Return ()
   | Some class_name => Raised (LibraryError class_name)
   end,
   {| data_file := data_file w; timetable_json := timetable_json w;
      timetable_xlsx := (to_excel lib records (timetable_xlsx w)).2;
      db_timetable := db_timetable w;
      stdout := stdout w; trace := trace w |}).

(** ** Solution extraction *)

Definition find_course (cs : list Course) (cid : Z) : option Course :=
  list_find (λ c, c_id c = cid) cs ≫= λ p, Some p.2.
Definition find_faculty (fs : list Faculty) (fid : Z) : option Faculty :=
  list_find (λ f, f_id f = fid) fs ≫= λ p, Some p.2.
Definition find_classroom (rs : list Classroom) (rid : Z) : option Classroom :=
  list_find (λ r, r_id r = rid) rs ≫= λ p, Some p.2.
Definition find_timeslot (ts : list Timeslot) (tid : Z) : option Timeslot :=
  list_find (λ t, t_id t = tid) ts ≫= λ p, Some p.2.

(** The body of the extraction loop for one selected candidate. *)
Definition extract_row (d : Data) (k : Key) : outcome (ExportRecord * DbEntry) :=
  let '(cid, tid, rid) := k in
  course ← next (find_course (courses d) cid);
  faculty ← next (find_faculty (faculties d) (faculty_id course));
  classroom ← next (find_classroom (classrooms d) rid);
  timeslot ← next (find_timeslot (timeslots d) tid);
  Return ({| er_course := c_name course; er_faculty := f_name faculty;
             er_classroom := r_name classroom; er_timeslot := label timeslot |},
          {| course_id := cid; db_faculty_id := faculty_id course;
             timeslot_id := tid; classroom_id := rid |}).

(** [for (cid, tid, rid), var in assign.items(): if solver.Value(var) == 1: ...] *)
Fixpoint collect_rows (sol : Solution) (d : Data) (items : Assign)
  : outcome (list ExportRecord * list DbEntry) :=
  match items with
  | [] => Return ([], [])
  | (k, var) :: rest =>
      if decide (Value sol var = 1) then
        row ← extract_row d k;
        rows ← collect_rows sol d rest;
        Return (row.1 :: rows.1, row.2 :: rows.2)
      else collect_rows sol d rest
  end.

(** ** [generate_timetable] *)

Definition generate_timetable (lib : Library) (Solve : Solver) (time_limit_seconds : Z)
  : M bool :=
  file ← read_data_file;
  match file with
  | None =>
      _ ← print "Data file not found!";
      mret false
  | Some raw_data =>
      data ← lift (_normalize_data raw_data);
      if decide (courses data ≠ [] ∧ timeslots data ≠ [] ∧ classrooms data ≠ []) then
        match build_model lib data with
        | inr (NoCandidate c) =>
            _ ← print ("No valid timeslots for course " +:+ c_name c);
            mret false
        | inr (AddRaised e) => lift (Raised e)
        | inl (model, assign) =>
            res ← call_solver Solve model time_limit_seconds;
            let '(status, sol) := res in
            if decide (status = OPTIMAL ∨ status = FEASIBLE) then
              _ ← _clear_timetable;
              rows ← lift (collect_rows sol data assign);
              let '(timetable_records, db_entries) := rows in
              _ ← save_to_database db_entries;
              _ ← save_json timetable_records;
              _ ← save_excel lib timetable_records;
              _ ← print ("Timetable generated successfully! "
                          +:+ pretty (length timetable_records) +:+ " entries created.");
              mret true
            else
              _ ← print "No feasible solution found!";
              mret false
        end
      else
        _ ← print "Insufficient data to generate timetable!";
        mret false
  end.

(** ** Notions the properties are stated with *)

(** The candidates of a dataset: the dictionary [assign] once the variable
    loop has run. *)
Definition candidates (d : Data) : Assign :=
  (build_variables (courses d) (timeslots d) (classrooms d) (CpModel_new, [])).2.

(** The candidates a solution selects. *)
Definition selected (sol : Solution) (assign : Assign) : Assign :=
  filter (λ kv, sol kv.2 = true) assign.

(** The emptiness guard of [generate_timetable]. *)
Definition sufficient (d : Data) : Prop :=
  courses d ≠ [] ∧ timeslots d ≠ [] ∧ classrooms d ≠ [].

(** No classroom can seat the course. *)
Definition uncoverable (d : Data) (c : Course) : Prop :=
  Forall (λ r, capacity r < size c) (classrooms d).

(** Rows of a schedule for one course, one room slot, one faculty slot. *)
Definition rows_of_course (rows : list DbEntry) (cid : Z) : list DbEntry :=
  filter (λ e, course_id e = cid) rows.
Definition rows_in_room (rows : list DbEntry) (tid rid : Z) : list DbEntry :=
  filter (λ e, timeslot_id e = tid ∧ classroom_id e = rid) rows.
Definition rows_of_faculty (rows : list DbEntry) (tid fid : Z) : list DbEntry :=
  filter (λ e, timeslot_id e = tid ∧ db_faculty_id e = fid) rows.

(** The rows that extraction resolves to the course record [c]: its
    [next(c for c in courses if c["id"] == c_id)] finds [c]. *)
Definition rows_resolved_to (d : Data) (rows : list DbEntry) (c : Course) : list DbEntry :=
  filter (λ e, find_course (courses d) (course_id e) = Some c) rows.

(** A row and the candidate it was extracted from. *)
Definition row_of_key (d : Data) (k : Key) (e : DbEntry) : Prop :=
  course_id e = key_course k ∧ timeslot_id e = key_timeslot k ∧
  classroom_id e = key_classroom k ∧
  ∃ c f r t, find_course (courses d) (key_course k) = Some c ∧
             db_faculty_id e = faculty_id c ∧
             find_faculty (faculties d) (faculty_id c) = Some f ∧
             find_classroom (classrooms d) (key_classroom k) = Some r ∧
             find_timeslot (timeslots d) (key_timeslot k) = Some t.

(** Every record carries the fields the normalizer indexes without a
    default: "id" everywhere, "name" or "label". *)
Definition required_fields_present (raw : RawData) : Prop :=
  Forall (λ f, is_Some (rf_id f) ∧ is_Some (rf_name f)) (get (raw_faculties raw) []) ∧
  Forall (λ c, is_Some (rc_id c) ∧ is_Some (rc_name c)) (get (raw_courses raw) []) ∧
  Forall (λ r, is_Some (rr_id r) ∧ is_Some (rr_name r)) (get (raw_classrooms raw) []) ∧
  Forall (λ t, is_Some (rt_id t) ∧ is_Some (rt_label t)) (get (raw_timeslots raw) []).

(** A course whose faculty reference is absent or names no faculty. *)
Definition faculty_unresolved (raw : RawData) (c : RawCourse) : Prop :=
  ∀ fk, rc_faculty_id c = Some fk → Some fk ∉ rf_id <$> get (raw_faculties raw) [].

(** The world after a failed attempt that printed [msgs] and made the
    collaborator calls [evs]: nothing else differs. *)
Definition after_failure (w : World) (msgs : list string) (evs : list Event) : World :=
  {| data_file := data_file w; timetable_json := timetable_json w;
     timetable_xlsx := timetable_xlsx w; db_timetable := db_timetable w;
     stdout := stdout w ++ msgs; trace := trace w ++ evs |}.

(** The world after a successful attempt. *)
Definition after_success (lib : Library) (w : World) (model : CpModel) (tl : Z)
    (records : list ExportRecord) (rows : list DbEntry) : World :=
  {| data_file := data_file w; timetable_json := Some records;
     timetable_xlsx := (to_excel lib records None).2; db_timetable := rows;
     stdout := stdout w ++ ["Timetable generated successfully! "
                            +:+ pretty (length records) +:+ " entries created."];
     trace := trace w ++ [EvSolve model tl; EvClear; EvCommit rows] |}.

(** The world when [to_excel] raised: the table and timetable.json are
    already rewritten, nothing was printed. *)
Definition after_export_failure (lib : Library) (w : World) (model : CpModel) (tl : Z)
    (records : list ExportRecord) (rows : list DbEntry) : World :=
  {| data_file := data_file w; timetable_json := Some records;
     timetable_xlsx := (to_excel lib records None).2; db_timetable := rows;
     stdout := stdout w;
     trace := trace w ++ [EvSolve model tl; EvClear; EvCommit rows] |}.

(** The world when extraction raised: the store is already cleared. *)
Definition after_crash (w : World) (model : CpModel) (tl : Z) : World :=
  {| data_file := data_file w; timetable_json := None; timetable_xlsx := None;
     db_timetable := []; stdout := stdout w;
     trace := trace w ++ [EvSolve model tl; EvClear] |}.

(** The calls made on the result sink among a list of events. *)
Definition is_sink_call (ev : Event) : bool :=
  match ev with
  | EvSolve _ _ => false
  | EvClear | EvCommit _ => true
  end.

Definition sink_calls (evs : list Event) : list Event :=
  filter (λ ev, is_sink_call ev = true) evs.

(** ** A reference solver: exhaustive search over all assignments *)

Fixpoint assignments (n : nat) : list (list bool) :=
  match n with
  | O => [[]]
  | S n' => (cons false <$> assignments n') ++ (cons true <$> assignments n')
  end.

Definition solution_of (bits : list bool) : Solution :=
  λ v, default false (bits !! v).

Definition exhaustive_search : Solver := λ m _,
  match list_find (λ bits, satisfies (solution_of bits) m = true) (assignments (num_vars m)) with
  | Some (_, bits) => (OPTIMAL, solution_of bits)
  | None => (INFEASIBLE, λ _, false)
  end.

(** A solver that gives up at once, as on an exhausted time budget. *)
Definition out_of_time : Solver := λ _ _, (UNKNOWN, λ _, false).

(** A solver that breaks its contract: it claims every variable is true. *)
Definition careless : Solver := λ _ _, (FEASIBLE, λ _, true).

(** ** Reference libraries for the examples *)

Definition sheet_of (records : list ExportRecord) : Sheet :=
  ["course"; "faculty"; "classroom"; "timeslot"]
  :: ((λ r, [er_course r; er_faculty r; er_classroom r; er_timeslot r]) <$> records).

(** Libraries that refuse a bound outside the range and write every frame. *)
Definition reference_library : Library :=
  {| add_out_of_range := λ _, Raises "ValueError";
     to_excel := λ records _, (None, Some (sheet_of records)) |}.

(** Libraries whose [to_excel] moreover refuses a frame with a control
    character in a cell, and leaves an empty workbook then. *)
Definition strict_library : Library :=
  {| add_out_of_range := λ _, Raises "ValueError";
     to_excel := λ records _,
       if forallb plain_record records then (None, Some (sheet_of records))
       else (Some "IllegalCharacterError", Some []) |}.

(** ** Datasets *)

Definition a_world (file : option RawData) : World :=
  {| data_file := file;
     timetable_json := Some [{| er_course := "Old"; er_faculty := "Old";
                                er_classroom := "Old"; er_timeslot := "Old" |}];
     timetable_xlsx := None;
     db_timetable := [{| course_id := 7; db_faculty_id := 7;
                         timeslot_id := 7; classroom_id := 7 |}];
     stdout := []; trace := [] |}.

(** Scenario A: one course (2 sessions, 10 students), one faculty, two
    rooms of 20 seats, three timeslots. *)
Definition scenario_A : RawData := {|
  raw_faculties := Some [ {| rf_id := Some "f1"; rf_name := Some "Rao" |} ];
  raw_courses := Some [ {| rc_id := Some "c1"; rc_name := Some "Algorithms";
                           rc_requiredSlots := Some 2; rc_size := Some 10;
                           rc_faculty_id := Some "f1" |} ];
  raw_classrooms := Some [ {| rr_id := Some "r1"; rr_name := Some "Room 1";
                              rr_capacity := Some 20; rr_type := None |};
                           {| rr_id := Some "r2"; rr_name := Some "Room 2";
                              rr_capacity := Some 20; rr_type := None |} ];
  raw_timeslots := Some [ {| rt_id := Some "t1"; rt_label := Some "Mon 9" |};
                          {| rt_id := Some "t2"; rt_label := Some "Mon 10" |};
                          {| rt_id := Some "t3"; rt_label := Some "Mon 11" |} ]
|}.

(** Scenario C: two courses of one faculty, one session each, a single
    timeslot, two rooms. *)
Definition scenario_C : RawData := {|
  raw_faculties := Some [ {| rf_id := Some "f1"; rf_name := Some "Rao" |} ];
  raw_courses := Some [ {| rc_id := Some "c1"; rc_name := Some "Algorithms";
                           rc_requiredSlots := Some 1; rc_size := Some 10;
                           rc_faculty_id := Some "f1" |};
                        {| rc_id := Some "c2"; rc_name := Some "Logic";
                           rc_requiredSlots := Some 1; rc_size := Some 10;
                           rc_faculty_id := Some "f1" |} ];
  raw_classrooms := Some [ {| rr_id := Some "r1"; rr_name := Some "Room 1";
                              rr_capacity := Some 20; rr_type := None |};
                           {| rr_id := Some "r2"; rr_name := Some "Room 2";
                              rr_capacity := Some 20; rr_type := None |} ];
  raw_timeslots := Some [ {| rt_id := Some "t1"; rt_label := Some "Mon 9" |} ]
|}.

(** A dataset without faculties that passes the emptiness guard. *)
Definition no_faculties : RawData := {|
  raw_faculties := Some [];
  raw_courses := Some [ {| rc_id := Some "c1"; rc_name := Some "Algorithms";
                           rc_requiredSlots := Some 1; rc_size := Some 10;
                           rc_faculty_id := None |} ];
  raw_classrooms := Some [ {| rr_id := Some "r1"; rr_name := Some "Room 1";
                              rr_capacity := Some 20; rr_type := None |} ];
  raw_timeslots := Some [ {| rt_id := Some "t1"; rt_label := Some "Mon 9" |} ]
|}.

(** A course of 100 students, a room of 50 seats, one timeslot. *)
Definition scenario_B : RawData := {|
  raw_faculties := Some [ {| rf_id := Some "f1"; rf_name := Some "Rao" |} ];
  raw_courses := Some [ {| rc_id := Some "c1"; rc_name := Some "Big";
                           rc_requiredSlots := Some 1; rc_size := Some 100;
                           rc_faculty_id := Some "f1" |} ];
  raw_classrooms := Some [ {| rr_id := Some "r1"; rr_name := Some "Room 1";
                              rr_capacity := Some 50; rr_type := None |} ];
  raw_timeslots := Some [ {| rt_id := Some "t1"; rt_label := Some "Mon 9" |} ]
|}.

(** The same course and room with no timeslot at all. *)
Definition oversized_no_timeslot : RawData := {|
  raw_faculties := raw_faculties scenario_B;
  raw_courses := raw_courses scenario_B;
  raw_classrooms := raw_classrooms scenario_B;
  raw_timeslots := Some []
|}.

(** Two course records under one identifier: 100 students, then 10. *)
Definition duplicate_course_id : RawData := {|
  raw_faculties := raw_faculties scenario_B;
  raw_courses := Some [ {| rc_id := Some "c1"; rc_name := Some "Big";
                           rc_requiredSlots := Some 1; rc_size := Some 100;
                           rc_faculty_id := Some "f1" |};
                        {| rc_id := Some "c1"; rc_name := Some "Small";
                           rc_requiredSlots := Some 1; rc_size := Some 10;
                           rc_faculty_id := Some "f1" |} ];
  raw_classrooms := raw_classrooms scenario_B;
  raw_timeslots := raw_timeslots scenario_B
|}.

(** Three course records, the last two under one identifier but with
    different faculties; two rooms, one timeslot. *)
Definition duplicate_id_two_faculties : RawData := {|
  raw_faculties := Some [ {| rf_id := Some "f1"; rf_name := Some "Rao" |};
                          {| rf_id := Some "f2"; rf_name := Some "Sen" |} ];
  raw_courses := Some [ {| rc_id := Some "c1"; rc_name := Some "Algorithms";
                           rc_requiredSlots := Some 1; rc_size := Some 10;
                           rc_faculty_id := Some "f1" |};
                        {| rc_id := Some "c2"; rc_name := Some "Logic";
                           rc_requiredSlots := Some 1; rc_size := Some 10;
                           rc_faculty_id := Some "f1" |};
                        {| rc_id := Some "c2"; rc_name := Some "Logic II";
                           rc_requiredSlots := Some 1; rc_size := Some 10;
                           rc_faculty_id := Some "f2" |} ];
  raw_classrooms := raw_classrooms scenario_C;
  raw_timeslots := raw_timeslots scenario_C
|}.

(** Two room records under one identifier: 10 seats, then 50; a course of
    30 students. *)
Definition duplicate_classroom_id : RawData := {|
  raw_faculties := raw_faculties scenario_B;
  raw_courses := Some [ {| rc_id := Some "c1"; rc_name := Some "Algorithms";
                           rc_requiredSlots := Some 1; rc_size := Some 30;
                           rc_faculty_id := Some "f1" |} ];
  raw_classrooms := Some [ {| rr_id := Some "r1"; rr_name := Some "Closet";
                              rr_capacity := Some 10; rr_type := None |};
                           {| rr_id := Some "r1"; rr_name := Some "Hall";
                              rr_capacity := Some 50; rr_type := None |} ];
  raw_timeslots := raw_timeslots scenario_B
|}.

(** A course that fits the room and asks for 2^63 - 1 sessions, followed by
    a course of 100 students; a room of 50 seats. *)
Definition sessions_out_of_range : RawData := {|
  raw_faculties := raw_faculties scenario_B;
  raw_courses := Some [ {| rc_id := Some "c0"; rc_name := Some "Seminar";
                           rc_requiredSlots := Some 9223372036854775807;
                           rc_size := Some 10; rc_faculty_id := Some "f1" |};
                        {| rc_id := Some "c1"; rc_name := Some "Big";
                           rc_requiredSlots := Some 1; rc_size := Some 100;
                           rc_faculty_id := Some "f1" |} ];
  raw_classrooms := raw_classrooms scenario_B;
  raw_timeslots := raw_timeslots scenario_B
|}.

(** Scenario B with a room of 200 seats and a bell character at the head
    of the course's name. *)
Definition control_character_in_name : RawData := {|
  raw_faculties := raw_faculties scenario_B;
  raw_courses := Some [ {| rc_id := Some "c1";
                           rc_name := Some (String (Ascii.ascii_of_nat 7) "Big");
                           rc_requiredSlots := Some 1; rc_size := Some 100;
                           rc_faculty_id := Some "f1" |} ];
  raw_classrooms := Some [ {| rr_id := Some "r1"; rr_name := Some "Hall";
                              rr_capacity := Some 200; rr_type := None |} ];
  raw_timeslots := raw_timeslots scenario_B
|}.

(** Records that carry only their required fields. *)
Definition bare_records : RawData := {|
  raw_faculties := Some [ {| rf_id := Some "f1"; rf_name := Some "Rao" |};
                          {| rf_id := Some "f2"; rf_name := Some "Sen" |} ];
  raw_courses := Some [ {| rc_id := Some "c1"; rc_name := Some "Algorithms";
                           rc_requiredSlots := None; rc_size := None;
                           rc_faculty_id := None |};
                        {| rc_id := Some "c2"; rc_name := Some "Logic";
                           rc_requiredSlots := None; rc_size := None;
                           rc_faculty_id := Some "nobody" |} ];
  raw_classrooms := Some [ {| rr_id := Some "r1"; rr_name := Some "Room 1";
                              rr_capacity := None; rr_type := None |} ];
  raw_timeslots := Some [ {| rt_id := Some "t1"; rt_label := Some "Mon 9" |} ]
|}.

(** The normalized form of a dataset known to normalize. *)
Definition normalized (raw : RawData) : Data :=
  match _normalize_data raw with
  | Return d => d
  | Raised _ =>
      {| faculties := []; courses := []; classrooms := []; timeslots := [];
         id_mappings := {| faculty_map := ∅; course_map := ∅;
                           classroom_map := ∅; timeslot_map := ∅ |} |}
  end.

(** The model and candidates of a dataset known to build. *)
Definition model_of (d : Data) : CpModel :=
  match build_model reference_library d with
  | inl (model, _) => model
  | inr _ => CpModel_new
  end.

(** ** The paths through [generate_timetable]

    One constructor per way the call can end, with the world it leaves. *)

Inductive run (lib : Library) (Solve : Solver) (tl : Z) (w : World)
  : outcome bool → World → Prop :=
| run_no_file :
    data_file w = None →
    run lib Solve tl w (Return false) (after_failure w ["Data file not found!"] [])
| run_bad_record raw e :
    data_file w = Some raw →
    _normalize_data raw = Raised e →
    run lib Solve tl w (Raised e) w
| run_insufficient raw d :
    data_file w = Some raw →
    _normalize_data raw = Return d →
    ¬ sufficient d →
    run lib Solve tl w (Return false)
        (after_failure w ["Insufficient data to generate timetable!"] [])
| run_no_candidate raw d c :
    data_file w = Some raw →
    _normalize_data raw = Return d →
    sufficient d →
    build_model lib d = inr (NoCandidate c) →
    run lib Solve tl w (Return false)
        (after_failure w ["No valid timeslots for course " +:+ c_name c] [])
| run_add_raised raw d e :
    data_file w = Some raw →
    _normalize_data raw = Return d →
    sufficient d →
    build_model lib d = inr (AddRaised e) →
    run lib Solve tl w (Raised e) w
| run_no_solution raw d model assign :
    data_file w = Some raw →
    _normalize_data raw = Return d →
    sufficient d →
    build_model lib d = inl (model, assign) →
    ¬ ((Solve model tl).1 = OPTIMAL ∨ (Solve model tl).1 = FEASIBLE) →
    run lib Solve tl w (Return false)
        (after_failure w ["No feasible solution found!"] [EvSolve model tl])
| run_crash raw d model assign e :
    data_file w = Some raw →
    _normalize_data raw = Return d →
    sufficient d →
    build_model lib d = inl (model, assign) →
    (Solve model tl).1 = OPTIMAL ∨ (Solve model tl).1 = FEASIBLE →
    collect_rows (Solve model tl).2 d assign = Raised e →
    run lib Solve tl w (Raised e) (after_crash w model tl)
| run_export_failed raw d model assign records rows class_name :
    data_file w = Some raw →
    _normalize_data raw = Return d →
    sufficient d →
    build_model lib d = inl (model, assign) →
    (Solve model tl).1 = OPTIMAL ∨ (Solve model tl).1 = FEASIBLE →
    collect_rows (Solve model tl).2 d assign = Return (records, rows) →
    (to_excel lib records None).1 = Some class_name →
    run lib Solve tl w (Raised (LibraryError class_name))
        (after_export_failure lib w model tl records rows)
| run_success raw d model assign records rows :
    data_file w = Some raw →
    _normalize_data raw = Return d →
    sufficient d →
    build_model lib d = inl (model, assign) →
    (Solve model tl).1 = OPTIMAL ∨ (Solve model tl).1 = FEASIBLE →
    collect_rows (Solve model tl).2 d assign = Return (records, rows) →
    (to_excel lib records None).1 = None →
    run lib Solve tl w (Return true) (after_success lib w model tl records rows).

(** Runs of the reference solver used as examples. *)
Definition run_of (Solve : Solver) (raw : RawData) : outcome bool * World :=
  generate_timetable reference_library Solve 30 (a_world (Some raw)).

(** The normalized course of scenario A. *)
Definition scenario_A_course : Course :=
  {| c_id := 1; c_name := "Algorithms"; sessions_per_week := 2; size := 10;
     faculty_id := 1; c_original_id := "c1" |}.

(** ** Finite checks over all assignments

    A model mentions finitely many variables, so a property of the rows of
    every solution can be checked on the enumerated assignments. *)

(** The variables a constraint mentions *)
Definition constraint_vars (c : Constraint) : list nat :=
  match c with
  | SumEq vars _ | SumLe vars _ => vars
  | AlwaysFalse => []
  end.

(** Every variable of the model and of [assign] was allocated. *)
Definition in_range (m : CpModel) (assign : Assign) : bool :=
  forallb (λ c, forallb (λ v, bool_decide (v < num_vars m)%nat) (constraint_vars c))
          (constraints m)
  && forallb (λ kv : Key * nat, bool_decide (kv.2 < num_vars m)%nat) assign.

(** The values a solution gives to the first [n] variables *)
Definition first_values (sol : Solution) (n : nat) : list bool := sol <$> seq 0 n.

(** Exactly two rows, both of course [cid], on different timeslots. *)
Definition two_sessions_apart (cid : Z) (rows : list DbEntry) : bool :=
  match rows with
  | [e1; e2] =>
      bool_decide (course_id e1 = cid ∧ course_id e2 = cid ∧ timeslot_id e1 ≠ timeslot_id e2)
  | _ => false
  end.

(** No name of the dataset holds a character the export refuses. *)
Definition names_plain (d : Data) : bool :=
  forallb (λ c, plain (c_name c)) (courses d) &&
  forallb (λ f, plain (f_name f)) (faculties d) &&
  forallb (λ r, plain (r_name r)) (classrooms d) &&
  forallb (λ t, plain (label t)) (timeslots d).

(** If the assignment satisfies the model, its rows pass the check. *)
Definition passes (check : list DbEntry → bool) (d : Data) (m : CpModel) (assign : Assign)
    (bits : list bool) : bool :=
  implb (satisfies (solution_of bits) m)
        (match collect_rows (solution_of bits) d assign with
         | Return (_, rows) => check rows
         | Raised _ => false
         end).

(** The check run on every assignment of the model's variables *)
Definition all_solutions_pass (check : list DbEntry → bool) (d : Data) (m : CpModel)
    (assign : Assign) : bool :=
  forallb (passes check d m assign) (assignments (num_vars m)).

(** ** Notions of the further properties *)

(** A raw record and its normalized form agree on the identifier, and the
    identifier map sends it to the internal index. *)
Definition indexed {A B} (get_id : A → option string) (nid : B → Z) (orig : B → string)
    (m : gmap string Z) (x : A) (y : B) : Prop :=
  get_id x = Some (orig y) ∧ m !! orig y = Some (nid y).

(** The indices [1; 2; ...; n] *)
Definition one_to (n : nat) : list Z := (λ i, Z.of_nat i + 1) <$> seq 0 n.

(** How often the variable loop finds a room large enough: per course, the
    number of timeslots times the number of rooms that fit. *)
Definition count_candidates (cs : list Course) (ts : list Timeslot) (rs : list Classroom)
  : nat :=
  sum_list ((λ c, (length ts * length (filter (λ r, (size c ≤ capacity r)%Z) rs))%nat) <$> cs).

(** What the variable loop keeps true of the model and [assign]. *)
Definition variables_inv (st : CpModel * Assign) : Prop :=
  NoDup st.2.*1 ∧ NoDup st.2.*2 ∧
  Forall (λ v, (v < num_vars st.1)%nat) st.2.*2 ∧
  constraints st.1 = [].

(** Every constraint of the model speaks of variables held in [assign]. *)
Definition constraints_inv (assign : Assign) (m : CpModel) : Prop :=
  Forall (λ c, constraint_vars c ⊆ assign.*2) (constraints m).

(** [solver.Solve] calls among a list of events *)
Definition solver_calls (evs : list Event) : list Event :=
  filter (λ ev, is_sink_call ev = false) evs.

(** An export record and a table row that describe the same session of
    dataset [d]: the row's indices resolve, by first match as in the
    extraction loop, to the records whose names the export record shows. *)
Definition same_session (d : Data) (rec : ExportRecord) (e : DbEntry) : Prop :=
  ∃ c f r t,
    find_course (courses d) (course_id e) = Some c ∧
    find_faculty (faculties d) (db_faculty_id e) = Some f ∧
    find_classroom (classrooms d) (classroom_id e) = Some r ∧
    find_timeslot (timeslots d) (timeslot_id e) = Some t ∧
    db_faculty_id e = faculty_id c ∧
    rec = {| er_course := c_name c; er_faculty := f_name f;
             er_classroom := r_name r; er_timeslot := label t |}.

(** The lines a call printed and the events it added, given the world it
    started from. *)
Definition printed (w w' : World) : list string := drop (length (stdout w)) (stdout w').

(** The (timeslot, classroom) slots of a dataset, by internal index. *)
Definition room_slots (d : Data) : list (Z * Z) :=
  timeslots d ≫= λ t, (λ r, (t_id t, r_id r)) <$> classrooms d.

(** ** The web endpoints of app/main.py that use the scheduler *)

(** What an [except Exception as e] clause of an endpoint can catch. *)
Inductive PyError :=
| SchedulerError (e : exn)
| HTTPException (status_code : Z) (detail : string).

(** How a request ends: a JSON body, or an [HTTPException] that leaves the
    handler. *)
Inductive Reply (A : Type) :=
| Replied (body : A)
| Failed (status_code : Z) (detail : string).
Arguments Replied {A} body.
Arguments Failed {A} status_code detail.

Record GenerateBody := { gb_status : string; gb_message : string }.

(** [get_timetable]: every row of the table *)
Definition get_timetable (w : World) : list DbEntry := db_timetable w.

(** The body of the [try] block of [generate_timetable_endpoint]: the value
    returned, or the exception that reaches the [except] clause. *)
Definition generate_attempt (res : outcome bool) : GenerateBody + PyError :=
  match res with
  | Return true =>
      inl {| gb_status := "success"; gb_message := "Timetable generated successfully!" |}
  | Return false =>
      inr (HTTPException 400
             "Failed to generate timetable. Check if data.json exists and contains valid data.")
  | Raised e => inr (SchedulerError e)
  end.

(** [generate_timetable_endpoint]; [str] is Python's [str(e)], which the
    libraries define. *)
Definition generate_timetable_endpoint (str : PyError → string) (lib : Library)
    (Solve : Solver) : World → Reply GenerateBody * World := λ w,
  let '(res, w1) := generate_timetable lib Solve 30 w in
  match generate_attempt res with
  | inl body => (Replied body, w1)
  | inr e =>
      (Failed 500 ("Error generating timetable: " +:+ str e),
       (print ("Error in generate_timetable_endpoint: " +:+ str e) w1).2)
  end.

(** * Properties *)

Lemma world_eta w :
  {| data_file := data_file w; timetable_json := timetable_json w;
     timetable_xlsx := timetable_xlsx w; db_timetable := db_timetable w;
     stdout := stdout w; trace := trace w |} = w.
Proof. by destruct w. Qed.

(** [generate_timetable] ends along one of the paths of [run]. *)
Lemma generate_timetable_run lib Solve tl w :
  run lib Solve tl w (generate_timetable lib Solve tl w).1 (generate_timetable lib Solve tl w).2.
Proof.
  unfold generate_timetable, mbind, M_bind, read_data_file.
  destruct (data_file w) as [raw|] eqn:Hfile.
  - unfold lift. destruct (_normalize_data raw) as [d|e] eqn:Hnorm.
    + destruct (decide (courses d ≠ [] ∧ timeslots d ≠ [] ∧ classrooms d ≠ [])) as [Hs|Hs].
      * destruct (build_model lib d) as [[model assign]|[c|e]] eqn:Hbuild.
        -- unfold call_solver. destruct (Solve model tl) as [status sol] eqn:Hsolve.
           destruct (decide (status = OPTIMAL ∨ status = FEASIBLE)) as [Hst|Hst].
           ++ cbn. destruct (collect_rows sol d assign) as [[records rows]|e] eqn:Hrows.
              ** cbn.
                 replace sol with (Solve model tl).2 in Hrows by (by rewrite Hsolve).
                 replace status with (Solve model tl).1 in Hst by (by rewrite Hsolve).
                 rewrite <- !app_assoc. cbn.
                 destruct (to_excel lib records None).1 as [class_name|] eqn:Hexcel; cbn.
                 --- exact (run_export_failed lib Solve tl w raw d model assign records rows
                              class_name Hfile Hnorm Hs Hbuild Hst Hrows Hexcel).
                 --- exact (run_success lib Solve tl w raw d model assign records rows
                              Hfile Hnorm Hs Hbuild Hst Hrows Hexcel).
              ** cbn.
                 replace sol with (Solve model tl).2 in Hrows by (by rewrite Hsolve).
                 replace status with (Solve model tl).1 in Hst by (by rewrite Hsolve).
                 rewrite <- !app_assoc. cbn.
                 exact (run_crash lib Solve tl w raw d model assign e
                          Hfile Hnorm Hs Hbuild Hst Hrows).
           ++ cbn.
              replace status with (Solve model tl).1 in Hst by (by rewrite Hsolve).
              exact (run_no_solution lib Solve tl w raw d model assign
                       Hfile Hnorm Hs Hbuild Hst).
        -- cbn.
           pose proof (run_no_candidate lib Solve tl w raw d c Hfile Hnorm Hs Hbuild) as R.
           unfold after_failure in R. rewrite app_nil_r in R. exact R.
        -- cbn.
           exact (run_add_raised lib Solve tl w raw d e Hfile Hnorm Hs Hbuild).
      * cbn.
        pose proof (run_insufficient lib Solve tl w raw d Hfile Hnorm Hs) as R.
        unfold after_failure in R. rewrite app_nil_r in R. exact R.
    + cbn. exact (run_bad_record lib Solve tl w raw e Hfile Hnorm).
  - cbn.
    pose proof (run_no_file lib Solve tl w Hfile) as R.
    unfold after_failure in R. rewrite app_nil_r in R. exact R.
Qed.

(** *** Solutions and constraints *)

Lemma Value_1 sol v : Value sol v = 1 ↔ sol v = true.
Proof. unfold Value. destruct (sol v); split; (done || lia). Qed.

Lemma satisfies_holds sol m c :
  satisfies sol m = true → c ∈ constraints m → holds sol c = true.
Proof.
  unfold satisfies. rewrite forallb_forall.
  intros H Hc. by apply H, list_elem_of_In.
Qed.

(** The sum of the variables of the items that pass a test counts the
    selected items that pass it. *)
Lemma sum_values_count sol (P : Key * nat → Prop) `{!∀ kv, Decision (P kv)} (assign : Assign) :
  sum_values sol (filter P assign).*2 = Z.of_nat (length (filter P (selected sol assign))).
Proof.
  unfold selected. induction assign as [|[k v] assign IH]; [done|].
  rewrite !filter_cons. cbn [snd].
  destruct (decide (P (k, v))) as [HP|HP].
  - cbn [fmap list_fmap sum_values foldr snd]. fold (sum_values sol (filter P assign).*2).
    rewrite IH. unfold Value.
    destruct (decide (sol v = true)) as [Hv|Hv].
    + rewrite Hv, filter_cons, decide_True by done. cbn [length]. lia.
    + apply not_true_is_false in Hv. rewrite Hv. lia.
  - rewrite IH. destruct (decide (sol v = true)); [|done].
    by rewrite filter_cons, decide_False.
Qed.

(** *** Extraction *)

Lemma find_course_Some cs cid c :
  find_course cs cid = Some c → c ∈ cs ∧ c_id c = cid.
Proof.
  unfold find_course. destruct (list_find _ cs) as [[i c']|] eqn:H; [|done].
  cbn. intros [= <-]. apply list_find_Some in H as (Hi & Hc & _).
  split; [by eapply list_elem_of_lookup_2|done].
Qed.

Lemma find_course_elem_of cs c : c ∈ cs → is_Some (find_course cs (c_id c)).
Proof.
  intros Hc. unfold find_course.
  destruct (list_find_elem_of (λ c', c_id c' = c_id c) cs c Hc eq_refl) as [[i c'] ->].
  by eexists.
Qed.

Lemma find_classroom_Some rs rid r :
  find_classroom rs rid = Some r → r ∈ rs ∧ r_id r = rid.
Proof.
  unfold find_classroom. destruct (list_find _ rs) as [[i r']|] eqn:H; [|done].
  cbn. intros [= <-]. apply list_find_Some in H as (Hi & Hc & _).
  split; [by eapply list_elem_of_lookup_2|done].
Qed.

Lemma find_faculty_Some fs fid f :
  find_faculty fs fid = Some f → f ∈ fs ∧ f_id f = fid.
Proof.
  unfold find_faculty. destruct (list_find _ fs) as [[i f']|] eqn:H; [|done].
  cbn. intros [= <-]. apply list_find_Some in H as (Hi & Hc & _).
  split; [by eapply list_elem_of_lookup_2|done].
Qed.

Lemma find_timeslot_Some ts tid t :
  find_timeslot ts tid = Some t → t ∈ ts ∧ t_id t = tid.
Proof.
  unfold find_timeslot. destruct (list_find _ ts) as [[i t']|] eqn:H; [|done].
  cbn. intros [= <-]. apply list_find_Some in H as (Hi & Hc & _).
  split; [by eapply list_elem_of_lookup_2|done].
Qed.

Lemma extract_row_Return d k rec e :
  extract_row d k = Return (rec, e) → row_of_key d k e.
Proof.
  destruct k as [[cid tid] rid]. unfold extract_row, row_of_key, mbind, outcome_bind, next.
  cbn [key_course key_timeslot key_classroom fst snd].
  destruct (find_course (courses d) cid) as [c|] eqn:Hc; [|done].
  destruct (find_faculty (faculties d) (faculty_id c)) as [f|] eqn:Hf; [|done].
  destruct (find_classroom (classrooms d) rid) as [r|] eqn:Hr; [|done].
  destruct (find_timeslot (timeslots d) tid) as [t|] eqn:Ht; [|done].
  intros [= <- <-]. cbn. repeat split; eauto 10.
Qed.

Lemma extract_row_Raised d k e : extract_row d k = Raised e → e = StopIteration.
Proof.
  destruct k as [[cid tid] rid]. unfold extract_row, mbind, outcome_bind, next.
  repeat case_match; congruence.
Qed.

(** On success there is one row per selected candidate, in the order of
    [assign]. *)
Lemma collect_rows_Return sol d assign records rows :
  collect_rows sol d assign = Return (records, rows) →
  Forall2 (λ kv e, row_of_key d kv.1 e) (selected sol assign) rows ∧
  length records = length rows.
Proof.
  unfold selected. revert records rows.
  induction assign as [|[k v] assign IH]; intros records rows.
  - intros [= <- <-]. by split; [constructor|].
  - cbn [collect_rows]. rewrite filter_cons. cbn [snd].
    destruct (decide (Value sol v = 1)) as [Hv|Hv].
    + rewrite decide_True by (by apply Value_1).
      unfold mbind, outcome_bind.
      destruct (extract_row d k) as [[rec e]|] eqn:Hrow; [|done].
      destruct (collect_rows sol d assign) as [[recs es]|]; [|done].
      intros [= <- <-]. destruct (IH recs es eq_refl) as [IH1 IH2].
      split; [|cbn; lia].
      constructor; [|done]. by eapply extract_row_Return.
    + rewrite decide_False by (by rewrite <- Value_1). apply IH.
Qed.

Lemma collect_rows_Raised sol d assign e :
  collect_rows sol d assign = Raised e → e = StopIteration.
Proof.
  induction assign as [|[k v] assign IH]; [done|].
  cbn [collect_rows]. case_decide; [|done].
  unfold mbind, outcome_bind.
  destruct (extract_row d k) eqn:Hrow.
  - destruct (collect_rows sol d assign); [done|]. intros [= <-]. by apply IH.
  - intros [= <-]. by eapply extract_row_Raised.
Qed.

(** Related lists have as many elements passing related tests. *)
Lemma Forall2_filter_length {A B} (R : A → B → Prop) (P : A → Prop) (Q : B → Prop)
    `{!∀ x, Decision (P x)} `{!∀ y, Decision (Q y)} l1 l2 :
  Forall2 R l1 l2 →
  (∀ x y, R x y → (P x ↔ Q y)) →
  length (filter P l1) = length (filter Q l2).
Proof.
  intros HF HR. induction HF as [|x y l1 l2 Hxy HF IH]; [done|].
  rewrite !filter_cons. specialize (HR x y Hxy).
  destruct (decide (P x)), (decide (Q y)); cbn; try tauto; by rewrite IH.
Qed.

(** *** Constraints posted by the model builder *)

Lemma add_at_most_one_mono m vars c :
  c ∈ constraints m → c ∈ constraints (add_at_most_one m vars).
Proof. destruct vars; cbn; [done|]. intros. apply elem_of_app. by left. Qed.

Lemma add_at_most_one_posted m vars :
  vars ≠ [] → SumLe vars 1 ∈ constraints (add_at_most_one m vars).
Proof. destruct vars; [done|]. intros _. cbn. apply elem_of_app. right. by left. Qed.

(** A loop that only posts at-most-one constraints keeps what was posted
    and posts the constraint of every iteration with variables. *)
Lemma foldl_posts {A} (f : CpModel → A → CpModel) (P : A → Constraint → Prop) l :
  (∀ m x c, c ∈ constraints m → c ∈ constraints (f m x)) →
  (∀ m x c, P x c → c ∈ constraints (f m x)) →
  ∀ m, (∀ c, c ∈ constraints m → c ∈ constraints (foldl f m l)) ∧
       (∀ x c, x ∈ l → P x c → c ∈ constraints (foldl f m l)).
Proof.
  intros Hmono Hpost. induction l as [|y l IH]; intros m; cbn.
  - split; [done|]. intros x c Hx. by apply elem_of_nil in Hx.
  - destruct (IH (f m y)) as [IH1 IH2]. split.
    + intros c Hc. by apply IH1, Hmono.
    + intros x c Hx HP. apply elem_of_cons in Hx as [->|Hx].
      * by apply IH1, Hpost.
      * by eapply IH2.
Qed.

Lemma room_constraints_spec ts rs assign m :
  (∀ c, c ∈ constraints m → c ∈ constraints (room_constraints ts rs assign m)) ∧
  (∀ t r, t ∈ ts → r ∈ rs → vars_in_room assign t r ≠ [] →
          SumLe (vars_in_room assign t r) 1 ∈ constraints (room_constraints ts rs assign m)).
Proof.
  unfold room_constraints.
  pose proof (λ t, foldl_posts (λ m r, add_at_most_one m (vars_in_room assign t r))
                (λ r c, vars_in_room assign t r ≠ [] ∧ c = SumLe (vars_in_room assign t r) 1) rs
                (λ m r c, add_at_most_one_mono m _ c)) as Hin.
  assert (∀ t m, (∀ c, c ∈ constraints m →
                   c ∈ constraints (foldl (λ m r, add_at_most_one m (vars_in_room assign t r)) m rs)) ∧
                 (∀ r c, r ∈ rs →
                   vars_in_room assign t r ≠ [] ∧ c = SumLe (vars_in_room assign t r) 1 →
                   c ∈ constraints (foldl (λ m r, add_at_most_one m (vars_in_room assign t r)) m rs)))
    as Hinner.
  { intros t m'. apply Hin. intros m'' r c [Hne ->]. by apply add_at_most_one_posted. }
  clear Hin.
  destruct (foldl_posts
              (λ m t, foldl (λ m r, add_at_most_one m (vars_in_room assign t r)) m rs)
              (λ t c, ∃ r, r ∈ rs ∧ vars_in_room assign t r ≠ [] ∧
                           c = SumLe (vars_in_room assign t r) 1) ts
              (λ m t c, proj1 (Hinner t m) c)) with (m := m) as [H1 H2].
  { intros m' t c (r & Hr & Hne & ->). by eapply (proj2 (Hinner t m')). }
  split; [done|]. intros t r Ht Hr Hne. eapply H2; eauto.
Qed.

Lemma faculty_constraints_spec cs fs ts assign m :
  (∀ c, c ∈ constraints m → c ∈ constraints (faculty_constraints cs fs ts assign m)) ∧
  (∀ f t, f ∈ fs → t ∈ ts →
          vars_of_faculty assign (course_to_fac_of cs) (f_id f) t ≠ [] →
          SumLe (vars_of_faculty assign (course_to_fac_of cs) (f_id f) t) 1
            ∈ constraints (faculty_constraints cs fs ts assign m)).
Proof.
  unfold faculty_constraints. set (ctf := course_to_fac_of cs).
  assert (∀ fid m, (∀ c, c ∈ constraints m →
                   c ∈ constraints (foldl (λ m t, add_at_most_one m (vars_of_faculty assign ctf fid t)) m ts)) ∧
                 (∀ t c, t ∈ ts →
                   vars_of_faculty assign ctf fid t ≠ [] ∧ c = SumLe (vars_of_faculty assign ctf fid t) 1 →
                   c ∈ constraints (foldl (λ m t, add_at_most_one m (vars_of_faculty assign ctf fid t)) m ts)))
    as Hinner.
  { intros fid m'. apply foldl_posts.
    - intros. by apply add_at_most_one_mono.
    - intros m'' t c [Hne ->]. by apply add_at_most_one_posted. }
  destruct (foldl_posts
              (λ m fid, foldl (λ m t, add_at_most_one m (vars_of_faculty assign ctf fid t)) m ts)
              (λ fid c, ∃ t, t ∈ ts ∧ vars_of_faculty assign ctf fid t ≠ [] ∧
                           c = SumLe (vars_of_faculty assign ctf fid t) 1) (f_id <$> fs)
              (λ m fid c, proj1 (Hinner fid m) c)) with (m := m) as [H1 H2].
  { intros m' fid c (t & Ht & Hne & ->). by eapply (proj2 (Hinner fid m')). }
  split; [done|]. intros f t Hf Ht Hne. eapply H2; [|eauto].
  apply list_elem_of_fmap. eauto.
Qed.

Lemma add_equality_Return lib m vars k m' :
  add_equality lib m vars k = Return m' →
  ∃ c, m' = Add m c ∧ (c = SumEq vars k ∨ c = AlwaysFalse).
Proof.
  unfold add_equality. destruct (decide _); [intros [= <-]; eauto|].
  destruct (add_out_of_range lib k); intros [= <-]; eauto.
Qed.

Lemma add_equality_Raised lib m vars k e :
  add_equality lib m vars k = Raised e →
  ¬ (INT64_MIN < k < INT64_MAX) ∧ ∃ class_name, e = LibraryError class_name.
Proof.
  unfold add_equality. destruct (decide _); [done|].
  destruct (add_out_of_range lib k); intros [= <-]; eauto.
Qed.

Lemma add_equality_in_range lib m vars k :
  INT64_MIN < k < INT64_MAX → add_equality lib m vars k = Return (Add m (SumEq vars k)).
Proof. intros H. unfold add_equality. by rewrite decide_True. Qed.

Lemma coverage_constraints_inl lib cs assign m m' :
  coverage_constraints lib cs assign m = inl m' →
  (∀ c, c ∈ constraints m → c ∈ constraints m') ∧
  (∀ c, c ∈ cs →
        vars_for_course assign c ≠ [] ∧
        ∃ k, k ∈ constraints m' ∧
             (k = SumEq (vars_for_course assign c) (sessions_per_week c) ∨ k = AlwaysFalse)).
Proof.
  revert m. induction cs as [|c0 cs IH]; intros m; cbn [coverage_constraints].
  - intros [= <-]. split; [done|]. intros c Hc. by apply elem_of_nil in Hc.
  - destruct (vars_for_course assign c0) as [|v vs] eqn:Hv; [done|].
    destruct (add_equality lib m (v :: vs) (sessions_per_week c0)) as [m1|e] eqn:Hadd; [|done].
    apply add_equality_Return in Hadd as (k & -> & Hk).
    intros H. apply IH in H as [H1 H2]. split.
    + intros c Hc. apply H1. cbn. apply elem_of_app. by left.
    + intros c Hc. apply elem_of_cons in Hc as [->|Hc]; [|by apply H2].
      rewrite Hv. split; [done|]. exists k. split; [|done].
      apply H1. cbn. apply elem_of_app. right. by left.
Qed.

Lemma coverage_constraints_no_candidate lib cs assign m c :
  coverage_constraints lib cs assign m = inr (NoCandidate c) →
  c ∈ cs ∧ vars_for_course assign c = [].
Proof.
  revert m. induction cs as [|c0 cs IH]; intros m; cbn [coverage_constraints]; [done|].
  destruct (vars_for_course assign c0) as [|v vs] eqn:Hv.
  - intros [= <-]. split; [by left|done].
  - destruct (add_equality lib m (v :: vs) (sessions_per_week c0)) as [m1|e]; [|done].
    intros H. apply IH in H as [H1 H2]. split; [by right|done].
Qed.

(** [model.Add] raises only at a course with variables whose number of
    sessions is outside the range, and then an exception of the library. *)
Lemma coverage_constraints_raised lib cs assign m e :
  coverage_constraints lib cs assign m = inr (AddRaised e) →
  ∃ c class_name,
    c ∈ cs ∧ vars_for_course assign c ≠ [] ∧
    ¬ (INT64_MIN < sessions_per_week c < INT64_MAX) ∧
    add_out_of_range lib (sessions_per_week c) = Raises class_name ∧
    e = LibraryError class_name.
Proof.
  revert m. induction cs as [|c0 cs IH]; intros m; cbn [coverage_constraints]; [done|].
  destruct (vars_for_course assign c0) as [|v vs] eqn:Hv; [done|].
  destruct (add_equality lib m (v :: vs) (sessions_per_week c0)) as [m1|e'] eqn:Hadd.
  - intros H. apply IH in H as (c & name & Hc & H). exists c, name. split; [by right|done].
  - intros [= <-]. exists c0. unfold add_equality in Hadd.
    destruct (decide _) as [|Hout]; [done|].
    destruct (add_out_of_range lib (sessions_per_week c0)) as [name| |] eqn:Hlib;
      simplify_eq.
    exists name. rewrite Hv. repeat split; [by left|done|done..].
Qed.

Lemma build_model_inl lib d model assign :
  build_model lib d = inl (model, assign) →
  assign = candidates d ∧
  (∀ c sol, c ∈ courses d → satisfies sol model = true →
            sum_values sol (vars_for_course assign c) = sessions_per_week c) ∧
  (∀ t r, t ∈ timeslots d → r ∈ classrooms d → vars_in_room assign t r ≠ [] →
          SumLe (vars_in_room assign t r) 1 ∈ constraints model) ∧
  (∀ f t, f ∈ faculties d → t ∈ timeslots d →
          vars_of_faculty assign (course_to_fac_of (courses d)) (f_id f) t ≠ [] →
          SumLe (vars_of_faculty assign (course_to_fac_of (courses d)) (f_id f) t) 1
            ∈ constraints model).
Proof.
  unfold build_model, candidates.
  destruct (build_variables _ _ _ _) as [m0 a0].
  destruct (coverage_constraints lib (courses d) a0 m0) as [m1|] eqn:Hcov; [|done].
  intros [= <- <-]. apply coverage_constraints_inl in Hcov as [_ Hcov].
  destruct (room_constraints_spec (timeslots d) (classrooms d) a0 m1) as [R1 R2].
  destruct (faculty_constraints_spec (courses d) (faculties d) (timeslots d) a0
              (room_constraints (timeslots d) (classrooms d) a0 m1)) as [F1 F2].
  repeat split.
  - intros c sol Hc Hsat. destruct (Hcov c Hc) as (_ & k & Hk & Hshape).
    apply R1, F1 in Hk. pose proof (satisfies_holds _ _ _ Hsat Hk) as Hh.
    destruct Hshape as [-> | ->]; [|done].
    cbn in Hh. by apply bool_decide_eq_true in Hh.
  - intros t r Ht Hr Hne. by apply F1, R2.
  - done.
Qed.

Lemma build_model_no_candidate lib d c :
  build_model lib d = inr (NoCandidate c) →
  c ∈ courses d ∧ vars_for_course (candidates d) c = [].
Proof.
  unfold build_model, candidates.
  destruct (build_variables _ _ _ _) as [m0 a0].
  destruct (coverage_constraints lib (courses d) a0 m0) as [m1|c'] eqn:Hcov; [done|].
  intros [= ->]. by apply coverage_constraints_no_candidate in Hcov.
Qed.

Lemma build_model_raised lib d e :
  build_model lib d = inr (AddRaised e) →
  ∃ c class_name,
    c ∈ courses d ∧ vars_for_course (candidates d) c ≠ [] ∧
    ¬ (INT64_MIN < sessions_per_week c < INT64_MAX) ∧
    add_out_of_range lib (sessions_per_week c) = Raises class_name ∧
    e = LibraryError class_name.
Proof.
  unfold build_model, candidates.
  destruct (build_variables _ _ _ _) as [m0 a0].
  destruct (coverage_constraints lib (courses d) a0 m0) as [m1|c'] eqn:Hcov; [done|].
  intros [= ->]. by apply coverage_constraints_raised in Hcov.
Qed.

(** With every number of sessions inside the range, the model does not
    depend on the library. *)
Lemma coverage_constraints_in_range lib lib' cs assign m :
  Forall (λ c, INT64_MIN < sessions_per_week c < INT64_MAX) cs →
  coverage_constraints lib cs assign m = coverage_constraints lib' cs assign m.
Proof.
  intros H. revert m. induction H as [|c cs Hc _ IH]; intros m; [done|].
  cbn [coverage_constraints]. destruct (vars_for_course assign c) as [|v vs]; [done|].
  rewrite !add_equality_in_range by done. apply IH.
Qed.

Lemma build_model_in_range lib lib' d :
  Forall (λ c, INT64_MIN < sessions_per_week c < INT64_MAX) (courses d) →
  build_model lib d = build_model lib' d.
Proof.
  intros H. unfold build_model. destruct (build_variables _ _ _ _) as [m0 a0].
  by rewrite (coverage_constraints_in_range lib lib').
Qed.

(** *** What a successful call tells *)

Lemma generate_timetable_true lib Solve tl w w' raw d :
  data_file w = Some raw → _normalize_data raw = Return d →
  generate_timetable lib Solve tl w = (Return true, w') →
  ∃ model assign records rows,
    sufficient d ∧ build_model lib d = inl (model, assign) ∧
    ((Solve model tl).1 = OPTIMAL ∨ (Solve model tl).1 = FEASIBLE) ∧
    collect_rows (Solve model tl).2 d assign = Return (records, rows) ∧
    w' = after_success lib w model tl records rows.
Proof.
  intros Hfile Hnorm Hrun. pose proof (generate_timetable_run lib Solve tl w) as R.
  rewrite Hrun in R. cbn in R. inversion R; subst; simplify_eq.
  assert (d0 = d) as -> by congruence. eauto 10.
Qed.

Lemma sound_satisfies Solve model tl :
  sound Solve →
  (Solve model tl).1 = OPTIMAL ∨ (Solve model tl).1 = FEASIBLE →
  satisfies (Solve model tl).2 model = true.
Proof.
  intros Hsound Hst. specialize (Hsound model tl).
  destruct (Solve model tl) as [st sol]. by apply Hsound.
Qed.

Lemma exhaustive_search_sound : sound exhaustive_search.
Proof.
  intros m tl. unfold exhaustive_search.
  destruct (list_find _ _) as [[i bits]|] eqn:H.
  - intros _. by apply list_find_Some in H as (_ & H & _).
  - intros [?|?]; done.
Qed.

(** The rows of a solved schedule, against the selected candidates. *)
Lemma rows_of_course_count sol d assign records rows cid :
  collect_rows sol d assign = Return (records, rows) →
  Z.of_nat (length (rows_of_course rows cid))
  = sum_values sol (filter (λ kv : Key * nat, key_course kv.1 = cid) assign).*2.
Proof.
  intros Hrows. apply collect_rows_Return in Hrows as [HF _].
  rewrite sum_values_count. f_equal. unfold rows_of_course. symmetry.
  eapply Forall2_filter_length; [exact HF|].
  intros [k v] e (Hc & _). cbn. by rewrite Hc.
Qed.

Lemma rows_in_room_count sol d assign records rows tid rid :
  collect_rows sol d assign = Return (records, rows) →
  Z.of_nat (length (rows_in_room rows tid rid))
  = sum_values sol
      (filter (λ kv : Key * nat, key_timeslot kv.1 = tid ∧ key_classroom kv.1 = rid) assign).*2.
Proof.
  intros Hrows. apply collect_rows_Return in Hrows as [HF _].
  rewrite sum_values_count. f_equal. unfold rows_in_room. symmetry.
  eapply Forall2_filter_length; [exact HF|].
  intros [k v] e (_ & Ht & Hr & _). cbn. by rewrite Ht, Hr.
Qed.

Lemma sum_values_nil sol : sum_values sol [] = 0.
Proof. done. Qed.

(** Coverage, by internal index: whenever [generate_timetable] returns
    [True] with a sound solver, the rows of the committed schedule that
    carry the index of a course record number exactly the
    [sessions_per_week] of that record. *)
Lemma coverage_by_index lib Solve tl w w' raw d c :
  sound Solve →
  data_file w = Some raw →
  _normalize_data raw = Return d →
  generate_timetable lib Solve tl w = (Return true, w') →
  c ∈ courses d →
  Z.of_nat (length (rows_of_course (db_timetable w') (c_id c))) = sessions_per_week c.
Proof.
  intros Hsound Hfile Hnorm Hrun Hc.
  destruct (generate_timetable_true _ _ _ _ _ _ _ Hfile Hnorm Hrun)
    as (model & assign & records & rows & _ & Hbuild & Hst & Hrows & ->).
  cbn [after_success db_timetable].
  rewrite (rows_of_course_count _ _ _ _ _ _ Hrows).
  apply build_model_inl in Hbuild as (_ & Hcov & _).
  apply (Hcov c _ Hc). by apply sound_satisfies.
Qed.

(** Room exclusivity: a timeslot and a room share at most one row. *)
Lemma room_exclusive lib Solve tl w w' raw d t r :
  sound Solve →
  data_file w = Some raw →
  _normalize_data raw = Return d →
  generate_timetable lib Solve tl w = (Return true, w') →
  t ∈ timeslots d → r ∈ classrooms d →
  (length (rows_in_room (db_timetable w') (t_id t) (r_id r)) ≤ 1)%nat.
Proof.
  intros Hsound Hfile Hnorm Hrun Ht Hr.
  destruct (generate_timetable_true _ _ _ _ _ _ _ Hfile Hnorm Hrun)
    as (model & assign & records & rows & _ & Hbuild & Hst & Hrows & ->).
  cbn [after_success db_timetable].
  apply Nat2Z.inj_le. rewrite (rows_in_room_count _ _ _ _ _ _ _ Hrows).
  fold (vars_in_room assign t r).
  apply build_model_inl in Hbuild as (_ & _ & Hroom & _).
  destruct (decide (vars_in_room assign t r = [])) as [->|Hne]; [done|].
  pose proof (satisfies_holds _ _ _ (sound_satisfies _ _ _ Hsound Hst) (Hroom t r Ht Hr Hne)) as Hh.
  cbn in Hh. by apply bool_decide_eq_true in Hh.
Qed.

(** *** The identifier maps *)

Section id_maps.
Context {A : Type} (get_id : A → option string).

(** Identifiers that do not occur keep their entry. *)
Lemma id_map_from_other idx l m m' k :
  id_map_from get_id idx l m = Return m' →
  Some k ∉ get_id <$> l →
  m' !! k = m !! k.
Proof.
  revert idx m. induction l as [|x l IH]; intros idx m; cbn [id_map_from].
  - by intros [= <-].
  - rewrite fmap_cons, not_elem_of_cons. intros H [Hx Hl].
    destruct (get_id x) as [k'|]; [|done]. cbn in H.
    rewrite (IH _ _ H Hl). apply lookup_insert_ne. congruence.
Qed.

(** With pairwise distinct identifiers, the record at position [j] gets
    index [j + 1] (counting from the start index). *)
Lemma id_map_from_lookup idx l m m' j x k :
  id_map_from get_id idx l m = Return m' →
  NoDup (get_id <$> l) →
  l !! j = Some x → get_id x = Some k →
  m' !! k = Some (Z.of_nat (idx + j) + 1).
Proof.
  revert idx m j. induction l as [|y l IH]; intros idx m j; cbn [id_map_from]; [done|].
  rewrite fmap_cons, NoDup_cons. intros H [Hy Hl] Hj Hk.
  destruct j as [|j]; cbn in Hj.
  - injection Hj as ->. rewrite Hk in H, Hy. cbn in H.
    rewrite (id_map_from_other _ _ _ _ _ H Hy), lookup_insert_eq.
    by rewrite Nat.add_0_r.
  - destruct (get_id y) as [k'|]; [|done]. cbn in H.
    rewrite (IH _ _ _ H Hl Hj Hk). do 2 f_equal. lia.
Qed.

(** Every entry comes from the start map or from an identifier of the list. *)
Lemma id_map_from_origin idx l m m' k v :
  id_map_from get_id idx l m = Return m' →
  m' !! k = Some v →
  m !! k = Some v ∨ Some k ∈ get_id <$> l.
Proof.
  revert idx m. induction l as [|x l IH]; intros idx m; cbn [id_map_from].
  - intros [= <-]. by left.
  - destruct (get_id x) as [k'|] eqn:Hx; [|done]. cbn. intros H Hv.
    destruct (IH _ _ H Hv) as [Hm|Hin].
    + destruct (decide (k' = k)) as [->|Hne].
      * right. rewrite ?fmap_cons, Hx. by left.
      * left. by rewrite lookup_insert_ne in Hm.
    + right. rewrite ?fmap_cons. by right.
Qed.

(** The comprehension succeeds when every record has an identifier, and
    then every identifier has an entry. *)
Lemma id_map_from_total idx l m :
  Forall (λ x, is_Some (get_id x)) l →
  ∃ m', id_map_from get_id idx l m = Return m' ∧
        (∀ k, is_Some (m !! k) ∨ Some k ∈ get_id <$> l → is_Some (m' !! k)).
Proof.
  revert idx m. induction l as [|x l IH]; intros idx m; cbn [id_map_from].
  - intros _. exists m. split; [done|]. intros k [?|Hk]; [done|].
    by apply elem_of_nil in Hk.
  - rewrite Forall_cons. intros [[k Hx] Hl]. rewrite Hx. cbn.
    destruct (IH (S idx) (<[k:=Z.of_nat idx + 1]> m) Hl) as (m' & Hm' & Hdom).
    exists m'. split; [done|]. intros k' Hk'. apply Hdom.
    cbn in Hk'. rewrite ?Hx, elem_of_cons in Hk'.
    destruct (decide (k = k')) as [->|Hne].
    + left. rewrite lookup_insert_eq. eauto.
    + rewrite lookup_insert_ne by done. destruct Hk' as [?|[?|?]]; eauto. congruence.
Qed.
End id_maps.

Lemma for_append_Forall2 {A B} (f : A → outcome B) l l' :
  for_append f l = Return l' → Forall2 (λ x y, f x = Return y) l l'.
Proof.
  revert l'. induction l as [|x l IH]; intros l'; cbn [for_append].
  - intros [= <-]. constructor.
  - unfold mbind, outcome_bind. destruct (f x) as [y|] eqn:Hx; [|done].
    destruct (for_append f l) as [ys|]; [|done]. intros [= <-].
    constructor; [done|]. by apply IH.
Qed.

Lemma for_append_total {A B} (f : A → outcome B) l :
  Forall (λ x, ∃ y, f x = Return y) l → ∃ l', for_append f l = Return l'.
Proof.
  induction 1 as [|x l [y Hy] _ [l' IH]]; cbn [for_append]; [by eexists|].
  rewrite Hy, IH. cbn. by eexists.
Qed.

(** Elements of a list are told apart by a key without duplicates. *)
Lemma NoDup_fmap_eq {A B} (f : A → B) (l : list A) x y :
  NoDup (f <$> l) → x ∈ l → y ∈ l → f x = f y → x = y.
Proof.
  intros Hnd Hx Hy Hxy.
  apply list_elem_of_lookup in Hx as [i Hi]. apply list_elem_of_lookup in Hy as [j Hj].
  assert (i = j) as ->; [|congruence].
  eapply NoDup_lookup; [exact Hnd| |].
  - by rewrite list_lookup_fmap, Hi.
  - by rewrite list_lookup_fmap, Hj, Hxy.
Qed.

(** *** What [_normalize_data] returns *)

Lemma normalize_data_Return raw d :
  _normalize_data raw = Return d →
  id_map rf_id (get (raw_faculties raw) []) = Return (faculty_map (id_mappings d)) ∧
  id_map rc_id (get (raw_courses raw) []) = Return (course_map (id_mappings d)) ∧
  id_map rr_id (get (raw_classrooms raw) []) = Return (classroom_map (id_mappings d)) ∧
  id_map rt_id (get (raw_timeslots raw) []) = Return (timeslot_map (id_mappings d)) ∧
  Forall2 (λ x y, norm_faculty (faculty_map (id_mappings d)) x = Return y)
          (get (raw_faculties raw) []) (faculties d) ∧
  Forall2 (λ x y, norm_course (course_map (id_mappings d)) (faculty_map (id_mappings d)) x
                  = Return y)
          (get (raw_courses raw) []) (courses d) ∧
  Forall2 (λ x y, norm_classroom (classroom_map (id_mappings d)) x = Return y)
          (get (raw_classrooms raw) []) (classrooms d) ∧
  Forall2 (λ x y, norm_timeslot (timeslot_map (id_mappings d)) x = Return y)
          (get (raw_timeslots raw) []) (timeslots d).
Proof.
  unfold _normalize_data, mbind, outcome_bind.
  destruct (id_map rf_id _) as [fm|] eqn:Hfm; [|done].
  destruct (id_map rc_id _) as [cm|] eqn:Hcm; [|done].
  destruct (id_map rr_id _) as [rm|] eqn:Hrm; [|done].
  destruct (id_map rt_id _) as [tm|] eqn:Htm; [|done].
  destruct (for_append (norm_faculty fm) _) as [fs|] eqn:Hfs; [|done].
  destruct (for_append (norm_course cm fm) _) as [cs|] eqn:Hcs; [|done].
  destruct (for_append (norm_classroom rm) _) as [rs|] eqn:Hrs; [|done].
  destruct (for_append (norm_timeslot tm) _) as [ts|] eqn:Hts; [|done].
  intros [= <-]. cbn. repeat split; by apply for_append_Forall2.
Qed.

Lemma norm_course_Return cm fm rc c :
  norm_course cm fm rc = Return c →
  ∃ k, rc_id rc = Some k ∧ cm !! k = Some (c_id c) ∧
       sessions_per_week c = get (rc_requiredSlots rc) 1 ∧
       size c = get (rc_size rc) 30 ∧
       faculty_id c = get (rc_faculty_id rc ≫= λ fk, fm !! fk) 1.
Proof.
  unfold norm_course, mbind at 1 2 3, outcome_bind, getitem, map_getitem.
  destruct (rc_id rc) as [k|]; [|done]. destruct (cm !! k) as [i|] eqn:Hi; [|done].
  destruct (rc_name rc); [|done]. intros [= <-]. cbn. eauto 10.
Qed.

Lemma norm_classroom_Return rm rr r :
  norm_classroom rm rr = Return r →
  ∃ k, rr_id rr = Some k ∧ rm !! k = Some (r_id r) ∧
       capacity r = get (rr_capacity rr) 50.
Proof.
  unfold norm_classroom, mbind, outcome_bind, getitem, map_getitem.
  destruct (rr_id rr) as [k|]; [|done]. destruct (rm !! k) as [i|] eqn:Hi; [|done].
  destruct (rr_name rr); [|done]. intros [= <-]. cbn. eauto.
Qed.

Lemma norm_faculty_Return fm rf f :
  norm_faculty fm rf = Return f →
  ∃ k, rf_id rf = Some k ∧ fm !! k = Some (f_id f).
Proof.
  unfold norm_faculty, mbind, outcome_bind, getitem, map_getitem.
  destruct (rf_id rf) as [k|]; [|done]. destruct (fm !! k) as [i|] eqn:Hi; [|done].
  destruct (rf_name rf); [|done]. intros [= <-]. cbn. eauto.
Qed.

(** Distinct course identifiers give distinct internal indices. *)
Lemma normalized_course_ids_NoDup raw d :
  _normalize_data raw = Return d →
  NoDup (rc_id <$> get (raw_courses raw) []) →
  NoDup (c_id <$> courses d).
Proof.
  intros Hnorm Hnd. apply normalize_data_Return in Hnorm as (_ & Hcm & _ & _ & _ & Hcs & _).
  apply NoDup_alt. intros i j x. rewrite !list_lookup_fmap.
  destruct (courses d !! i) as [ci|] eqn:Hi; [|done].
  destruct (courses d !! j) as [cj|] eqn:Hj; [|done]. cbn. intros [= <-] [= Hij].
  destruct (Forall2_lookup_r _ _ _ _ _ Hcs Hi) as (rci & Hrci & Hni).
  destruct (Forall2_lookup_r _ _ _ _ _ Hcs Hj) as (rcj & Hrcj & Hnj).
  apply norm_course_Return in Hni as (ki & Hki & Hmi & _).
  apply norm_course_Return in Hnj as (kj & Hkj & Hmj & _).
  rewrite (id_map_from_lookup _ _ _ _ _ _ _ _ Hcm Hnd Hrci Hki) in Hmi.
  rewrite (id_map_from_lookup _ _ _ _ _ _ _ _ Hcm Hnd Hrcj Hkj) in Hmj.
  cbn in *. simplify_eq. lia.
Qed.

Lemma normalized_classroom_ids_NoDup raw d :
  _normalize_data raw = Return d →
  NoDup (rr_id <$> get (raw_classrooms raw) []) →
  NoDup (r_id <$> classrooms d).
Proof.
  intros Hnorm Hnd. apply normalize_data_Return in Hnorm as (_ & _ & Hrm & _ & _ & _ & Hrs & _).
  apply NoDup_alt. intros i j x. rewrite !list_lookup_fmap.
  destruct (classrooms d !! i) as [ci|] eqn:Hi; [|done].
  destruct (classrooms d !! j) as [cj|] eqn:Hj; [|done]. cbn. intros [= <-] [= Hij].
  destruct (Forall2_lookup_r _ _ _ _ _ Hrs Hi) as (rci & Hrci & Hni).
  destruct (Forall2_lookup_r _ _ _ _ _ Hrs Hj) as (rcj & Hrcj & Hnj).
  apply norm_classroom_Return in Hni as (ki & Hki & Hmi & _).
  apply norm_classroom_Return in Hnj as (kj & Hkj & Hmj & _).
  rewrite (id_map_from_lookup _ _ _ _ _ _ _ _ Hrm Hnd Hrci Hki) in Hmi.
  rewrite (id_map_from_lookup _ _ _ _ _ _ _ _ Hrm Hnd Hrcj Hkj) in Hmj.
  cbn in *. simplify_eq. lia.
Qed.

(** *** Each path, forwards *)

(** Facts about the same file, dataset or model are merged, then the
    impossible paths are closed. *)
Ltac merge_facts :=
  repeat match goal with
         | H1 : ?x = ?a, H2 : ?x = ?b |- _ =>
             first [ constr_eq a b; clear H2
                   | rewrite H1 in H2; simplify_eq ]
         end.

Ltac by_path lib Solve tl w :=
  let R := fresh "R" in
  pose proof (generate_timetable_run lib Solve tl w) as R;
  destruct (generate_timetable lib Solve tl w) as [? ?]; cbn [fst snd] in R;
  inversion R; subst; merge_facts; try done; try tauto.

Lemma generate_timetable_no_file lib Solve tl w :
  data_file w = None →
  generate_timetable lib Solve tl w
  = (Return false, after_failure w ["Data file not found!"] []).
Proof. intros Hfile. by_path lib Solve tl w. Qed.

Lemma generate_timetable_bad_record lib Solve tl w raw e :
  data_file w = Some raw → _normalize_data raw = Raised e →
  generate_timetable lib Solve tl w = (Raised e, w).
Proof. intros Hfile Hnorm. by_path lib Solve tl w. Qed.

Lemma generate_timetable_insufficient lib Solve tl w raw d :
  data_file w = Some raw → _normalize_data raw = Return d → ¬ sufficient d →
  generate_timetable lib Solve tl w
  = (Return false, after_failure w ["Insufficient data to generate timetable!"] []).
Proof. intros Hfile Hnorm Hs. by_path lib Solve tl w. Qed.

Lemma generate_timetable_no_candidate lib Solve tl w raw d c :
  data_file w = Some raw → _normalize_data raw = Return d → sufficient d →
  build_model lib d = inr (NoCandidate c) →
  generate_timetable lib Solve tl w
  = (Return false, after_failure w ["No valid timeslots for course " +:+ c_name c] []).
Proof. intros Hfile Hnorm Hs Hbuild. by_path lib Solve tl w. Qed.

Lemma generate_timetable_add_raised lib Solve tl w raw d e :
  data_file w = Some raw → _normalize_data raw = Return d → sufficient d →
  build_model lib d = inr (AddRaised e) →
  generate_timetable lib Solve tl w = (Raised e, w).
Proof. intros Hfile Hnorm Hs Hbuild. by_path lib Solve tl w. Qed.

Lemma generate_timetable_no_solution lib Solve tl w raw d model assign :
  data_file w = Some raw → _normalize_data raw = Return d → sufficient d →
  build_model lib d = inl (model, assign) →
  ¬ ((Solve model tl).1 = OPTIMAL ∨ (Solve model tl).1 = FEASIBLE) →
  generate_timetable lib Solve tl w
  = (Return false, after_failure w ["No feasible solution found!"] [EvSolve model tl]).
Proof. intros Hfile Hnorm Hs Hbuild Hst. by_path lib Solve tl w. Qed.

Lemma generate_timetable_crash lib Solve tl w raw d model assign e :
  data_file w = Some raw → _normalize_data raw = Return d → sufficient d →
  build_model lib d = inl (model, assign) →
  (Solve model tl).1 = OPTIMAL ∨ (Solve model tl).1 = FEASIBLE →
  collect_rows (Solve model tl).2 d assign = Raised e →
  generate_timetable lib Solve tl w = (Raised e, after_crash w model tl).
Proof. intros Hfile Hnorm Hs Hbuild Hst Hrows. by_path lib Solve tl w. Qed.

Lemma generate_timetable_success lib Solve tl w raw d model assign records rows :
  data_file w = Some raw → _normalize_data raw = Return d → sufficient d →
  build_model lib d = inl (model, assign) →
  (Solve model tl).1 = OPTIMAL ∨ (Solve model tl).1 = FEASIBLE →
  collect_rows (Solve model tl).2 d assign = Return (records, rows) →
  (to_excel lib records None).1 = None →
  generate_timetable lib Solve tl w = (Return true, after_success lib w model tl records rows).
Proof. intros Hfile Hnorm Hs Hbuild Hst Hrows Hexcel. by_path lib Solve tl w. Qed.

Lemma generate_timetable_export_failed lib Solve tl w raw d model assign records rows
    class_name :
  data_file w = Some raw → _normalize_data raw = Return d → sufficient d →
  build_model lib d = inl (model, assign) →
  (Solve model tl).1 = OPTIMAL ∨ (Solve model tl).1 = FEASIBLE →
  collect_rows (Solve model tl).2 d assign = Return (records, rows) →
  (to_excel lib records None).1 = Some class_name →
  generate_timetable lib Solve tl w
  = (Raised (LibraryError class_name), after_export_failure lib w model tl records rows).
Proof. intros Hfile Hnorm Hs Hbuild Hst Hrows Hexcel. by_path lib Solve tl w. Qed.

(** *** [course_to_fac] *)

Lemma course_to_fac_from_other (cs : list Course) (m : gmap Z Z) k :
  k ∉ c_id <$> cs →
  foldl (λ m c, <[c_id c := faculty_id c]> m) m cs !! k = m !! k.
Proof.
  revert m. induction cs as [|c cs IH]; intros m; [done|].
  rewrite fmap_cons, not_elem_of_cons. intros [Hc Hcs]. cbn.
  rewrite IH by done. by apply lookup_insert_ne.
Qed.

Lemma course_to_fac_lookup cs c :
  NoDup (c_id <$> cs) → c ∈ cs →
  course_to_fac_of cs !! c_id c = Some (faculty_id c).
Proof.
  unfold course_to_fac_of. generalize (∅ : gmap Z Z).
  induction cs as [|c0 cs IH]; intros m Hnd Hc; [by apply elem_of_nil in Hc|].
  rewrite fmap_cons, NoDup_cons in Hnd. destruct Hnd as [Hc0 Hnd].
  apply elem_of_cons in Hc as [->|Hc]; cbn.
  - rewrite course_to_fac_from_other by done. apply lookup_insert_eq.
  - by apply IH.
Qed.

(** *** Faculty exclusivity *)

Lemma rows_of_faculty_count sol d assign records rows tid fid :
  NoDup (c_id <$> courses d) →
  collect_rows sol d assign = Return (records, rows) →
  Z.of_nat (length (rows_of_faculty rows tid fid))
  = sum_values sol
      (filter (λ kv : Key * nat, key_timeslot kv.1 = tid ∧
                 course_to_fac_of (courses d) !! key_course kv.1 = Some fid) assign).*2.
Proof.
  intros Hnd Hrows. apply collect_rows_Return in Hrows as [HF _].
  rewrite sum_values_count. f_equal. unfold rows_of_faculty. symmetry.
  eapply Forall2_filter_length; [exact HF|].
  intros [k v] e (_ & Ht & _ & c & f & r & t & Hc & Hf & _). cbn.
  apply find_course_Some in Hc as [Hc Hid].
  pose proof (course_to_fac_lookup _ _ Hnd Hc) as Hctf. rewrite Hid in Hctf.
  cbn in *. rewrite Ht, Hf, Hctf.
  split; intros [? ?]; split; congruence.
Qed.

Lemma faculty_exclusive lib Solve tl w w' raw d t f :
  sound Solve →
  data_file w = Some raw →
  _normalize_data raw = Return d →
  generate_timetable lib Solve tl w = (Return true, w') →
  NoDup (rc_id <$> get (raw_courses raw) []) →
  t ∈ timeslots d → f ∈ faculties d →
  (length (rows_of_faculty (db_timetable w') (t_id t) (f_id f)) ≤ 1)%nat.
Proof.
  intros Hsound Hfile Hnorm Hrun Hnd Ht Hf.
  destruct (generate_timetable_true _ _ _ _ _ _ _ Hfile Hnorm Hrun)
    as (model & assign & records & rows & _ & Hbuild & Hst & Hrows & ->).
  cbn [after_success db_timetable].
  apply Nat2Z.inj_le.
  rewrite (rows_of_faculty_count _ _ _ _ _ _ _
             (normalized_course_ids_NoDup _ _ Hnorm Hnd) Hrows).
  fold (vars_of_faculty assign (course_to_fac_of (courses d)) (f_id f) t).
  apply build_model_inl in Hbuild as (_ & _ & _ & Hfac).
  destruct (decide (vars_of_faculty assign (course_to_fac_of (courses d)) (f_id f) t = []))
    as [->|Hne]; [done|].
  pose proof (satisfies_holds _ _ _ (sound_satisfies _ _ _ Hsound Hst) (Hfac f t Hf Ht Hne)) as Hh.
  cbn in Hh. by apply bool_decide_eq_true in Hh.
Qed.

(** *** The candidates *)

Lemma dict_set_keys k v (d : Assign) k' :
  k' ∈ (dict_set k v d).*1 ↔ k' = k ∨ k' ∈ d.*1.
Proof.
  induction d as [|[k0 v0] d IH]; cbn.
  - rewrite list_elem_of_singleton. split; [by left|]. intros [?|H]; [done|].
    by apply elem_of_nil in H.
  - case_decide as Hk; cbn; rewrite !elem_of_cons.
    + subst. tauto.
    + rewrite IH. tauto.
Qed.

(** A loop whose body adds keys adds the keys of all its iterations. *)
Lemma foldl_keys {A S} (keys : S → list Key) (f : S → A → S) (Q : A → Key → Prop) :
  (∀ st x k, k ∈ keys (f st x) ↔ k ∈ keys st ∨ Q x k) →
  ∀ l st k, k ∈ keys (foldl f st l) ↔ k ∈ keys st ∨ ∃ x, x ∈ l ∧ Q x k.
Proof.
  intros Hf. induction l as [|y l IH]; intros st k; cbn.
  - split; [by left|]. intros [?|(x & Hx & _)]; [done|]. by apply elem_of_nil in Hx.
  - rewrite IH, Hf. split.
    + intros [[?|?]|(x & Hx & HQ)]; [by left|right..].
      * exists y. split; [by left|done].
      * exists x. split; [by right|done].
    + intros [?|(x & Hx & HQ)]; [by left; left|].
      apply elem_of_cons in Hx as [->|Hx]; [by left; right|].
      right. eauto.
Qed.

Lemma add_candidate_keys c t st r k :
  k ∈ (add_candidate c t st r).2.*1 ↔
  k ∈ st.2.*1 ∨ (size c ≤ capacity r ∧ k = (c_id c, t_id t, r_id r)).
Proof.
  unfold add_candidate. case_decide as Hfit; cbn.
  - rewrite dict_set_keys. tauto.
  - tauto.
Qed.

Lemma build_variables_keys cs ts rs st k :
  k ∈ (build_variables cs ts rs st).2.*1 ↔
  k ∈ st.2.*1 ∨
  ∃ c t r, c ∈ cs ∧ t ∈ ts ∧ r ∈ rs ∧ size c ≤ capacity r ∧ k = (c_id c, t_id t, r_id r).
Proof.
  unfold build_variables.
  rewrite (foldl_keys (λ st : CpModel * Assign, st.2.*1) _
             (λ c k, ∃ t r, t ∈ ts ∧ r ∈ rs ∧ size c ≤ capacity r ∧
                            k = (c_id c, t_id t, r_id r))).
  - split; (intros [?|H]; [by left|right]).
    + destruct H as (c & ? & t & r & ?). exists c, t, r. tauto.
    + destruct H as (c & t & r & ?). exists c. split; [tauto|]. exists t, r. tauto.
  - intros st' c k'.
    rewrite (foldl_keys (λ st : CpModel * Assign, st.2.*1) _
               (λ t k, ∃ r, r ∈ rs ∧ size c ≤ capacity r ∧ k = (c_id c, t_id t, r_id r))).
    + split; (intros [?|H]; [by left|right]).
      * destruct H as (t & ? & r & ?). exists t, r. tauto.
      * destruct H as (t & r & ?). exists t. split; [tauto|]. exists r. tauto.
    + intros st'' t k''.
      rewrite (foldl_keys (λ st : CpModel * Assign, st.2.*1) _
                 (λ r k, size c ≤ capacity r ∧ k = (c_id c, t_id t, r_id r))).
      * split; (intros [?|H]; [by left|right]).
        -- destruct H as (r & ? & ?). exists r. tauto.
        -- destruct H as (r & ?). exists r. tauto.
      * intros. apply add_candidate_keys.
Qed.

(** The keys of [assign] are the triples of a course and a room that can
    seat it, at any timeslot. *)
Lemma candidates_keys d k :
  k ∈ (candidates d).*1 ↔
  ∃ c t r, c ∈ courses d ∧ t ∈ timeslots d ∧ r ∈ classrooms d ∧
           size c ≤ capacity r ∧ k = (c_id c, t_id t, r_id r).
Proof.
  unfold candidates. rewrite build_variables_keys. cbn. split; [|by right].
  intros [H|H]; [by apply elem_of_nil in H|done].
Qed.

Lemma vars_for_course_nil (assign : Assign) c :
  vars_for_course assign c = [] ↔ ∀ k, k ∈ assign.*1 → key_course k ≠ c_id c.
Proof.
  unfold vars_for_course. split.
  - intros H%fmap_nil_inv k Hk Hc. apply list_elem_of_fmap in Hk as ([k' v] & -> & Hkv).
    by eapply (filter_nil_not_elem_of _ _ (k', v)) in H.
  - intros H. destruct (filter _ assign) as [|[k v] l] eqn:Hf; [done|]. exfalso.
    assert ((k, v) ∈ filter (λ kv : Key * nat, key_course kv.1 = c_id c) assign) as Hin
      by (rewrite Hf; by left).
    apply list_elem_of_filter in Hin as [Hc Hin].
    eapply (H k); [|done]. apply list_elem_of_fmap. by exists (k, v).
Qed.

Lemma normalized_Return raw d : _normalize_data raw = Return d → normalized raw = d.
Proof. unfold normalized. by intros ->. Qed.

(** Every row of a successful extraction comes from a candidate. *)
Lemma collect_rows_elem sol d assign records rows e :
  collect_rows sol d assign = Return (records, rows) →
  e ∈ rows → ∃ k, k ∈ assign.*1 ∧ row_of_key d k e.
Proof.
  intros [HF _]%collect_rows_Return He.
  apply list_elem_of_lookup in He as [i Hi].
  destruct (Forall2_lookup_r _ _ _ _ _ HF Hi) as ([k v] & Hkv & Hrow).
  exists k. split; [|done].
  apply list_elem_of_lookup_2, list_elem_of_filter in Hkv as [_ Hkv].
  apply list_elem_of_fmap. by exists (k, v).
Qed.

(** With distinct course indices, the rows resolved to a record are the
    rows that carry its index. *)
Lemma rows_resolved_to_distinct d rows c :
  NoDup (c_id <$> courses d) → c ∈ courses d →
  rows_resolved_to d rows c = rows_of_course rows (c_id c).
Proof.
  intros Hnd Hc. unfold rows_resolved_to, rows_of_course.
  apply list_filter_iff. intros e. split.
  - intros H. by apply find_course_Some in H as [_ ?].
  - intros He. rewrite He. destruct (find_course_elem_of _ _ Hc) as [c' Hc'].
    rewrite Hc'. f_equal. apply find_course_Some in Hc' as [Hin Hid].
    by eapply NoDup_fmap_eq.
Qed.

(** Coverage when no two course records share an identifier: every course
    record has exactly [sessions_per_week] rows resolved to it. *)
Lemma coverage_with_distinct_identifiers lib Solve tl w w' raw d c :
  sound Solve →
  data_file w = Some raw →
  _normalize_data raw = Return d →
  NoDup (rc_id <$> get (raw_courses raw) []) →
  generate_timetable lib Solve tl w = (Return true, w') →
  c ∈ courses d →
  Z.of_nat (length (rows_resolved_to d (db_timetable w') c)) = sessions_per_week c.
Proof.
  intros Hsound Hfile Hnorm Hnd Hrun Hc.
  rewrite rows_resolved_to_distinct; [|by eapply normalized_course_ids_NoDup|done].
  by eapply coverage_by_index.
Qed.

(** C1.  On the dataset [duplicate_course_id] (two course records under
    "c1", each asking for one session) a sound solver finds a solution and
    the call returns [True] with a single row, resolved to the first
    record: the record "Small" asks for one session and has no row. *)
Lemma course_left_out_on_repeated_identifier :
  (run_of exhaustive_search duplicate_course_id).1 = Return true ∧
  _normalize_data duplicate_course_id = Return (normalized duplicate_course_id) ∧
  length (courses (normalized duplicate_course_id)) = 2%nat ∧
  length (db_timetable (run_of exhaustive_search duplicate_course_id).2) = 1%nat ∧
  ∃ c, c ∈ courses (normalized duplicate_course_id) ∧
       c_name c = "Small" ∧ sessions_per_week c = 1 ∧
       rows_resolved_to (normalized duplicate_course_id)
         (db_timetable (run_of exhaustive_search duplicate_course_id).2) c = [].
Proof.
  split; [by vm_compute|]. split; [by vm_compute|].
  split; [by vm_compute|]. split; [by vm_compute|].
  exists {| c_id := 2; c_name := "Small"; sessions_per_week := 1; size := 10;
            faculty_id := 1; c_original_id := "c1" |}.
  split; [vm_compute; right; by left|]. by vm_compute.
Qed.

(** C2.  On the dataset [duplicate_id_two_faculties] (courses "c1" and
    "c2" of faculty "f1", then a second record under "c2" of faculty "f2";
    two rooms, one timeslot) a sound solver finds a solution and the call
    returns [True], yet the committed schedule has two rows of faculty 1 in
    timeslot 1, and both exported records name that faculty: the faculty
    constraint was posted for the last record under "c2", the rows are
    resolved to the first. *)
Lemma faculty_double_booked_on_repeated_identifier :
  (run_of exhaustive_search duplicate_id_two_faculties).1 = Return true ∧
  _normalize_data duplicate_id_two_faculties
    = Return (normalized duplicate_id_two_faculties) ∧
  (∃ t f, t ∈ timeslots (normalized duplicate_id_two_faculties) ∧
          f ∈ faculties (normalized duplicate_id_two_faculties) ∧
          length (rows_of_faculty
                    (db_timetable (run_of exhaustive_search duplicate_id_two_faculties).2)
                    (t_id t) (f_id f)) = 2%nat) ∧
  timetable_json (run_of exhaustive_search duplicate_id_two_faculties).2
  = Some [ {| er_course := "Algorithms"; er_faculty := "Rao";
              er_classroom := "Room 2"; er_timeslot := "Mon 9" |};
           {| er_course := "Logic"; er_faculty := "Rao";
              er_classroom := "Room 1"; er_timeslot := "Mon 9" |} ].
Proof.
  split; [by vm_compute|]. split; [by vm_compute|]. split; [|by vm_compute].
  exists {| t_id := 1; label := "Mon 9"; t_original_id := "t1" |},
         {| f_id := 1; f_name := "Rao"; f_original_id := "f1" |}.
  split; [vm_compute; by left|]. split; [vm_compute; by left|]. by vm_compute.
Qed.

(** When the course identifiers and the classroom identifiers of the
    dataset are pairwise distinct, the key (course, timeslot, classroom) is
    in [assign] exactly when the room's capacity is at least the course's
    size, and every row of a committed schedule names a course and a room
    with capacity >= size. *)
Lemma capacity_with_distinct_identifiers lib Solve tl w raw d :
  data_file w = Some raw →
  _normalize_data raw = Return d →
  NoDup (rc_id <$> get (raw_courses raw) []) →
  NoDup (rr_id <$> get (raw_classrooms raw) []) →
  (∀ c t r, c ∈ courses d → t ∈ timeslots d → r ∈ classrooms d →
     ((c_id c, t_id t, r_id r) ∈ (candidates d).*1 ↔ size c ≤ capacity r)) ∧
  (∀ w' e, generate_timetable lib Solve tl w = (Return true, w') →
           e ∈ db_timetable w' →
           ∃ c r, find_course (courses d) (course_id e) = Some c ∧
                  find_classroom (classrooms d) (classroom_id e) = Some r ∧
                  size c ≤ capacity r).
Proof.
  intros Hfile Hnorm Hndc Hndr.
  pose proof (normalized_course_ids_NoDup _ _ Hnorm Hndc) as Hc.
  pose proof (normalized_classroom_ids_NoDup _ _ Hnorm Hndr) as Hr.
  assert (∀ c r k, c ∈ courses d → r ∈ classrooms d → k ∈ (candidates d).*1 →
                   key_course k = c_id c → key_classroom k = r_id r →
                   size c ≤ capacity r) as Hfit.
  { intros c r k Hcin Hrin Hk Hkc Hkr.
    apply candidates_keys in Hk as (c0 & t0 & r0 & Hc0 & _ & Hr0 & Hfit & ->).
    cbn in Hkc, Hkr.
    by rewrite <- (NoDup_fmap_eq c_id _ _ _ Hc Hc0 Hcin Hkc),
               <- (NoDup_fmap_eq r_id _ _ _ Hr Hr0 Hrin Hkr). }
  split.
  - intros c t r Hcin Htin Hrin. split.
    + intros Hk. by eapply (Hfit c r).
    + intros Hle. apply candidates_keys. by exists c, t, r.
  - intros w' e Hrun He.
    destruct (generate_timetable_true _ _ _ _ _ _ _ Hfile Hnorm Hrun)
      as (model & assign & records & rows & _ & Hbuild & _ & Hrows & ->).
    apply build_model_inl in Hbuild as (-> & _).
    destruct (collect_rows_elem _ _ _ _ _ _ Hrows He)
      as (k & Hk & Hce & _ & Hre & c & f & r & t & Hfc & _ & _ & Hfr & _).
    exists c, r. rewrite Hce, Hre. split; [done|]. split; [done|].
    apply find_course_Some in Hfc as [? ?]. apply find_classroom_Some in Hfr as [? ?].
    by eapply (Hfit c r k).
Qed.

(** C3.  On the dataset [duplicate_course_id] (two course records under
    "c1", of 100 and of 10 students; one room of 50 seats) the call returns
    [True] and the only row of the committed schedule is resolved to the
    course of 100 students in the room of 50 seats: the capacity test
    passed on the second record, the row names the first. *)
Lemma oversized_course_seated_on_repeated_identifier :
  (run_of exhaustive_search duplicate_course_id).1 = Return true ∧
  _normalize_data duplicate_course_id = Return (normalized duplicate_course_id) ∧
  (∃ e c r,
     e ∈ db_timetable (run_of exhaustive_search duplicate_course_id).2 ∧
     find_course (courses (normalized duplicate_course_id)) (course_id e) = Some c ∧
     find_classroom (classrooms (normalized duplicate_course_id)) (classroom_id e) = Some r ∧
     size c = 100 ∧ capacity r = 50) ∧
  timetable_json (run_of exhaustive_search duplicate_course_id).2
  = Some [ {| er_course := "Big"; er_faculty := "Rao";
              er_classroom := "Room 1"; er_timeslot := "Mon 9" |} ].
Proof.
  split; [by vm_compute|]. split; [by vm_compute|]. split; [|by vm_compute].
  exists {| course_id := 2; db_faculty_id := 1; timeslot_id := 1; classroom_id := 1 |},
         {| c_id := 2; c_name := "Big"; sessions_per_week := 1; size := 100;
            faculty_id := 1; c_original_id := "c1" |},
         {| r_id := 1; r_name := "Room 1"; capacity := 50; r_type := "Lecture";
            r_original_id := "r1" |}.
  split; [vm_compute; by left|]. by vm_compute.
Qed.

(** The same with two room records under one identifier: the course of 30
    students is placed in the room of 10 seats. *)
Lemma small_room_chosen_on_repeated_identifier :
  (run_of exhaustive_search duplicate_classroom_id).1 = Return true ∧
  ∃ e c r,
    e ∈ db_timetable (run_of exhaustive_search duplicate_classroom_id).2 ∧
    find_course (courses (normalized duplicate_classroom_id)) (course_id e) = Some c ∧
    find_classroom (classrooms (normalized duplicate_classroom_id)) (classroom_id e)
    = Some r ∧
    size c = 30 ∧ capacity r = 10.
Proof.
  split; [by vm_compute|].
  exists {| course_id := 1; db_faculty_id := 1; timeslot_id := 1; classroom_id := 2 |},
         {| c_id := 1; c_name := "Algorithms"; sessions_per_week := 1; size := 30;
            faculty_id := 1; c_original_id := "c1" |},
         {| r_id := 2; r_name := "Closet"; capacity := 10; r_type := "Lecture";
            r_original_id := "r1" |}.
  split; [vm_compute; by left|]. by vm_compute.
Qed.

(** A course without variables has no room that fits, as soon as there is
    a timeslot. *)
Lemma no_vars_uncoverable d c :
  timeslots d ≠ [] → c ∈ courses d →
  vars_for_course (candidates d) c = [] → uncoverable d c.
Proof.
  intros Hts Hc Hv. apply Forall_forall. intros r Hr.
  destruct (decide (size c ≤ capacity r)) as [Hfit|]; [exfalso|lia].
  destruct (timeslots d) as [|t ts] eqn:Ht; [done|].
  eapply (proj1 (vars_for_course_nil _ _) Hv (c_id c, t_id t, r_id r)); [|done].
  apply candidates_keys. exists c, t, r. rewrite Ht. repeat split; try done. by left.
Qed.

(** With distinct course indices, an uncoverable course has no variables. *)
Lemma uncoverable_no_vars d c :
  NoDup (c_id <$> courses d) → c ∈ courses d → uncoverable d c →
  vars_for_course (candidates d) c = [].
Proof.
  intros Hnd Hc Hun. apply vars_for_course_nil. intros k Hk Hkc.
  apply candidates_keys in Hk as (c0 & t0 & r0 & Hc0 & _ & Hr0 & Hfit & ->). cbn in Hkc.
  rewrite (NoDup_fmap_eq c_id _ _ _ Hnd Hc0 Hc Hkc) in Hfit.
  unfold uncoverable in Hun. rewrite Forall_forall in Hun. specialize (Hun r0 Hr0). lia.
Qed.

Lemma build_model_inl_vars lib d model assign c :
  build_model lib d = inl (model, assign) → c ∈ courses d →
  vars_for_course (candidates d) c ≠ [].
Proof.
  unfold build_model, candidates.
  destruct (build_variables _ _ _ _) as [m0 a0].
  destruct (coverage_constraints lib (courses d) a0 m0) as [m1|] eqn:Hcov; [|done].
  intros _ Hc. apply coverage_constraints_inl in Hcov as [_ Hcov].
  by destruct (Hcov c Hc).
Qed.

(** C4, as the code has it.  When the dataset normalizes, passes the
    emptiness guard and has pairwise distinct course identifiers, a course
    that no room can seat ends the call at model-build time, the solver
    never called and the world's store untouched: the call returns [False]
    with a message that names an uncoverable course, unless [model.Add]
    raised before at a course that has candidates and whose number of
    sessions is outside the range the library accepts. *)
Theorem uncoverable_course_fails_at_build lib Solve tl w raw d c :
  data_file w = Some raw →
  _normalize_data raw = Return d →
  sufficient d →
  NoDup (rc_id <$> get (raw_courses raw) []) →
  c ∈ courses d → uncoverable d c →
  (∃ c', c' ∈ courses d ∧ uncoverable d c' ∧
         generate_timetable lib Solve tl w
         = (Return false,
            after_failure w ["No valid timeslots for course " +:+ c_name c'] [])) ∨
  (∃ c' class_name,
     c' ∈ courses d ∧ ¬ uncoverable d c' ∧
     ¬ (INT64_MIN < sessions_per_week c' < INT64_MAX) ∧
     add_out_of_range lib (sessions_per_week c') = Raises class_name ∧
     generate_timetable lib Solve tl w = (Raised (LibraryError class_name), w)).
Proof.
  intros Hfile Hnorm Hs Hnd Hc Hun.
  pose proof (normalized_course_ids_NoDup _ _ Hnorm Hnd) as Hids.
  destruct (build_model lib d) as [[model assign]|[c'|e]] eqn:Hbuild.
  - exfalso. eapply build_model_inl_vars; [exact Hbuild|exact Hc|].
    by apply uncoverable_no_vars.
  - left. exists c'. apply build_model_no_candidate in Hbuild as Hb.
    destruct Hb as [Hc' Hv]. split; [done|]. split.
    + apply no_vars_uncoverable; [apply Hs|done..].
    + by eapply generate_timetable_no_candidate.
  - right. apply build_model_raised in Hbuild as Hb.
    destruct Hb as (c' & class_name & Hc' & Hv & Hout & Hlib & ->).
    exists c', class_name. repeat split; try done.
    + intros Hun'. by apply Hv, uncoverable_no_vars.
    + by eapply generate_timetable_add_raised.
Qed.

Lemma uncoverable_course_fails_at_build_witness :
  (∃ c', c' ∈ courses (normalized scenario_B) ∧ uncoverable (normalized scenario_B) c' ∧
         generate_timetable reference_library exhaustive_search 30
           (a_world (Some scenario_B))
         = (Return false,
            after_failure (a_world (Some scenario_B))
              ["No valid timeslots for course " +:+ c_name c'] [])) ∨
  (∃ c' class_name,
     c' ∈ courses (normalized scenario_B) ∧ ¬ uncoverable (normalized scenario_B) c' ∧
     ¬ (INT64_MIN < sessions_per_week c' < INT64_MAX) ∧
     add_out_of_range reference_library (sessions_per_week c') = Raises class_name ∧
     generate_timetable reference_library exhaustive_search 30 (a_world (Some scenario_B))
     = (Raised (LibraryError class_name), a_world (Some scenario_B))).
Proof.
  apply (uncoverable_course_fails_at_build reference_library exhaustive_search 30
           (a_world (Some scenario_B)) scenario_B (normalized scenario_B)
           {| c_id := 1; c_name := "Big"; sessions_per_week := 1; size := 100;
              faculty_id := 1; c_original_id := "c1" |} eq_refl).
  - vm_compute. reflexivity.
  - repeat split; by vm_compute.
  - compute_done.
  - vm_compute. by left.
  - compute_done.
Defined.

Lemma uncoverable_counterexample :
  (_normalize_data oversized_no_timeslot = Return (normalized oversized_no_timeslot) ∧
   (∃ c, c ∈ courses (normalized oversized_no_timeslot) ∧
         uncoverable (normalized oversized_no_timeslot) c) ∧
   run_of exhaustive_search oversized_no_timeslot
   = (Return false,
      after_failure (a_world (Some oversized_no_timeslot))
        ["Insufficient data to generate timetable!"] [])) ∧
  (_normalize_data sessions_out_of_range = Return (normalized sessions_out_of_range) ∧
   (∃ c, c ∈ courses (normalized sessions_out_of_range) ∧
         uncoverable (normalized sessions_out_of_range) c) ∧
   run_of exhaustive_search sessions_out_of_range
   = (Raised (LibraryError "ValueError"), a_world (Some sessions_out_of_range))).
Proof.
  split; (split; [by vm_compute|]); (split; [|by vm_compute]).
  - exists {| c_id := 1; c_name := "Big"; sessions_per_week := 1; size := 100;
              faculty_id := 1; c_original_id := "c1" |}.
    split; [vm_compute; by left|compute_done].
  - exists {| c_id := 2; c_name := "Big"; sessions_per_week := 1; size := 100;
              faculty_id := 1; c_original_id := "c1" |}.
    split; [vm_compute; right; by left|compute_done].
Qed.

(** C5, as the code has it.  The call returns a Boolean.  Whatever status
    other than OPTIMAL or FEASIBLE the search reports (INFEASIBLE, UNKNOWN on
    an exhausted time budget, MODEL_INVALID), the result is the same:
    [False], the message "No feasible solution found!", the store
    untouched. *)
Theorem no_solution_is_one_outcome lib Solve tl w raw d model assign :
  data_file w = Some raw →
  _normalize_data raw = Return d →
  sufficient d →
  build_model lib d = inl (model, assign) →
  (Solve model tl).1 = INFEASIBLE ∨ (Solve model tl).1 = UNKNOWN ∨
  (Solve model tl).1 = MODEL_INVALID →
  generate_timetable lib Solve tl w
  = (Return false, after_failure w ["No feasible solution found!"] [EvSolve model tl]).
Proof.
  intros Hfile Hnorm Hs Hbuild Hst.
  eapply generate_timetable_no_solution; try done.
  intros [H|H]; rewrite H in Hst; by destruct Hst as [|[|]].
Qed.

Lemma no_solution_is_one_outcome_witness :
  generate_timetable reference_library out_of_time 0 (a_world (Some scenario_C))
  = (Return false,
     after_failure (a_world (Some scenario_C)) ["No feasible solution found!"]
       [EvSolve (model_of (normalized scenario_C)) 0]).
Proof.
  apply (no_solution_is_one_outcome reference_library out_of_time 0
           (a_world (Some scenario_C)) scenario_C
           (normalized scenario_C) (model_of (normalized scenario_C))
           (candidates (normalized scenario_C)) eq_refl).
  - vm_compute. reflexivity.
  - repeat split; by vm_compute.
  - vm_compute. reflexivity.
  - right. left. reflexivity.
Defined.

Lemma timeout_counterexample :
  (exhaustive_search (model_of (normalized scenario_C)) 0).1 = INFEASIBLE ∧
  (out_of_time (model_of (normalized scenario_C)) 0).1 = UNKNOWN ∧
  generate_timetable reference_library out_of_time 0 (a_world (Some scenario_C))
  = generate_timetable reference_library exhaustive_search 0 (a_world (Some scenario_C)).
Proof. repeat split; by vm_compute. Qed.

(** C6.  A call that returns [False] (no data file, insufficient data, an
    uncoverable course, no solution found within the budget or at all)
    leaves the table and both export files as they were and makes no call
    on the result sink; a call that returns [True] makes exactly one clear
    followed by exactly one commit, of the rows it leaves in the table. *)
Theorem failure_leaves_store_untouched lib Solve tl w res w' :
  generate_timetable lib Solve tl w = (res, w') →
  (res = Return false →
     store w' = store w ∧
     ∃ evs, trace w' = trace w ++ evs ∧ sink_calls evs = []) ∧
  (res = Return true →
     ∃ evs rows, trace w' = trace w ++ evs ∧
                 sink_calls evs = [EvClear; EvCommit rows] ∧
                 db_timetable w' = rows).
Proof.
  intros Hrun. pose proof (generate_timetable_run lib Solve tl w) as R.
  rewrite Hrun in R. cbn [fst snd] in R.
  inversion R; subst; (split; intros Hres); try done.
  - split; [done|]. exists []. split; reflexivity.
  - split; [done|]. exists []. split; reflexivity.
  - split; [done|]. exists []. split; reflexivity.
  - split; [done|]. eexists [_]. split; reflexivity.
  - exists [EvSolve model tl; EvClear; EvCommit rows], rows. repeat split; reflexivity.
Qed.

Lemma failure_leaves_store_untouched_witness :
  ((run_of exhaustive_search scenario_C).1 = Return false →
     store (run_of exhaustive_search scenario_C).2 = store (a_world (Some scenario_C)) ∧
     ∃ evs, trace (run_of exhaustive_search scenario_C).2
            = trace (a_world (Some scenario_C)) ++ evs ∧ sink_calls evs = []) ∧
  ((run_of exhaustive_search scenario_C).1 = Return true →
     ∃ evs rows, trace (run_of exhaustive_search scenario_C).2
                 = trace (a_world (Some scenario_C)) ++ evs ∧
                 sink_calls evs = [EvClear; EvCommit rows] ∧
                 db_timetable (run_of exhaustive_search scenario_C).2 = rows).
Proof.
  apply (failure_leaves_store_untouched reference_library exhaustive_search 30
           (a_world (Some scenario_C))).
  vm_compute. reflexivity.
Defined.

(** C7, as the code has it.  Extraction does not re-verify anything: from
    any assignment the search reports as OPTIMAL or FEASIBLE, satisfying or
    not, it emits one row per candidate of value 1.  When every lookup
    succeeds the rows are committed and timetable.json is written, and the
    call returns [True] unless [to_excel] raises; the only other way out is
    [StopIteration] from a failed lookup, with the store already
    cleared. *)
Theorem extraction_is_unchecked lib Solve tl w raw d model assign :
  data_file w = Some raw →
  _normalize_data raw = Return d →
  sufficient d →
  build_model lib d = inl (model, assign) →
  (Solve model tl).1 = OPTIMAL ∨ (Solve model tl).1 = FEASIBLE →
  (∃ records rows,
     Forall2 (λ kv e, row_of_key d kv.1 e) (selected (Solve model tl).2 assign) rows ∧
     (generate_timetable lib Solve tl w
      = (Return true, after_success lib w model tl records rows) ∨
      ∃ class_name,
        (to_excel lib records None).1 = Some class_name ∧
        generate_timetable lib Solve tl w
        = (Raised (LibraryError class_name),
           after_export_failure lib w model tl records rows))) ∨
  generate_timetable lib Solve tl w = (Raised StopIteration, after_crash w model tl).
Proof.
  intros Hfile Hnorm Hs Hbuild Hst.
  destruct (collect_rows (Solve model tl).2 d assign) as [[records rows]|e] eqn:Hrows.
  - left. exists records, rows. split.
    + by apply collect_rows_Return in Hrows as [? _].
    + destruct (to_excel lib records None).1 as [class_name|] eqn:Hexcel.
      * right. exists class_name. split; [done|].
        by eapply generate_timetable_export_failed.
      * left. by eapply generate_timetable_success.
  - right. pose proof (collect_rows_Raised _ _ _ _ Hrows) as ->.
    by eapply generate_timetable_crash.
Qed.

Lemma extraction_is_unchecked_witness :
  (∃ records rows,
     Forall2 (λ kv e, row_of_key (normalized scenario_C) kv.1 e)
       (selected (careless (model_of (normalized scenario_C)) 30).2
          (candidates (normalized scenario_C))) rows ∧
     (generate_timetable reference_library careless 30 (a_world (Some scenario_C))
      = (Return true,
         after_success reference_library (a_world (Some scenario_C))
           (model_of (normalized scenario_C)) 30 records rows) ∨
      ∃ class_name,
        (to_excel reference_library records None).1 = Some class_name ∧
        generate_timetable reference_library careless 30 (a_world (Some scenario_C))
        = (Raised (LibraryError class_name),
           after_export_failure reference_library (a_world (Some scenario_C))
             (model_of (normalized scenario_C)) 30 records rows))) ∨
  generate_timetable reference_library careless 30 (a_world (Some scenario_C))
  = (Raised StopIteration,
     after_crash (a_world (Some scenario_C)) (model_of (normalized scenario_C)) 30).
Proof.
  apply (extraction_is_unchecked reference_library careless 30 (a_world (Some scenario_C))
           scenario_C (normalized scenario_C) (model_of (normalized scenario_C))
           (candidates (normalized scenario_C)) eq_refl).
  - vm_compute. reflexivity.
  - repeat split; by vm_compute.
  - vm_compute. reflexivity.
  - right. reflexivity.
Defined.

Lemma unverified_extraction_counterexample :
  (careless (model_of (normalized scenario_C)) 30).1 = FEASIBLE ∧
  satisfies (careless (model_of (normalized scenario_C)) 30).2
            (model_of (normalized scenario_C)) = false ∧
  (run_of careless scenario_C).1 = Return true ∧
  length (rows_in_room (db_timetable (run_of careless scenario_C).2) 1 1) = 2%nat ∧
  length (rows_of_faculty (db_timetable (run_of careless scenario_C).2) 1 1) = 4%nat ∧
  length (rows_of_course (db_timetable (run_of careless scenario_C).2) 1) = 2%nat.
Proof. repeat split; by vm_compute. Qed.

(** *** No faculty at all *)

Lemma collect_rows_no_faculty sol d assign :
  faculties d = [] → selected sol assign ≠ [] →
  collect_rows sol d assign = Raised StopIteration.
Proof.
  intros Hfs. unfold selected.
  induction assign as [|[k v] assign IH]; [done|].
  rewrite filter_cons. cbn [collect_rows snd].
  destruct (decide (sol v = true)) as [Hv|Hv].
  - intros _. rewrite decide_True by (by apply Value_1).
    destruct k as [[cid tid] rid]. unfold extract_row, mbind at 1 2, outcome_bind, next.
    destruct (find_course (courses d) cid); [|done].
    by rewrite Hfs.
  - intros Hsel. rewrite decide_False by (by rewrite Value_1). by apply IH.
Qed.

(** C10.  With an empty faculty list, a dataset that passes the emptiness
    guard and builds a model has every course on faculty index 1, which no
    faculty record carries; once the solver reports a solution that selects
    a candidate, the call raises [StopIteration] after clearing the store
    instead of returning. *)
Theorem no_faculty_extraction_raises lib Solve tl w raw d model assign :
  data_file w = Some raw →
  _normalize_data raw = Return d →
  get (raw_faculties raw) [] = [] →
  sufficient d →
  build_model lib d = inl (model, assign) →
  (Solve model tl).1 = OPTIMAL ∨ (Solve model tl).1 = FEASIBLE →
  selected (Solve model tl).2 assign ≠ [] →
  (∀ c, c ∈ courses d →
        faculty_id c = 1 ∧ find_faculty (faculties d) (faculty_id c) = None) ∧
  generate_timetable lib Solve tl w = (Raised StopIteration, after_crash w model tl).
Proof.
  intros Hfile Hnorm Hnofac Hs Hbuild Hst Hsel.
  apply normalize_data_Return in Hnorm as Hn.
  destruct Hn as (Hfm & _ & _ & _ & Hfs & Hcs & _).
  rewrite Hnofac in Hfm, Hfs. apply Forall2_nil_inv_l in Hfs.
  injection Hfm as Hfm. split.
  - intros c Hc. rewrite Hfs. split; [|done].
    apply list_elem_of_lookup in Hc as [i Hi].
    destruct (Forall2_lookup_r _ _ _ _ _ Hcs Hi) as (rc & _ & Hrc).
    apply norm_course_Return in Hrc as (k & _ & _ & _ & _ & ->).
    rewrite <- Hfm. destruct (rc_faculty_id rc); [|done]. cbn. by rewrite lookup_empty.
  - eapply generate_timetable_crash; try done. by apply collect_rows_no_faculty.
Qed.

Lemma no_faculty_extraction_raises_witness :
  (∀ c, c ∈ courses (normalized no_faculties) →
        faculty_id c = 1 ∧
        find_faculty (faculties (normalized no_faculties)) (faculty_id c) = None) ∧
  generate_timetable reference_library exhaustive_search 30 (a_world (Some no_faculties))
  = (Raised StopIteration,
     after_crash (a_world (Some no_faculties)) (model_of (normalized no_faculties)) 30).
Proof.
  apply (no_faculty_extraction_raises reference_library exhaustive_search 30
           (a_world (Some no_faculties))
           no_faculties (normalized no_faculties) (model_of (normalized no_faculties))
           (candidates (normalized no_faculties)) eq_refl).
  - vm_compute. reflexivity.
  - reflexivity.
  - repeat split; by vm_compute.
  - vm_compute. reflexivity.
  - left. vm_compute. reflexivity.
  - by vm_compute.
Defined.

(** *** The normalizer does not fail on records with their required fields *)

Lemma id_map_total {A} (get_id : A → option string) l :
  Forall (λ x, is_Some (get_id x)) l →
  ∃ m, id_map get_id l = Return m ∧ ∀ x k, x ∈ l → get_id x = Some k → is_Some (m !! k).
Proof.
  intros Hl. destruct (id_map_from_total get_id 0 l ∅ Hl) as (m & Hm & Hdom).
  exists m. split; [done|]. intros x k Hx Hk. apply Hdom. right.
  apply list_elem_of_fmap. by exists x.
Qed.

Lemma for_append_total_in {A B} (f : A → outcome B) l :
  (∀ x, x ∈ l → ∃ y, f x = Return y) → ∃ l', for_append f l = Return l'.
Proof. intros H. apply for_append_total, Forall_forall, H. Qed.

Lemma normalize_data_total raw :
  required_fields_present raw → ∃ d, _normalize_data raw = Return d.
Proof.
  intros (Hf & Hc & Hr & Ht). unfold _normalize_data.
  rewrite Forall_forall in Hf. rewrite Forall_forall in Hc.
  rewrite Forall_forall in Hr. rewrite Forall_forall in Ht.
  destruct (id_map_total rf_id (get (raw_faculties raw) [])) as (fm & -> & Hfm).
  { apply Forall_forall. intros x Hx. by apply Hf. }
  destruct (id_map_total rc_id (get (raw_courses raw) [])) as (cm & -> & Hcm).
  { apply Forall_forall. intros x Hx. by apply Hc. }
  destruct (id_map_total rr_id (get (raw_classrooms raw) [])) as (rm & -> & Hrm).
  { apply Forall_forall. intros x Hx. by apply Hr. }
  destruct (id_map_total rt_id (get (raw_timeslots raw) [])) as (tm & -> & Htm).
  { apply Forall_forall. intros x Hx. by apply Ht. }
  cbn.
  destruct (for_append_total_in (norm_faculty fm) (get (raw_faculties raw) [])) as (fs & ->).
  { intros x Hx. destruct (Hf x Hx) as [[k Hk] [n Hn]]. destruct (Hfm x k Hx Hk) as [i Hi].
    unfold norm_faculty, map_getitem. rewrite Hk, Hn. cbn. rewrite Hi. by eexists. }
  destruct (for_append_total_in (norm_course cm fm) (get (raw_courses raw) [])) as (cs & ->).
  { intros x Hx. destruct (Hc x Hx) as [[k Hk] [n Hn]]. destruct (Hcm x k Hx Hk) as [i Hi].
    unfold norm_course, map_getitem. rewrite Hk, Hn. cbn. rewrite Hi. by eexists. }
  destruct (for_append_total_in (norm_classroom rm) (get (raw_classrooms raw) [])) as (rs & ->).
  { intros x Hx. destruct (Hr x Hx) as [[k Hk] [n Hn]]. destruct (Hrm x k Hx Hk) as [i Hi].
    unfold norm_classroom, map_getitem. rewrite Hk, Hn. cbn. rewrite Hi. by eexists. }
  destruct (for_append_total_in (norm_timeslot tm) (get (raw_timeslots raw) [])) as (ts & ->).
  { intros x Hx. destruct (Ht x Hx) as [[k Hk] [n Hn]]. destruct (Htm x k Hx Hk) as [i Hi].
    unfold norm_timeslot, map_getitem. rewrite Hk, Hn. cbn. rewrite Hi. by eexists. }
  cbn. by eexists.
Qed.

(** C8, as the code has it.  On records that carry their required fields
    the normalizer does not fail; an absent [requiredSlots] becomes 1
    session per week, an absent [size] 30, an absent [capacity] 50, and an
    absent or unresolvable faculty reference index 1, which is the index of
    the first faculty when the faculty identifiers are pairwise distinct. *)
Theorem normalizer_defaults raw :
  required_fields_present raw →
  ∃ d, _normalize_data raw = Return d ∧
       Forall2 (λ rc c,
                  (rc_requiredSlots rc = None → sessions_per_week c = 1) ∧
                  (rc_size rc = None → size c = 30) ∧
                  (faculty_unresolved raw rc → faculty_id c = 1))
               (get (raw_courses raw) []) (courses d) ∧
       Forall2 (λ rr r, rr_capacity rr = None → capacity r = 50)
               (get (raw_classrooms raw) []) (classrooms d) ∧
       (NoDup (rf_id <$> get (raw_faculties raw) []) →
        ∀ f, head (faculties d) = Some f → f_id f = 1).
Proof.
  intros Hreq. destruct (normalize_data_total raw Hreq) as [d Hnorm].
  exists d. split; [done|].
  apply normalize_data_Return in Hnorm as (Hfm & _ & _ & _ & Hfs & Hcs & Hrs & _).
  split; [|split].
  - eapply Forall2_impl; [exact Hcs|]. intros rc c Hrc.
    apply norm_course_Return in Hrc as (k & _ & _ & -> & -> & ->).
    split; [by intros ->|]. split; [by intros ->|].
    intros Hun. destruct (rc_faculty_id rc) as [fk|] eqn:Hfk; [|done]. cbn.
    destruct (faculty_map (id_mappings d) !! fk) as [v|] eqn:Hv; [|done].
    destruct (id_map_from_origin _ _ _ _ _ _ _ Hfm Hv) as [Hm|Hin]; [done|].
    by destruct (Hun fk Hfk).
  - eapply Forall2_impl; [exact Hrs|]. intros rr r Hrr.
    apply norm_classroom_Return in Hrr as (k & _ & _ & ->). by intros ->.
  - intros Hnd f Hhead. rewrite head_lookup in Hhead.
    destruct (Forall2_lookup_r _ _ _ _ _ Hfs Hhead) as (rf & Hrf & Hn).
    apply norm_faculty_Return in Hn as (k & Hk & Hi).
    rewrite (id_map_from_lookup _ _ _ _ _ _ _ _ Hfm Hnd Hrf Hk) in Hi.
    cbn in Hi. by injection Hi as <-.
Qed.

Lemma normalizer_defaults_witness :
  ∃ d, _normalize_data bare_records = Return d ∧
       Forall2 (λ rc c,
                  (rc_requiredSlots rc = None → sessions_per_week c = 1) ∧
                  (rc_size rc = None → size c = 30) ∧
                  (faculty_unresolved bare_records rc → faculty_id c = 1))
               (get (raw_courses bare_records) []) (courses d) ∧
       Forall2 (λ rr r, rr_capacity rr = None → capacity r = 50)
               (get (raw_classrooms bare_records) []) (classrooms d) ∧
       (NoDup (rf_id <$> get (raw_faculties bare_records) []) →
        ∀ f, head (faculties d) = Some f → f_id f = 1).
Proof.
  apply (normalizer_defaults bare_records).
  repeat split; cbn; repeat constructor; by eexists.
Defined.

Lemma sessions_default_counterexample :
  required_fields_present bare_records ∧
  _normalize_data bare_records = Return (normalized bare_records) ∧
  ∃ rc c, head (get (raw_courses bare_records) []) = Some rc ∧
          head (courses (normalized bare_records)) = Some c ∧
          rc_requiredSlots rc = None ∧
          sessions_per_week c = 1 ∧ sessions_per_week c ≠ 3.
Proof.
  split; [repeat split; cbn; repeat constructor; by eexists|].
  split; [by vm_compute|].
  eexists _, _. split; [reflexivity|]. split; [vm_compute; reflexivity|]. by vm_compute.
Qed.

(** *** Export records and rows *)

Lemma extract_row_same_session d k rec e :
  extract_row d k = Return (rec, e) → same_session d rec e.
Proof.
  destruct k as [[cid tid] rid]. unfold extract_row, same_session, mbind, outcome_bind, next.
  destruct (find_course (courses d) cid) as [c|] eqn:Hc; [|done].
  destruct (find_faculty (faculties d) (faculty_id c)) as [f|] eqn:Hf; [|done].
  destruct (find_classroom (classrooms d) rid) as [r|] eqn:Hr; [|done].
  destruct (find_timeslot (timeslots d) tid) as [t|] eqn:Ht; [|done].
  intros [= <- <-]. cbn. exists c, f, r, t. done.
Qed.

Lemma collect_rows_same_session sol d assign records rows :
  collect_rows sol d assign = Return (records, rows) →
  Forall2 (same_session d) records rows.
Proof.
  revert records rows. induction assign as [|[k v] assign IH]; intros records rows.
  - intros [= <- <-]. constructor.
  - cbn [collect_rows]. case_decide; [|apply IH].
    unfold mbind, outcome_bind.
    destruct (extract_row d k) as [[rec e]|] eqn:Hrow; [|done].
    destruct (collect_rows sol d assign) as [[recs es]|]; [|done].
    intros [= <- <-]. constructor; [by eapply extract_row_same_session|by apply IH].
Qed.

Lemma collect_rows_plain sol d assign records rows :
  names_plain d = true →
  collect_rows sol d assign = Return (records, rows) →
  forallb plain_record records = true.
Proof.
  unfold names_plain. intros Hnames Hrows.
  rewrite !andb_true_iff, !forallb_forall in Hnames. destruct Hnames as [[[Hc Hf] Hr] Ht].
  apply collect_rows_same_session in Hrows.
  apply forallb_forall. intros rec Hrec%list_elem_of_In.
  apply list_elem_of_lookup in Hrec as [i Hi].
  destruct (Forall2_lookup_l _ _ _ _ _ Hrows Hi)
    as (e & _ & c & f & r & t & Hfc & Hff & Hfr & Hft & _ & ->).
  apply find_course_Some in Hfc as [Hfc _]. apply find_faculty_Some in Hff as [Hff _].
  apply find_classroom_Some in Hfr as [Hfr _]. apply find_timeslot_Some in Hft as [Hft _].
  unfold plain_record. cbn. rewrite !andb_true_iff. repeat split.
  - by apply Hc, list_elem_of_In.
  - by apply Hf, list_elem_of_In.
  - by apply Hr, list_elem_of_In.
  - by apply Ht, list_elem_of_In.
Qed.

Lemma reference_library_writes : writes_plain_text reference_library.
Proof. by intros records old _ _. Qed.

Lemma strict_library_writes : writes_plain_text strict_library.
Proof. intros records old _ Hplain. cbn. by rewrite Hplain. Qed.

(** A name with a control character, a [to_excel] that refuses it: the
    call raises after the new row is committed and timetable.json is
    written, and prints nothing. *)
Lemma export_refused_after_commit :
  (generate_timetable strict_library exhaustive_search 30
     (a_world (Some control_character_in_name))).1
  = Raised (LibraryError "IllegalCharacterError") ∧
  db_timetable (generate_timetable strict_library exhaustive_search 30
                  (a_world (Some control_character_in_name))).2
  = [ {| course_id := 1; db_faculty_id := 1; timeslot_id := 1; classroom_id := 1 |} ] ∧
  timetable_json (generate_timetable strict_library exhaustive_search 30
                    (a_world (Some control_character_in_name))).2
  = Some [ {| er_course := String (Ascii.ascii_of_nat 7) "Big"; er_faculty := "Rao";
              er_classroom := "Hall"; er_timeslot := "Mon 9" |} ] ∧
  stdout (generate_timetable strict_library exhaustive_search 30
            (a_world (Some control_character_in_name))).2 = [].
Proof. repeat split; by vm_compute. Qed.

(** *** Only the values of the model's variables matter *)

Lemma first_values_agree sol n v :
  (v < n)%nat → solution_of (first_values sol n) v = sol v.
Proof.
  intros Hv. unfold solution_of, first_values.
  by rewrite list_lookup_fmap, lookup_seq_lt.
Qed.

Lemma sum_values_ext sol sol' vars :
  Forall (λ v, sol v = sol' v) vars → sum_values sol vars = sum_values sol' vars.
Proof.
  induction 1 as [|v vars Hv _ IH]; [done|].
  change (Value sol v + sum_values sol vars = Value sol' v + sum_values sol' vars).
  unfold Value. by rewrite Hv, IH.
Qed.

Lemma satisfies_ext sol sol' m :
  Forall (λ c, Forall (λ v, sol v = sol' v) (constraint_vars c)) (constraints m) →
  satisfies sol m = satisfies sol' m.
Proof.
  unfold satisfies. induction 1 as [|c cs Hc _ IH]; [done|]. cbn. rewrite IH. f_equal.
  destruct c as [vars k|vars k|]; cbn in *; [| |done]; by rewrite (sum_values_ext _ _ _ Hc).
Qed.

Lemma collect_rows_ext sol sol' d (assign : Assign) :
  Forall (λ kv, sol kv.2 = sol' kv.2) assign →
  collect_rows sol d assign = collect_rows sol' d assign.
Proof.
  induction 1 as [|[k v] assign Hv _ IH]; [done|]. cbn in *.
  unfold Value. by rewrite Hv, IH.
Qed.

Lemma in_range_agree sol m assign d :
  in_range m assign = true →
  satisfies (solution_of (first_values sol (num_vars m))) m = satisfies sol m ∧
  collect_rows (solution_of (first_values sol (num_vars m))) d assign
  = collect_rows sol d assign.
Proof.
  unfold in_range. rewrite andb_true_iff, !forallb_forall. intros [Hm Ha]. split.
  - apply satisfies_ext, Forall_forall. intros c Hc%list_elem_of_In.
    apply Forall_forall. intros v Hv%list_elem_of_In.
    apply first_values_agree. specialize (Hm c Hc). rewrite forallb_forall in Hm.
    specialize (Hm v Hv). by apply bool_decide_eq_true in Hm.
  - apply collect_rows_ext, Forall_forall. intros kv Hkv%list_elem_of_In.
    apply first_values_agree. specialize (Ha kv Hkv). by apply bool_decide_eq_true in Ha.
Qed.

Lemma assignments_complete bits : bits ∈ assignments (length bits).
Proof.
  induction bits as [|b bits IH]; [by left|]. cbn. apply elem_of_app.
  destruct b; [right|left]; apply list_elem_of_fmap; eauto.
Qed.

Lemma first_values_enumerated sol n : first_values sol n ∈ assignments n.
Proof.
  pose proof (assignments_complete (first_values sol n)) as H.
  unfold first_values in *. by rewrite length_fmap, length_seq in H.
Qed.

(** What holds of the rows of every satisfying assignment holds of the rows
    a sound solver's solution is extracted to. *)
Lemma all_solutions_pass_rows check d m assign sol :
  in_range m assign = true →
  all_solutions_pass check d m assign = true →
  satisfies sol m = true →
  ∃ records rows, collect_rows sol d assign = Return (records, rows) ∧ check rows = true.
Proof.
  intros Hrange Hall Hsat. unfold all_solutions_pass in Hall.
  rewrite forallb_forall in Hall.
  specialize (Hall _ (proj1 (list_elem_of_In _ _) (first_values_enumerated sol (num_vars m)))).
  unfold passes in Hall.
  destruct (in_range_agree sol m assign d Hrange) as [-> ->] in Hall.
  rewrite Hsat in Hall. cbn [implb] in Hall.
  destruct (collect_rows sol d assign) as [[records rows]|]; [|done]. eauto.
Qed.

(** A solver that is right about infeasibility and reaches a verdict finds
    a solution of a satisfiable model. *)
Lemma verdict_of_satisfiable (Solve : Solver) m tl sol :
  satisfies sol m = true →
  ((Solve m tl).1 = INFEASIBLE → ∀ sol, satisfies sol m = false) →
  (Solve m tl).1 ≠ UNKNOWN →
  (Solve m tl).1 ≠ MODEL_INVALID →
  (Solve m tl).1 = OPTIMAL ∨ (Solve m tl).1 = FEASIBLE.
Proof.
  intros Hsat Hcomplete Hdecided Hvalid.
  destruct (Solve m tl).1; try done; [by right| |by left].
  specialize (Hcomplete eq_refl sol). congruence.
Qed.

Lemma scenario_A_facts :
  _normalize_data scenario_A = Return (normalized scenario_A) ∧
  sufficient (normalized scenario_A) ∧
  build_model reference_library (normalized scenario_A)
  = inl (model_of (normalized scenario_A), candidates (normalized scenario_A)) ∧
  in_range (model_of (normalized scenario_A)) (candidates (normalized scenario_A)) = true ∧
  satisfies (solution_of [true; false; true; false; false; false])
            (model_of (normalized scenario_A)) = true ∧
  all_solutions_pass (two_sessions_apart 1) (normalized scenario_A)
    (model_of (normalized scenario_A)) (candidates (normalized scenario_A)) = true ∧
  names_plain (normalized scenario_A) = true.
Proof. repeat split; by vm_compute. Qed.

(** C9.  Scenario A: with a sound solver that reaches a verdict on the
    scenario's model and reports INFEASIBLE only when it is, and a
    [to_excel] that writes plain text, the call returns [True] and commits
    exactly two rows, both of the course, on two different timeslots. *)
Theorem scenario_A_solved lib Solve tl w :
  data_file w = Some scenario_A →
  sound Solve →
  ((Solve (model_of (normalized scenario_A)) tl).1 = INFEASIBLE →
   ∀ sol, satisfies sol (model_of (normalized scenario_A)) = false) →
  (Solve (model_of (normalized scenario_A)) tl).1 ≠ UNKNOWN →
  (Solve (model_of (normalized scenario_A)) tl).1 ≠ MODEL_INVALID →
  writes_plain_text lib →
  ∃ w' e1 e2,
    generate_timetable lib Solve tl w = (Return true, w') ∧
    db_timetable w' = [e1; e2] ∧
    course_id e1 = 1 ∧ course_id e2 = 1 ∧
    timeslot_id e1 ≠ timeslot_id e2.
Proof.
  destruct scenario_A_facts as (Hnorm & Hs & Hbuild & Hrange & Hsol & Hall & Hplain).
  rewrite (build_model_in_range reference_library lib) in Hbuild by compute_done.
  revert Hnorm Hs Hbuild Hrange Hsol Hall Hplain.
  generalize (candidates (normalized scenario_A)) as assign.
  generalize (model_of (normalized scenario_A)) as m.
  generalize (normalized scenario_A) as d.
  intros d m assign Hnorm Hs Hbuild Hrange Hsol Hall Hplain
         Hfile Hsound Hcomplete Hdecided Hvalid Hwrites.
  pose proof (verdict_of_satisfiable Solve m tl _ Hsol Hcomplete Hdecided Hvalid) as Hst.
  destruct (all_solutions_pass_rows _ _ _ _ _ Hrange Hall (sound_satisfies _ _ _ Hsound Hst))
    as (records & rows & Hrows & Hcheck).
  destruct rows as [|e1 [|e2 [|]]]; try done.
  apply bool_decide_eq_true in Hcheck as (H1 & H2 & H3).
  exists (after_success lib w m tl records [e1; e2]), e1, e2.
  split; [|done]. eapply generate_timetable_success; try done.
  apply Hwrites; [|by eapply collect_rows_plain].
  apply collect_rows_Return in Hrows as [_ ->]. by vm_compute.
Qed.

Lemma scenario_A_solved_witness :
  ∃ w' e1 e2,
    generate_timetable reference_library exhaustive_search 30 (a_world (Some scenario_A))
    = (Return true, w') ∧
    db_timetable w' = [e1; e2] ∧
    course_id e1 = 1 ∧ course_id e2 = 1 ∧
    timeslot_id e1 ≠ timeslot_id e2.
Proof.
  apply (scenario_A_solved reference_library exhaustive_search 30
           (a_world (Some scenario_A)) eq_refl exhaustive_search_sound).
  - by vm_compute.
  - by vm_compute.
  - by vm_compute.
  - exact reference_library_writes.
Defined.

(** * Further properties *)

(** ** The identifier maps, entry by entry *)

Section id_map_entries.
Context {A : Type} (get_id : A → option string).

(** An entry is either left over from the start map or the index of a
    record of the list that carries the key. *)
Lemma id_map_from_entry idx l m m' k v :
  id_map_from get_id idx l m = Return m' →
  m' !! k = Some v →
  (m !! k = Some v ∧ Some k ∉ get_id <$> l) ∨
  (∃ j x, l !! j = Some x ∧ get_id x = Some k ∧ v = Z.of_nat (idx + j) + 1).
Proof.
  revert idx m. induction l as [|y l IH]; intros idx m; cbn [id_map_from].
  - intros [= <-] Hv. left. split; [done|]. apply not_elem_of_nil.
  - destruct (get_id y) as [k0|] eqn:Hy; [|done]. cbn. intros H Hv.
    destruct (IH _ _ H Hv) as [[Hm Hk]|(j & x & Hj & Hx & ->)].
    + destruct (decide (k0 = k)) as [->|Hne].
      * right. exists 0%nat, y. rewrite lookup_insert_eq in Hm.
        split; [done|]. split; [done|]. injection Hm as <-. f_equal. lia.
      * left. rewrite lookup_insert_ne in Hm by done. split; [done|].
        cbn. rewrite ?Hy, not_elem_of_cons. split; [congruence|done].
    + right. exists (S j), x. split; [done|]. split; [done|]. f_equal. lia.
Qed.

Lemma id_map_entry l m k v :
  id_map get_id l = Return m → m !! k = Some v →
  ∃ j x, l !! j = Some x ∧ get_id x = Some k ∧ v = Z.of_nat j + 1.
Proof.
  intros Hm Hv. destruct (id_map_from_entry _ _ _ _ _ _ Hm Hv) as [[He _]|H].
  - by rewrite lookup_empty in He.
  - destruct H as (j & x & ? & ? & ->). eauto.
Qed.

(** A key once present stays present. *)
Lemma id_map_from_is_Some idx l m m' k :
  id_map_from get_id idx l m = Return m' → is_Some (m !! k) → is_Some (m' !! k).
Proof.
  revert idx m. induction l as [|y l IH]; intros idx m; cbn [id_map_from].
  - by intros [= <-].
  - destruct (get_id y) as [k0|]; [|done]. cbn. intros H Hk. eapply IH; [exact H|].
    destruct (decide (k0 = k)) as [->|Hne].
    + rewrite lookup_insert_eq. eauto.
    + by rewrite lookup_insert_ne.
Qed.

(** A comprehension that returned gave every record of the list a key and
    an entry. *)
Lemma id_map_from_keys idx l m m' x :
  id_map_from get_id idx l m = Return m' → x ∈ l →
  ∃ k, get_id x = Some k ∧ is_Some (m' !! k).
Proof.
  revert idx m. induction l as [|y l IH]; intros idx m; cbn [id_map_from].
  - intros _ Hx. by apply elem_of_nil in Hx.
  - destruct (get_id y) as [k0|] eqn:Hy; [|done]. cbn. intros H Hx.
    apply elem_of_cons in Hx as [->|Hx]; [|by eapply IH].
    exists k0. split; [done|]. eapply id_map_from_is_Some; [exact H|].
    rewrite lookup_insert_eq. eauto.
Qed.

(** The only exception of the comprehension is the missing "id". *)
Lemma id_map_from_Raised idx l m e :
  id_map_from get_id idx l m = Raised e →
  e = KeyError "id" ∧ ∃ x, x ∈ l ∧ get_id x = None.
Proof.
  revert idx m. induction l as [|y l IH]; intros idx m; cbn [id_map_from]; [done|].
  destruct (get_id y) as [k0|] eqn:Hy; cbn.
  - intros H. destruct (IH _ _ H) as (-> & x & Hx & Hn). split; [done|].
    exists x. split; [by right|done].
  - intros [= <-]. split; [done|]. exists y. split; [by left|done].
Qed.
End id_map_entries.

(** Two keys with the same entry are the same key. *)
Lemma id_map_inj {A} (get_id : A → option string) l m k1 k2 v :
  id_map get_id l = Return m → m !! k1 = Some v → m !! k2 = Some v → k1 = k2.
Proof.
  intros Hm H1 H2.
  destruct (id_map_entry _ _ _ _ _ Hm H1) as (j1 & x1 & Hj1 & Hx1 & ->).
  destruct (id_map_entry _ _ _ _ _ Hm H2) as (j2 & x2 & Hj2 & Hx2 & Hv).
  assert (j1 = j2) as -> by lia. congruence.
Qed.

Lemma id_map_range {A} (get_id : A → option string) l m k v :
  id_map get_id l = Return m → m !! k = Some v → 1 ≤ v ≤ Z.of_nat (length l).
Proof.
  intros Hm Hv. destruct (id_map_entry _ _ _ _ _ Hm Hv) as (j & x & Hj & _ & ->).
  apply lookup_lt_Some in Hj. lia.
Qed.

Lemma for_append_Raised {A B} (f : A → outcome B) l e :
  for_append f l = Raised e → ∃ x, x ∈ l ∧ f x = Raised e.
Proof.
  induction l as [|y l IH]; cbn [for_append]; [done|].
  unfold mbind, outcome_bind. destruct (f y) as [b|e'] eqn:Hy.
  - destruct (for_append f l) as [bs|e'']; [done|]. intros [= <-].
    destruct (IH eq_refl) as (x & Hx & Hfx). exists x. split; [by right|done].
  - intros [= <-]. exists y. split; [by left|done].
Qed.

(** ** The normalized records, field by field *)

Lemma norm_faculty_fields fm rf f :
  norm_faculty fm rf = Return f ↔
  rf_id rf = Some (f_original_id f) ∧ rf_name rf = Some (f_name f) ∧
  fm !! f_original_id f = Some (f_id f).
Proof.
  unfold norm_faculty, mbind, outcome_bind, getitem, map_getitem. split.
  - destruct (rf_id rf) as [k|]; [|done]. destruct (fm !! k) as [i|] eqn:Hi; [|done].
    destruct (rf_name rf); [|done]. by intros [= <-].
  - intros (-> & -> & ->). by destruct f.
Qed.

Lemma norm_course_fields cm fm rc c :
  norm_course cm fm rc = Return c ↔
  rc_id rc = Some (c_original_id c) ∧ rc_name rc = Some (c_name c) ∧
  cm !! c_original_id c = Some (c_id c) ∧
  sessions_per_week c = get (rc_requiredSlots rc) 1 ∧
  size c = get (rc_size rc) 30 ∧
  faculty_id c = get (rc_faculty_id rc ≫= λ fk, fm !! fk) 1.
Proof.
  unfold norm_course, mbind at 1 2 3, outcome_bind, getitem, map_getitem. split.
  - destruct (rc_id rc) as [k|]; [|done]. destruct (cm !! k) as [i|] eqn:Hi; [|done].
    destruct (rc_name rc); [|done]. by intros [= <-].
  - intros (-> & -> & -> & H1 & H2 & H3). destruct c; cbn in *. by subst.
Qed.

Lemma norm_classroom_fields rm rr r :
  norm_classroom rm rr = Return r ↔
  rr_id rr = Some (r_original_id r) ∧ rr_name rr = Some (r_name r) ∧
  rm !! r_original_id r = Some (r_id r) ∧
  capacity r = get (rr_capacity rr) 50 ∧
  r_type r = get (rr_type rr) "Lecture".
Proof.
  unfold norm_classroom, mbind, outcome_bind, getitem, map_getitem. split.
  - destruct (rr_id rr) as [k|]; [|done]. destruct (rm !! k) as [i|] eqn:Hi; [|done].
    destruct (rr_name rr); [|done]. by intros [= <-].
  - intros (-> & -> & -> & H1 & H2). destruct r; cbn in *. by subst.
Qed.

Lemma norm_timeslot_fields tm rt t :
  norm_timeslot tm rt = Return t ↔
  rt_id rt = Some (t_original_id t) ∧ rt_label rt = Some (label t) ∧
  tm !! t_original_id t = Some (t_id t).
Proof.
  unfold norm_timeslot, mbind, outcome_bind, getitem, map_getitem. split.
  - destruct (rt_id rt) as [k|]; [|done]. destruct (tm !! k) as [i|] eqn:Hi; [|done].
    destruct (rt_label rt); [|done]. by intros [= <-].
  - intros (-> & -> & ->). by destruct t.
Qed.

(** ** Internal indices of one kind of record *)

Section indexed.
Context {A B : Type} (get_id : A → option string) (nid : B → Z) (orig : B → string).
Context (raw_l : list A) (l : list B) (m : gmap string Z).
Hypothesis Hm : id_map get_id raw_l = Return m.
Hypothesis Hl : Forall2 (indexed get_id nid orig m) raw_l l.

Lemma indexed_entry y : y ∈ l → m !! orig y = Some (nid y).
Proof.
  intros Hy. apply list_elem_of_lookup in Hy as [i Hi].
  by destruct (Forall2_lookup_r _ _ _ _ _ Hl Hi) as (x & _ & _ & ?).
Qed.

Lemma indexed_range y : y ∈ l → 1 ≤ nid y ≤ Z.of_nat (length l).
Proof.
  intros Hy. rewrite <- (Forall2_length _ _ _ Hl).
  eapply id_map_range; [exact Hm|]. by apply indexed_entry.
Qed.

Lemma indexed_same y1 y2 : y1 ∈ l → y2 ∈ l → (nid y1 = nid y2 ↔ orig y1 = orig y2).
Proof.
  intros H1%indexed_entry H2%indexed_entry. split.
  - intros Heq. rewrite Heq in H1. by eapply id_map_inj.
  - intros Heq. rewrite Heq in H1. congruence.
Qed.

Lemma indexed_dense : NoDup (get_id <$> raw_l) → nid <$> l = one_to (length l).
Proof.
  intros Hnd. apply list_eq. intros i. unfold one_to. rewrite !list_lookup_fmap.
  destruct (l !! i) as [y|] eqn:Hi.
  - rewrite lookup_seq_lt by (by eapply lookup_lt_Some). cbn. f_equal.
    destruct (Forall2_lookup_r _ _ _ _ _ Hl Hi) as (x & Hx & Hid & Hy).
    pose proof (id_map_from_lookup _ _ _ _ _ _ _ _ Hm Hnd Hx Hid) as Hv.
    rewrite Hy in Hv. by injection Hv.
  - rewrite lookup_seq_ge; [done|]. by apply lookup_ge_None.
Qed.
End indexed.

Lemma normalize_data_indexed raw d :
  _normalize_data raw = Return d →
  Forall2 (indexed rf_id f_id f_original_id (faculty_map (id_mappings d)))
          (get (raw_faculties raw) []) (faculties d) ∧
  Forall2 (indexed rc_id c_id c_original_id (course_map (id_mappings d)))
          (get (raw_courses raw) []) (courses d) ∧
  Forall2 (indexed rr_id r_id r_original_id (classroom_map (id_mappings d)))
          (get (raw_classrooms raw) []) (classrooms d) ∧
  Forall2 (indexed rt_id t_id t_original_id (timeslot_map (id_mappings d)))
          (get (raw_timeslots raw) []) (timeslots d).
Proof.
  intros (_ & _ & _ & _ & Hf & Hc & Hr & Ht)%normalize_data_Return.
  repeat split.
  - eapply Forall2_impl; [exact Hf|]. intros x y H%norm_faculty_fields. split; apply H.
  - eapply Forall2_impl; [exact Hc|]. intros x y H%norm_course_fields. split; apply H.
  - eapply Forall2_impl; [exact Hr|]. intros x y H%norm_classroom_fields. split; apply H.
  - eapply Forall2_impl; [exact Ht|]. intros x y H%norm_timeslot_fields. split; apply H.
Qed.

(** X1.  Reverse mapping: for every record of a normalized dataset, looking
    its original identifier up in the identifier map of its kind gives its
    internal index, whether or not identifiers repeat. *)
Theorem id_mappings_round_trip raw d :
  _normalize_data raw = Return d →
  (∀ f, f ∈ faculties d → faculty_map (id_mappings d) !! f_original_id f = Some (f_id f)) ∧
  (∀ c, c ∈ courses d → course_map (id_mappings d) !! c_original_id c = Some (c_id c)) ∧
  (∀ r, r ∈ classrooms d →
        classroom_map (id_mappings d) !! r_original_id r = Some (r_id r)) ∧
  (∀ t, t ∈ timeslots d → timeslot_map (id_mappings d) !! t_original_id t = Some (t_id t)).
Proof.
  intros Hnorm. destruct (normalize_data_indexed _ _ Hnorm) as (Hf & Hc & Hr & Ht).
  split; [|split; [|split]]; intros y Hy.
  - exact (indexed_entry _ _ _ _ _ _ Hf y Hy).
  - exact (indexed_entry _ _ _ _ _ _ Hc y Hy).
  - exact (indexed_entry _ _ _ _ _ _ Hr y Hy).
  - exact (indexed_entry _ _ _ _ _ _ Ht y Hy).
Qed.

Lemma id_mappings_round_trip_witness :
  (∀ f, f ∈ faculties (normalized bare_records) →
        faculty_map (id_mappings (normalized bare_records)) !! f_original_id f
        = Some (f_id f)) ∧
  (∀ c, c ∈ courses (normalized bare_records) →
        course_map (id_mappings (normalized bare_records)) !! c_original_id c
        = Some (c_id c)) ∧
  (∀ r, r ∈ classrooms (normalized bare_records) →
        classroom_map (id_mappings (normalized bare_records)) !! r_original_id r
        = Some (r_id r)) ∧
  (∀ t, t ∈ timeslots (normalized bare_records) →
        timeslot_map (id_mappings (normalized bare_records)) !! t_original_id t
        = Some (t_id t)).
Proof.
  apply (id_mappings_round_trip bare_records (normalized bare_records)).
  vm_compute. reflexivity.
Defined.

(** X2.  Dense indices: for each kind of record whose identifiers are
    pairwise distinct, the internal indices in input order are
    1, 2, ..., n. *)
Theorem distinct_identifiers_dense_indices raw d :
  _normalize_data raw = Return d →
  (NoDup (rf_id <$> get (raw_faculties raw) []) →
   f_id <$> faculties d = one_to (length (faculties d))) ∧
  (NoDup (rc_id <$> get (raw_courses raw) []) →
   c_id <$> courses d = one_to (length (courses d))) ∧
  (NoDup (rr_id <$> get (raw_classrooms raw) []) →
   r_id <$> classrooms d = one_to (length (classrooms d))) ∧
  (NoDup (rt_id <$> get (raw_timeslots raw) []) →
   t_id <$> timeslots d = one_to (length (timeslots d))).
Proof.
  intros Hnorm. destruct (normalize_data_indexed _ _ Hnorm) as (Hf & Hc & Hr & Ht).
  apply normalize_data_Return in Hnorm as (Hfm & Hcm & Hrm & Htm & _).
  repeat split; intros Hnd.
  - exact (indexed_dense _ _ _ _ _ _ Hfm Hf Hnd).
  - exact (indexed_dense _ _ _ _ _ _ Hcm Hc Hnd).
  - exact (indexed_dense _ _ _ _ _ _ Hrm Hr Hnd).
  - exact (indexed_dense _ _ _ _ _ _ Htm Ht Hnd).
Qed.

Lemma distinct_identifiers_dense_indices_witness :
  (NoDup (rf_id <$> get (raw_faculties scenario_A) []) →
   f_id <$> faculties (normalized scenario_A)
   = one_to (length (faculties (normalized scenario_A)))) ∧
  (NoDup (rc_id <$> get (raw_courses scenario_A) []) →
   c_id <$> courses (normalized scenario_A)
   = one_to (length (courses (normalized scenario_A)))) ∧
  (NoDup (rr_id <$> get (raw_classrooms scenario_A) []) →
   r_id <$> classrooms (normalized scenario_A)
   = one_to (length (classrooms (normalized scenario_A)))) ∧
  (NoDup (rt_id <$> get (raw_timeslots scenario_A) []) →
   t_id <$> timeslots (normalized scenario_A)
   = one_to (length (timeslots (normalized scenario_A)))).
Proof.
  apply (distinct_identifiers_dense_indices scenario_A (normalized scenario_A)).
  vm_compute. reflexivity.
Defined.

(** X3.  Two records of one kind get the same internal index exactly when
    they carry the same identifier: repeated identifiers collapse, distinct
    ones never collide. *)
Theorem same_index_iff_same_identifier raw d :
  _normalize_data raw = Return d →
  (∀ f1 f2, f1 ∈ faculties d → f2 ∈ faculties d →
            (f_id f1 = f_id f2 ↔ f_original_id f1 = f_original_id f2)) ∧
  (∀ c1 c2, c1 ∈ courses d → c2 ∈ courses d →
            (c_id c1 = c_id c2 ↔ c_original_id c1 = c_original_id c2)) ∧
  (∀ r1 r2, r1 ∈ classrooms d → r2 ∈ classrooms d →
            (r_id r1 = r_id r2 ↔ r_original_id r1 = r_original_id r2)) ∧
  (∀ t1 t2, t1 ∈ timeslots d → t2 ∈ timeslots d →
            (t_id t1 = t_id t2 ↔ t_original_id t1 = t_original_id t2)).
Proof.
  intros Hnorm. destruct (normalize_data_indexed _ _ Hnorm) as (Hf & Hc & Hr & Ht).
  apply normalize_data_Return in Hnorm as (Hfm & Hcm & Hrm & Htm & _).
  split; [|split; [|split]]; intros y1 y2 H1 H2.
  - exact (indexed_same _ _ _ _ _ _ Hfm Hf y1 y2 H1 H2).
  - exact (indexed_same _ _ _ _ _ _ Hcm Hc y1 y2 H1 H2).
  - exact (indexed_same _ _ _ _ _ _ Hrm Hr y1 y2 H1 H2).
  - exact (indexed_same _ _ _ _ _ _ Htm Ht y1 y2 H1 H2).
Qed.

Lemma same_index_iff_same_identifier_witness :
  (∀ f1 f2, f1 ∈ faculties (normalized duplicate_course_id) →
            f2 ∈ faculties (normalized duplicate_course_id) →
            (f_id f1 = f_id f2 ↔ f_original_id f1 = f_original_id f2)) ∧
  (∀ c1 c2, c1 ∈ courses (normalized duplicate_course_id) →
            c2 ∈ courses (normalized duplicate_course_id) →
            (c_id c1 = c_id c2 ↔ c_original_id c1 = c_original_id c2)) ∧
  (∀ r1 r2, r1 ∈ classrooms (normalized duplicate_course_id) →
            r2 ∈ classrooms (normalized duplicate_course_id) →
            (r_id r1 = r_id r2 ↔ r_original_id r1 = r_original_id r2)) ∧
  (∀ t1 t2, t1 ∈ timeslots (normalized duplicate_course_id) →
            t2 ∈ timeslots (normalized duplicate_course_id) →
            (t_id t1 = t_id t2 ↔ t_original_id t1 = t_original_id t2)).
Proof.
  apply (same_index_iff_same_identifier duplicate_course_id (normalized duplicate_course_id)).
  vm_compute. reflexivity.
Defined.

(** X4.  Every internal index lies between 1 and the number of records of
    its kind, and every course's faculty index between 1 and the number of
    faculties (1 when there is none). *)
Theorem indices_within_bounds raw d :
  _normalize_data raw = Return d →
  (∀ f, f ∈ faculties d → 1 ≤ f_id f ≤ Z.of_nat (length (faculties d))) ∧
  (∀ c, c ∈ courses d →
        1 ≤ c_id c ≤ Z.of_nat (length (courses d)) ∧
        1 ≤ faculty_id c ≤ Z.max 1 (Z.of_nat (length (faculties d)))) ∧
  (∀ r, r ∈ classrooms d → 1 ≤ r_id r ≤ Z.of_nat (length (classrooms d))) ∧
  (∀ t, t ∈ timeslots d → 1 ≤ t_id t ≤ Z.of_nat (length (timeslots d))).
Proof.
  intros Hnorm. destruct (normalize_data_indexed _ _ Hnorm) as (Hf & Hc & Hr & Ht).
  apply normalize_data_Return in Hnorm as (Hfm & Hcm & Hrm & Htm & Hfs & Hcs & _).
  split; [|split; [|split]].
  - intros y Hy. exact (indexed_range _ _ _ _ _ _ Hfm Hf y Hy).
  - intros c Hin. split; [exact (indexed_range _ _ _ _ _ _ Hcm Hc c Hin)|].
    apply list_elem_of_lookup in Hin as [i Hi].
    destruct (Forall2_lookup_r _ _ _ _ _ Hcs Hi) as (rc & _ & Hrc).
    apply norm_course_fields in Hrc as (_ & _ & _ & _ & _ & ->).
    destruct (rc_faculty_id rc ≫= _) as [v|] eqn:Hv; cbn; [|lia].
    destruct (rc_faculty_id rc) as [fk|]; [|done]. cbn in Hv.
    pose proof (id_map_range _ _ _ _ _ Hfm Hv) as Hrange.
    rewrite (Forall2_length _ _ _ Hfs) in Hrange. lia.
  - intros y Hy. exact (indexed_range _ _ _ _ _ _ Hrm Hr y Hy).
  - intros y Hy. exact (indexed_range _ _ _ _ _ _ Htm Ht y Hy).
Qed.

Lemma indices_within_bounds_witness :
  (∀ f, f ∈ faculties (normalized duplicate_id_two_faculties) →
        1 ≤ f_id f ≤ Z.of_nat (length (faculties (normalized duplicate_id_two_faculties)))) ∧
  (∀ c, c ∈ courses (normalized duplicate_id_two_faculties) →
        1 ≤ c_id c ≤ Z.of_nat (length (courses (normalized duplicate_id_two_faculties))) ∧
        1 ≤ faculty_id c
          ≤ Z.max 1 (Z.of_nat (length (faculties (normalized duplicate_id_two_faculties))))) ∧
  (∀ r, r ∈ classrooms (normalized duplicate_id_two_faculties) →
        1 ≤ r_id r
          ≤ Z.of_nat (length (classrooms (normalized duplicate_id_two_faculties)))) ∧
  (∀ t, t ∈ timeslots (normalized duplicate_id_two_faculties) →
        1 ≤ t_id t ≤ Z.of_nat (length (timeslots (normalized duplicate_id_two_faculties)))).
Proof.
  apply (indices_within_bounds duplicate_id_two_faculties
           (normalized duplicate_id_two_faculties)).
  vm_compute. reflexivity.
Defined.

(** X5.  The normalizer keeps the number and the order of the records, and
    for each of them the identifier (as [original_id]), the name or label,
    and the numbers that were supplied. *)
Theorem normalize_keeps_order_and_fields raw d :
  _normalize_data raw = Return d →
  Forall2 (λ rf f, rf_id rf = Some (f_original_id f) ∧ rf_name rf = Some (f_name f))
          (get (raw_faculties raw) []) (faculties d) ∧
  Forall2 (λ rc c, rc_id rc = Some (c_original_id c) ∧ rc_name rc = Some (c_name c) ∧
                   (∀ n, rc_requiredSlots rc = Some n → sessions_per_week c = n) ∧
                   (∀ n, rc_size rc = Some n → size c = n))
          (get (raw_courses raw) []) (courses d) ∧
  Forall2 (λ rr r, rr_id rr = Some (r_original_id r) ∧ rr_name rr = Some (r_name r) ∧
                   (∀ n, rr_capacity rr = Some n → capacity r = n))
          (get (raw_classrooms raw) []) (classrooms d) ∧
  Forall2 (λ rt t, rt_id rt = Some (t_original_id t) ∧ rt_label rt = Some (label t))
          (get (raw_timeslots raw) []) (timeslots d).
Proof.
  intros (_ & _ & _ & _ & Hf & Hc & Hr & Ht)%normalize_data_Return.
  repeat split.
  - eapply Forall2_impl; [exact Hf|]. intros x y H%norm_faculty_fields. split; apply H.
  - eapply Forall2_impl; [exact Hc|].
    intros x y (? & ? & _ & Hs & Hz & _)%norm_course_fields.
    repeat split; try done; intros n Hn; by rewrite ?Hs, ?Hz, Hn.
  - eapply Forall2_impl; [exact Hr|].
    intros x y (? & ? & _ & Hcap & _)%norm_classroom_fields.
    repeat split; try done. intros n Hn. by rewrite Hcap, Hn.
  - eapply Forall2_impl; [exact Ht|]. intros x y H%norm_timeslot_fields. split; apply H.
Qed.

Lemma normalize_keeps_order_and_fields_witness :
  Forall2 (λ rf f, rf_id rf = Some (f_original_id f) ∧ rf_name rf = Some (f_name f))
          (get (raw_faculties scenario_C) []) (faculties (normalized scenario_C)) ∧
  Forall2 (λ rc c, rc_id rc = Some (c_original_id c) ∧ rc_name rc = Some (c_name c) ∧
                   (∀ n, rc_requiredSlots rc = Some n → sessions_per_week c = n) ∧
                   (∀ n, rc_size rc = Some n → size c = n))
          (get (raw_courses scenario_C) []) (courses (normalized scenario_C)) ∧
  Forall2 (λ rr r, rr_id rr = Some (r_original_id r) ∧ rr_name rr = Some (r_name r) ∧
                   (∀ n, rr_capacity rr = Some n → capacity r = n))
          (get (raw_classrooms scenario_C) []) (classrooms (normalized scenario_C)) ∧
  Forall2 (λ rt t, rt_id rt = Some (t_original_id t) ∧ rt_label rt = Some (label t))
          (get (raw_timeslots scenario_C) []) (timeslots (normalized scenario_C)).
Proof.
  apply (normalize_keeps_order_and_fields scenario_C (normalized scenario_C)).
  vm_compute. reflexivity.
Defined.

(** ** When the normalizer raises *)

Lemma id_map_Return_keys {A} (get_id : A → option string) l m x :
  id_map get_id l = Return m → x ∈ l → ∃ k, get_id x = Some k ∧ is_Some (m !! k).
Proof. apply id_map_from_keys. Qed.

Lemma normalize_data_required raw d :
  _normalize_data raw = Return d → required_fields_present raw.
Proof.
  intros (_ & _ & _ & _ & Hf & Hc & Hr & Ht)%normalize_data_Return.
  repeat split.
  - eapply Forall2_Forall_l; [exact Hf|]. apply Forall_true.
    intros x y (-> & -> & _)%norm_faculty_fields. eauto.
  - eapply Forall2_Forall_l; [exact Hc|]. apply Forall_true.
    intros x y (-> & -> & _)%norm_course_fields. eauto.
  - eapply Forall2_Forall_l; [exact Hr|]. apply Forall_true.
    intros x y (-> & -> & _)%norm_classroom_fields. eauto.
  - eapply Forall2_Forall_l; [exact Ht|]. apply Forall_true.
    intros x y (-> & -> & _)%norm_timeslot_fields. eauto.
Qed.

(** A record of the list the map was built from fails only on a missing
    field, never on the map. *)
Ltac missing_field Hm Hx :=
  let k := fresh "k" in let Hk := fresh "Hk" in let v := fresh "v" in let Hv := fresh "Hv" in
  destruct (id_map_Return_keys _ _ _ _ Hm Hx) as (k & Hk & [v Hv]);
  rewrite Hk; cbn; unfold map_getitem; rewrite Hv; cbn.

Lemma norm_faculty_Raised l fm x e :
  id_map rf_id l = Return fm → x ∈ l → norm_faculty fm x = Raised e →
  e = KeyError "name".
Proof.
  intros Hm Hx. unfold norm_faculty. missing_field Hm Hx.
  destruct (rf_name x); cbn; [done|]. by intros [= <-].
Qed.

Lemma norm_course_Raised l cm fm x e :
  id_map rc_id l = Return cm → x ∈ l → norm_course cm fm x = Raised e →
  e = KeyError "name".
Proof.
  intros Hm Hx. unfold norm_course. missing_field Hm Hx.
  destruct (rc_name x); cbn; [done|]. by intros [= <-].
Qed.

Lemma norm_classroom_Raised l rm x e :
  id_map rr_id l = Return rm → x ∈ l → norm_classroom rm x = Raised e →
  e = KeyError "name".
Proof.
  intros Hm Hx. unfold norm_classroom. missing_field Hm Hx.
  destruct (rr_name x); cbn; [done|]. by intros [= <-].
Qed.

Lemma norm_timeslot_Raised l tm x e :
  id_map rt_id l = Return tm → x ∈ l → norm_timeslot tm x = Raised e →
  e = KeyError "label".
Proof.
  intros Hm Hx. unfold norm_timeslot. missing_field Hm Hx.
  destruct (rt_label x); cbn; [done|]. by intros [= <-].
Qed.

Lemma normalize_data_Raised raw e :
  _normalize_data raw = Raised e →
  e = KeyError "id" ∨ e = KeyError "name" ∨ e = KeyError "label".
Proof.
  unfold _normalize_data, mbind, outcome_bind.
  destruct (id_map rf_id _) as [fm|e1] eqn:Hfm;
    [|intros [= <-]; left; by apply id_map_from_Raised in Hfm as [-> _]].
  destruct (id_map rc_id _) as [cm|e1] eqn:Hcm;
    [|intros [= <-]; left; by apply id_map_from_Raised in Hcm as [-> _]].
  destruct (id_map rr_id _) as [rm|e1] eqn:Hrm;
    [|intros [= <-]; left; by apply id_map_from_Raised in Hrm as [-> _]].
  destruct (id_map rt_id _) as [tm|e1] eqn:Htm;
    [|intros [= <-]; left; by apply id_map_from_Raised in Htm as [-> _]].
  destruct (for_append (norm_faculty fm) _) as [fs|e1] eqn:Hfs.
  2:{ intros [= <-]. apply for_append_Raised in Hfs as (x & Hx & Hfx).
      right. left. by eapply norm_faculty_Raised. }
  destruct (for_append (norm_course cm fm) _) as [cs|e1] eqn:Hcs.
  2:{ intros [= <-]. apply for_append_Raised in Hcs as (x & Hx & Hfx).
      right. left. by eapply norm_course_Raised. }
  destruct (for_append (norm_classroom rm) _) as [rs|e1] eqn:Hrs.
  2:{ intros [= <-]. apply for_append_Raised in Hrs as (x & Hx & Hfx).
      right. left. by eapply norm_classroom_Raised. }
  destruct (for_append (norm_timeslot tm) _) as [ts|e1] eqn:Hts; [done|].
  intros [= <-]. apply for_append_Raised in Hts as (x & Hx & Hfx).
  right. right. by eapply norm_timeslot_Raised.
Qed.

(** X6.  On a dataset of the shape the frontend sends (lists of records
    whose identifiers and names are strings), the normalizer returns
    exactly when every record has its "id" and its "name" (or "label"); a
    dataset with a record that lacks one of them makes it raise [KeyError]
    for "id", "name" or "label". *)
Theorem normalize_returns_iff_required_fields raw :
  (required_fields_present raw ↔ ∃ d, _normalize_data raw = Return d) ∧
  (¬ required_fields_present raw →
   ∃ key, (key = "id" ∨ key = "name" ∨ key = "label") ∧
          _normalize_data raw = Raised (KeyError key)).
Proof.
  split; [split|].
  - apply normalize_data_total.
  - intros [d Hd]. by eapply normalize_data_required.
  - intros Hreq. destruct (_normalize_data raw) as [d|e] eqn:Hnorm.
    + by apply normalize_data_required in Hnorm.
    + destruct (normalize_data_Raised _ _ Hnorm) as [He|[He|He]]; subst e; eauto.
Qed.

(** X7.  A course whose faculty reference is the identifier of a faculty
    record gets that record's internal index as its [faculty_id]. *)
Theorem faculty_reference_resolves raw d rc c f :
  _normalize_data raw = Return d →
  (rc, c) ∈ zip (get (raw_courses raw) []) (courses d) →
  f ∈ faculties d →
  rc_faculty_id rc = Some (f_original_id f) →
  faculty_id c = f_id f.
Proof.
  intros Hnorm Hin Hf Href.
  destruct (normalize_data_indexed _ _ Hnorm) as (Hfs & _).
  apply normalize_data_Return in Hnorm as (_ & _ & _ & _ & _ & Hcs & _).
  apply elem_of_lookup_zip_with in Hin as (i & rc' & c' & [= <- <-] & Hrc & Hc).
  pose proof (Forall2_lookup_lr _ _ _ _ _ _ Hcs Hrc Hc) as Hn.
  apply norm_course_fields in Hn as (_ & _ & _ & _ & _ & ->).
  rewrite Href. cbn. by rewrite (indexed_entry _ _ _ _ _ _ Hfs f Hf).
Qed.

Lemma faculty_reference_resolves_witness :
  faculty_id {| c_id := 3; c_name := "Logic II"; sessions_per_week := 1; size := 10;
                faculty_id := 2; c_original_id := "c2" |}
  = f_id {| f_id := 2; f_name := "Sen"; f_original_id := "f2" |}.
Proof.
  apply (faculty_reference_resolves duplicate_id_two_faculties
           (normalized duplicate_id_two_faculties)
           {| rc_id := Some "c2"; rc_name := Some "Logic II"; rc_requiredSlots := Some 1;
              rc_size := Some 10; rc_faculty_id := Some "f2" |}).
  - vm_compute. reflexivity.
  - vm_compute. right. right. by left.
  - vm_compute. right. by left.
  - reflexivity.
Defined.

(** ** The model that is handed to the solver *)

Lemma foldl_inv {A S} (P : S → Prop) (f : S → A → S) l st :
  P st → (∀ st x, P st → P (f st x)) → P (foldl f st l).
Proof. intros Hst Hf. revert st Hst. induction l; intros st Hst; cbn; eauto. Qed.

Lemma dict_set_values k v (d : Assign) v' :
  v' ∈ (dict_set k v d).*2 → v' = v ∨ v' ∈ d.*2.
Proof.
  induction d as [|[k0 v0] d IH]; cbn.
  - rewrite list_elem_of_singleton. by left.
  - case_decide; cbn; rewrite !elem_of_cons; [tauto|].
    intros [?|?]; [tauto|]. destruct IH; tauto.
Qed.

Lemma dict_set_NoDup_keys k v (d : Assign) :
  NoDup d.*1 → NoDup (dict_set k v d).*1.
Proof.
  induction d as [|[k0 v0] d IH]; cbn.
  - intros _. apply NoDup_singleton.
  - rewrite NoDup_cons. intros [Hk0 Hd]. case_decide as Hk; cbn.
    + subst. by apply NoDup_cons.
    + apply NoDup_cons. split; [|by apply IH].
      rewrite dict_set_keys. intros [?|?]; congruence.
Qed.

Lemma dict_set_NoDup_values k v (d : Assign) :
  v ∉ d.*2 → NoDup d.*2 → NoDup (dict_set k v d).*2.
Proof.
  induction d as [|[k0 v0] d IH]; cbn.
  - intros _ _. apply NoDup_singleton.
  - rewrite not_elem_of_cons, NoDup_cons. intros [Hv Hvd] [Hv0 Hd]. case_decide; cbn.
    + by apply NoDup_cons.
    + apply NoDup_cons. split; [|by apply IH].
      intros [?|?]%dict_set_values; congruence.
Qed.

Lemma add_candidate_inv c t st r :
  variables_inv st → variables_inv (add_candidate c t st r).
Proof.
  intros (Hk & Hv & Hlt & Hc). unfold add_candidate. case_decide; [|done].
  destruct st as [m a]. cbn in *. repeat split; cbn.
  - by apply dict_set_NoDup_keys.
  - apply dict_set_NoDup_values; [|done].
    intros Hin. rewrite Forall_forall in Hlt. specialize (Hlt _ Hin). lia.
  - apply Forall_forall. intros v [->|Hin]%dict_set_values; [lia|].
    rewrite Forall_forall in Hlt. specialize (Hlt _ Hin). lia.
  - done.
Qed.

Lemma build_variables_inv cs ts rs st :
  variables_inv st → variables_inv (build_variables cs ts rs st).
Proof.
  intros Hst. unfold build_variables.
  apply foldl_inv; [done|]. intros st1 c H1.
  apply foldl_inv; [done|]. intros st2 t H2.
  apply foldl_inv; [done|]. intros st3 r H3. by apply add_candidate_inv.
Qed.

Lemma foldl_sum {A S} (n : S → nat) (cnt : A → nat) (f : S → A → S) l st :
  (∀ st x, n (f st x) = (n st + cnt x)%nat) →
  n (foldl f st l) = (n st + sum_list (cnt <$> l))%nat.
Proof.
  intros Hf. revert st. induction l as [|x l IH]; intros st; cbn; [lia|].
  rewrite IH, Hf. lia.
Qed.

Lemma build_variables_num_vars cs ts rs st :
  num_vars (build_variables cs ts rs st).1
  = (num_vars st.1 + count_candidates cs ts rs)%nat.
Proof.
  unfold build_variables, count_candidates.
  apply (foldl_sum (λ st : CpModel * Assign, num_vars st.1)). intros st1 c.
  rewrite (foldl_sum (λ st : CpModel * Assign, num_vars st.1)
             (λ _, length (filter (λ r, size c ≤ capacity r) rs))).
  - f_equal. induction ts; cbn; lia.
  - intros st2 t.
    rewrite (foldl_sum (λ st : CpModel * Assign, num_vars st.1)
               (λ r, if decide (size c ≤ capacity r) then 1%nat else 0%nat)).
    + f_equal. induction rs as [|r rs IH]; [done|]. rewrite filter_cons. cbn.
      case_decide; cbn; lia.
    + intros st3 r. unfold add_candidate. case_decide; cbn; lia.
Qed.

Lemma filter_values_subseteq (P : Key * nat → Prop) `{!∀ kv, Decision (P kv)}
    (assign : Assign) :
  (filter P assign).*2 ⊆ assign.*2.
Proof.
  intros v ([k v'] & -> & Hin%list_elem_of_filter)%list_elem_of_fmap.
  apply list_elem_of_fmap. exists (k, v'). tauto.
Qed.

Lemma add_at_most_one_inv assign m vars :
  vars ⊆ assign.*2 → constraints_inv assign m →
  constraints_inv assign (add_at_most_one m vars) ∧
  num_vars (add_at_most_one m vars) = num_vars m.
Proof.
  intros Hv Hm. destruct vars; [done|]. split; [|done]. unfold constraints_inv. cbn.
  apply Forall_app. split; [done|]. by constructor.
Qed.

Lemma room_constraints_inv ts rs assign m :
  constraints_inv assign m →
  constraints_inv assign (room_constraints ts rs assign m) ∧
  num_vars (room_constraints ts rs assign m) = num_vars m.
Proof.
  intros Hm. unfold room_constraints.
  apply (foldl_inv (λ m', constraints_inv assign m' ∧ num_vars m' = num_vars m)); [done|].
  intros m1 t H1.
  apply (foldl_inv (λ m', constraints_inv assign m' ∧ num_vars m' = num_vars m)); [done|].
  intros m2 r [H2 Hn]. rewrite <- Hn.
  apply add_at_most_one_inv; [|done]. apply filter_values_subseteq.
Qed.

Lemma faculty_constraints_inv cs fs ts assign m :
  constraints_inv assign m →
  constraints_inv assign (faculty_constraints cs fs ts assign m) ∧
  num_vars (faculty_constraints cs fs ts assign m) = num_vars m.
Proof.
  intros Hm. unfold faculty_constraints.
  apply (foldl_inv (λ m', constraints_inv assign m' ∧ num_vars m' = num_vars m)); [done|].
  intros m1 fid H1.
  apply (foldl_inv (λ m', constraints_inv assign m' ∧ num_vars m' = num_vars m)); [done|].
  intros m2 t [H2 Hn]. rewrite <- Hn.
  apply add_at_most_one_inv; [|done]. apply filter_values_subseteq.
Qed.

Lemma coverage_constraints_inv lib cs assign m m' :
  coverage_constraints lib cs assign m = inl m' →
  constraints_inv assign m →
  constraints_inv assign m' ∧ num_vars m' = num_vars m.
Proof.
  revert m. induction cs as [|c cs IH]; intros m; cbn [coverage_constraints].
  - by intros [= <-].
  - destruct (vars_for_course assign c) as [|v vs] eqn:Hv; [done|].
    destruct (add_equality lib m (v :: vs) (sessions_per_week c)) as [m1|e] eqn:Hadd; [|done].
    apply add_equality_Return in Hadd as (k & -> & Hk).
    intros H Hm. apply IH in H as [H1 H2]; [done|].
    unfold constraints_inv. cbn. apply Forall_app. split; [done|]. constructor; [|done].
    destruct Hk as [-> | ->]; cbn; [|apply list_subseteq_nil].
    rewrite <- Hv. apply filter_values_subseteq.
Qed.

(** X8.  The model handed to the solver is well formed: the keys of
    [assign] are pairwise distinct, so are its variables, every one of them
    was allocated by the model, every constraint speaks only of variables
    of [assign], and the number of variables allocated is, summed over the
    courses, the number of timeslots times the number of rooms that fit. *)
Theorem built_model_well_formed lib d m assign :
  build_model lib d = inl (m, assign) →
  NoDup assign.*1 ∧ NoDup assign.*2 ∧
  (∀ v, v ∈ assign.*2 → (v < num_vars m)%nat) ∧
  (∀ c v, c ∈ constraints m → v ∈ constraint_vars c → v ∈ assign.*2) ∧
  num_vars m = count_candidates (courses d) (timeslots d) (classrooms d).
Proof.
  unfold build_model.
  pose proof (build_variables_inv (courses d) (timeslots d) (classrooms d) (CpModel_new, []))
    as Hinv.
  pose proof (build_variables_num_vars (courses d) (timeslots d) (classrooms d)
                (CpModel_new, [])) as Hnum.
  destruct (build_variables _ _ _ _) as [m0 a0]. cbn [fst snd] in *.
  destruct Hinv as (Hk & Hv & Hlt & Hc0).
  { repeat split; cbn; try constructor. }
  cbn [fst snd] in *.
  destruct (coverage_constraints lib (courses d) a0 m0) as [m1|] eqn:Hcov; [|done].
  intros [= <- <-].
  apply coverage_constraints_inv in Hcov as [Hc1 Hn1];
    [|unfold constraints_inv; rewrite Hc0; constructor].
  destruct (room_constraints_inv (timeslots d) (classrooms d) a0 m1 Hc1) as [Hc2 Hn2].
  destruct (faculty_constraints_inv (courses d) (faculties d) (timeslots d) a0 _ Hc2)
    as [Hc3 Hn3].
  rewrite Hn3, Hn2, Hn1. repeat split; try done.
  - intros v Hin. rewrite Forall_forall in Hlt. by apply Hlt.
  - intros c v Hc Hin. unfold constraints_inv in Hc3. rewrite Forall_forall in Hc3.
    by apply (Hc3 c Hc).
Qed.

Lemma built_model_well_formed_witness :
  NoDup (candidates (normalized duplicate_id_two_faculties)).*1 ∧
  NoDup (candidates (normalized duplicate_id_two_faculties)).*2 ∧
  (∀ v, v ∈ (candidates (normalized duplicate_id_two_faculties)).*2 →
        (v < num_vars (model_of (normalized duplicate_id_two_faculties)))%nat) ∧
  (∀ c v, c ∈ constraints (model_of (normalized duplicate_id_two_faculties)) →
          v ∈ constraint_vars c →
          v ∈ (candidates (normalized duplicate_id_two_faculties)).*2) ∧
  num_vars (model_of (normalized duplicate_id_two_faculties))
  = count_candidates (courses (normalized duplicate_id_two_faculties))
      (timeslots (normalized duplicate_id_two_faculties))
      (classrooms (normalized duplicate_id_two_faculties)).
Proof.
  apply (built_model_well_formed reference_library (normalized duplicate_id_two_faculties)).
  vm_compute. reflexivity.
Defined.

(** ** What a call does to the world *)

(** X9.  A call never changes the data file; it only appends to the output
    and to the calls made: exactly one line when it returns, none when it
    raises, and at most one call of the solver, with the time limit it was
    given. *)
Theorem generate_timetable_effects lib Solve tl w res w' :
  generate_timetable lib Solve tl w = (res, w') →
  data_file w' = data_file w ∧
  ∃ msgs evs,
    stdout w' = stdout w ++ msgs ∧ trace w' = trace w ++ evs ∧
    (∀ b, res = Return b → length msgs = 1%nat) ∧
    (∀ e, res = Raised e → msgs = []) ∧
    (solver_calls evs = [] ∨ ∃ model, solver_calls evs = [EvSolve model tl]).
Proof.
  intros Hrun. pose proof (generate_timetable_run lib Solve tl w) as R.
  rewrite Hrun in R. cbn [fst snd] in R.
  inversion R; subst; (split; [done|]).
  - exists ["Data file not found!"], []. repeat split; try done. by left.
  - exists [], []. rewrite !app_nil_r. repeat split; try done. by left.
  - eexists [_], []. repeat split; try done. by left.
  - eexists [_], []. repeat split; try done. by left.
  - exists [], []. rewrite !app_nil_r. repeat split; try done. by left.
  - eexists [_], [_]. repeat split; try done. right. by eexists.
  - exists [], [EvSolve model tl; EvClear]. cbn. rewrite app_nil_r.
    repeat split; try done. right. by eexists.
  - exists [], [EvSolve model tl; EvClear; EvCommit rows]. cbn. rewrite app_nil_r.
    repeat split; try done. right. by eexists.
  - eexists [_], [EvSolve model tl; EvClear; EvCommit rows].
    repeat split; try done. right. by eexists.
Qed.

Lemma generate_timetable_effects_witness :
  data_file (run_of exhaustive_search scenario_A).2 = data_file (a_world (Some scenario_A)) ∧
  ∃ msgs evs,
    stdout (run_of exhaustive_search scenario_A).2
    = stdout (a_world (Some scenario_A)) ++ msgs ∧
    trace (run_of exhaustive_search scenario_A).2
    = trace (a_world (Some scenario_A)) ++ evs ∧
    (∀ b, (run_of exhaustive_search scenario_A).1 = Return b → length msgs = 1%nat) ∧
    (∀ e, (run_of exhaustive_search scenario_A).1 = Raised e → msgs = []) ∧
    (solver_calls evs = [] ∨ ∃ model, solver_calls evs = [EvSolve model 30]).
Proof.
  apply (generate_timetable_effects reference_library exhaustive_search 30
           (a_world (Some scenario_A))).
  vm_compute. reflexivity.
Defined.

(** X10.  What an exception leaves behind.  A [KeyError] comes from a
    record that lacks "id", "name" or "label" and leaves the world exactly
    as it was; [StopIteration] comes from the extraction loop and leaves
    the table and both export files emptied; an exception raised inside a
    library comes either from [model.Add], at a course whose number of
    sessions is outside the range, with the world exactly as it was, or
    from [to_excel], with the new rows committed and timetable.json
    written. *)
Theorem generate_timetable_exceptions lib Solve tl w e w' :
  generate_timetable lib Solve tl w = (Raised e, w') →
  (∀ key, e = KeyError key →
     w' = w ∧ (key = "id" ∨ key = "name" ∨ key = "label") ∧
     ∃ raw, data_file w = Some raw ∧ ¬ required_fields_present raw) ∧
  (e = StopIteration → store w' = ([], None, None)) ∧
  (∀ class_name, e = LibraryError class_name →
     (w' = w ∧
      ∃ raw d c, data_file w = Some raw ∧ _normalize_data raw = Return d ∧
                 c ∈ courses d ∧ ¬ (INT64_MIN < sessions_per_week c < INT64_MAX) ∧
                 add_out_of_range lib (sessions_per_week c) = Raises class_name) ∨
     (∃ records,
        to_excel lib records None = (Some class_name, timetable_xlsx w') ∧
        timetable_json w' = Some records ∧
        length (db_timetable w') = length records ∧
        sink_calls (drop (length (trace w)) (trace w'))
        = [EvClear; EvCommit (db_timetable w')])).
Proof.
  intros Hrun. pose proof (generate_timetable_run lib Solve tl w) as R.
  rewrite Hrun in R. cbn [fst snd] in R.
  inversion R as [ | raw e0 Hfile Hnorm | |
                 | raw d e0 Hfile Hnorm Hs Hbuild |
                 | raw d model assign e0 Hfile Hnorm Hs Hbuild Hst Hrows
                 | raw d model assign records rows name Hfile Hnorm Hs Hbuild Hst Hrows Hexcel
                 | ]; subst.
  - pose proof (normalize_data_Raised _ _ Hnorm) as Hkey.
    split; [|split; [|intros name ->]].
    + intros key ->. split; [done|]. split.
      * destruct Hkey as [[=]|[[=]|[=]]]; auto.
      * exists raw. split; [done|].
        intros Hreq. destruct (normalize_data_total raw Hreq) as [d Hd]. congruence.
    + intros ->. by destruct Hkey as [|[|]].
    + by destruct Hkey as [|[|]].
  - apply build_model_raised in Hbuild as (c & name & Hc & _ & Hout & Hlib & ->).
    split; [done|]. split; [done|]. intros ? [= <-]. left. split; [done|].
    by exists raw, d, c.
  - pose proof (collect_rows_Raised _ _ _ _ Hrows) as ->.
    split; [done|]. split; [done|]. done.
  - split; [done|]. split; [done|]. intros ? [= <-]. right. exists records.
    cbn. rewrite drop_app_length. split; [|split; [done|split; [|done]]].
    + by rewrite <- Hexcel, <- surjective_pairing.
    + by apply collect_rows_Return in Hrows as [_ ->].
Qed.

Lemma generate_timetable_exceptions_witness :
  (∀ key, StopIteration = KeyError key →
     (run_of exhaustive_search no_faculties).2 = a_world (Some no_faculties) ∧
     (key = "id" ∨ key = "name" ∨ key = "label") ∧
     ∃ raw, data_file (a_world (Some no_faculties)) = Some raw ∧
            ¬ required_fields_present raw) ∧
  (StopIteration = StopIteration →
   store (run_of exhaustive_search no_faculties).2 = ([], None, None)) ∧
  (∀ class_name, StopIteration = LibraryError class_name →
     ((run_of exhaustive_search no_faculties).2 = a_world (Some no_faculties) ∧
      ∃ raw d c, data_file (a_world (Some no_faculties)) = Some raw ∧
                 _normalize_data raw = Return d ∧
                 c ∈ courses d ∧ ¬ (INT64_MIN < sessions_per_week c < INT64_MAX) ∧
                 add_out_of_range reference_library (sessions_per_week c)
                 = Raises class_name) ∨
     (∃ records,
        to_excel reference_library records None
        = (Some class_name, timetable_xlsx (run_of exhaustive_search no_faculties).2) ∧
        timetable_json (run_of exhaustive_search no_faculties).2 = Some records ∧
        length (db_timetable (run_of exhaustive_search no_faculties).2) = length records ∧
        sink_calls (drop (length (trace (a_world (Some no_faculties))))
                      (trace (run_of exhaustive_search no_faculties).2))
        = [EvClear; EvCommit (db_timetable (run_of exhaustive_search no_faculties).2)])).
Proof.
  apply (generate_timetable_exceptions reference_library exhaustive_search 30
           (a_world (Some no_faculties))).
  vm_compute. reflexivity.
Defined.

(** ** Lookups of the extraction loop *)

Lemma find_faculty_elem_of fs f : f ∈ fs → is_Some (find_faculty fs (f_id f)).
Proof.
  intros Hf. unfold find_faculty.
  destruct (list_find_elem_of (λ f', f_id f' = f_id f) fs f Hf eq_refl) as [[i f'] ->].
  by eexists.
Qed.

Lemma find_classroom_elem_of rs r : r ∈ rs → is_Some (find_classroom rs (r_id r)).
Proof.
  intros Hr. unfold find_classroom.
  destruct (list_find_elem_of (λ r', r_id r' = r_id r) rs r Hr eq_refl) as [[i r'] ->].
  by eexists.
Qed.

Lemma find_timeslot_elem_of ts t : t ∈ ts → is_Some (find_timeslot ts (t_id t)).
Proof.
  intros Ht. unfold find_timeslot.
  destruct (list_find_elem_of (λ t', t_id t' = t_id t) ts t Ht eq_refl) as [[i t'] ->].
  by eexists.
Qed.

(** Every course of a normalized dataset with at least one faculty, whose
    faculty identifiers are pairwise distinct, has a faculty record. *)
Lemma course_faculty_exists raw d c :
  _normalize_data raw = Return d →
  faculties d ≠ [] →
  NoDup (rf_id <$> get (raw_faculties raw) []) →
  c ∈ courses d →
  ∃ f, f ∈ faculties d ∧ f_id f = faculty_id c.
Proof.
  intros Hnorm Hne Hnd Hc.
  destruct (normalize_data_indexed _ _ Hnorm) as (Hfs & _).
  apply normalize_data_Return in Hnorm as (Hfm & _ & _ & _ & _ & Hcs & _).
  apply list_elem_of_lookup in Hc as [i Hi].
  destruct (Forall2_lookup_r _ _ _ _ _ Hcs Hi) as (rc & _ & Hrc).
  apply norm_course_fields in Hrc as (_ & _ & _ & _ & _ & ->).
  destruct (rc_faculty_id rc ≫= _) as [v|] eqn:Hv; cbn.
  - destruct (rc_faculty_id rc) as [fk|]; [|done]. cbn in Hv.
    destruct (id_map_entry _ _ _ _ _ Hfm Hv) as (j & x & Hj & Hx & ->).
    destruct (Forall2_lookup_l _ _ _ _ _ Hfs Hj) as (f & Hf & Hid & Hentry).
    exists f. split; [by eapply list_elem_of_lookup_2|].
    rewrite Hx in Hid. injection Hid as ->. congruence.
  - destruct (faculties d) as [|f fs] eqn:Hfsd; [done|].
    exists f. split; [by left|].
    destruct (Forall2_lookup_r _ _ _ _ _ Hfs (eq_refl : (f :: fs) !! 0%nat = Some f))
      as (x & Hx & Hid & Hentry).
    pose proof (id_map_from_lookup _ _ _ _ _ _ _ _ Hfm Hnd Hx Hid) as H1.
    rewrite Hentry in H1. by injection H1.
Qed.

(** With a faculty record for every course, no lookup of the extraction
    loop fails on a candidate. *)
Lemma collect_rows_returns sol d (assign : Assign) :
  (∀ c, c ∈ courses d → ∃ f, f ∈ faculties d ∧ f_id f = faculty_id c) →
  (∀ k, k ∈ assign.*1 → k ∈ (candidates d).*1) →
  ∃ rows, collect_rows sol d assign = Return rows.
Proof.
  intros Hfac. induction assign as [|[k v] assign IH]; intros Hkeys; [by eexists|].
  destruct IH as [rows Hrows].
  { intros k' Hk'. apply Hkeys. cbn. by right. }
  cbn [collect_rows]. rewrite Hrows. case_decide; [|by eexists].
  assert (k ∈ (candidates d).*1) as Hk by (apply Hkeys; cbn; by left).
  apply candidates_keys in Hk as (c & t & r & Hc & Ht & Hr & _ & ->).
  unfold extract_row.
  destruct (find_course_elem_of _ _ Hc) as [c' Hc']. rewrite Hc'. cbn.
  apply find_course_Some in Hc' as [Hc'in _].
  destruct (Hfac c' Hc'in) as (f & Hf & <-).
  destruct (find_faculty_elem_of _ _ Hf) as [f' ->]. cbn.
  destruct (find_classroom_elem_of _ _ Hr) as [r' ->]. cbn.
  destruct (find_timeslot_elem_of _ _ Ht) as [t' ->]. cbn. by eexists.
Qed.

(** X11.  When the dataset has at least one faculty and the faculty
    identifiers are pairwise distinct, the call never raises
    [StopIteration], whatever the solver answers. *)
Theorem no_stop_iteration_with_faculties lib Solve tl w raw :
  data_file w = Some raw →
  get (raw_faculties raw) [] ≠ [] →
  NoDup (rf_id <$> get (raw_faculties raw) []) →
  (generate_timetable lib Solve tl w).1 ≠ Raised StopIteration.
Proof.
  intros Hfile Hne Hnd Hraise.
  pose proof (generate_timetable_run lib Solve tl w) as R.
  destruct (generate_timetable lib Solve tl w) as [res w']. cbn [fst snd] in *. subst res.
  inversion R as [| raw' e Hf' Hn' | | | raw' d e Hf' Hn' Hs Hb |
                 | raw' d model assign e Hf' Hn' Hs Hb Hst Hrows | |];
    subst; simplify_eq.
  - by apply normalize_data_Raised in Hn' as [|[|]].
  - by apply build_model_raised in Hb as (? & ? & _ & _ & _ & _ & ?).
  - apply build_model_inl in Hb as (-> & _).
    destruct (collect_rows_returns (Solve model tl).2 d (candidates d)) as [rows Hret];
      [|done|congruence].
    intros c Hc. eapply course_faculty_exists; try done.
    apply normalize_data_Return in Hn' as (_ & _ & _ & _ & Hfs & _).
    intros Hnil. rewrite Hnil in Hfs. by apply Forall2_nil_inv_r in Hfs.
Qed.

Lemma no_stop_iteration_with_faculties_witness :
  (generate_timetable reference_library careless 30 (a_world (Some duplicate_course_id))).1
  ≠ Raised StopIteration.
Proof.
  apply (no_stop_iteration_with_faculties reference_library careless 30
           (a_world (Some duplicate_course_id))
           duplicate_course_id eq_refl).
  - by vm_compute.
  - compute_done.
Defined.

(** ** Export files and table rows *)

(** X13.  After a call that returns [True], timetable.json holds one
    record per row of the table, in the same order, each showing the names
    of the course, faculty, room and timeslot the row's indices resolve to;
    timetable.xlsx is what [to_excel] made of those same records; the line
    printed reports that number of entries. *)
Theorem exports_match_table lib Solve tl w w' raw d :
  data_file w = Some raw →
  _normalize_data raw = Return d →
  generate_timetable lib Solve tl w = (Return true, w') →
  ∃ records,
    timetable_json w' = Some records ∧
    to_excel lib records None = (None, timetable_xlsx w') ∧
    Forall2 (same_session d) records (db_timetable w') ∧
    printed w w' = ["Timetable generated successfully! "
                    +:+ pretty (length (db_timetable w')) +:+ " entries created."].
Proof.
  intros Hfile Hnorm Hrun.
  pose proof (generate_timetable_run lib Solve tl w) as R.
  rewrite Hrun in R. cbn [fst snd] in R.
  inversion R as [ | | | | | | |
                 | raw' d' model assign records rows Hf' Hn' Hs Hb Hst Hrows Hexcel ];
    subst; simplify_eq.
  exists records. unfold printed. cbn. rewrite drop_app_length.
  pose proof (collect_rows_same_session _ _ _ _ _ Hrows) as HF.
  rewrite (Forall2_length _ _ _ HF).
  assert (d' = d) as -> by congruence.
  split; [done|]. split; [|done]. by rewrite <- Hexcel, <- surjective_pairing.
Qed.

Lemma exports_match_table_witness :
  ∃ records,
    timetable_json (run_of exhaustive_search scenario_A).2 = Some records ∧
    to_excel reference_library records None
    = (None, timetable_xlsx (run_of exhaustive_search scenario_A).2) ∧
    Forall2 (same_session (normalized scenario_A)) records
            (db_timetable (run_of exhaustive_search scenario_A).2) ∧
    printed (a_world (Some scenario_A)) (run_of exhaustive_search scenario_A).2
    = ["Timetable generated successfully! "
       +:+ pretty (length (db_timetable (run_of exhaustive_search scenario_A).2))
       +:+ " entries created."].
Proof.
  apply (exports_match_table reference_library exhaustive_search 30 (a_world (Some scenario_A))
           (run_of exhaustive_search scenario_A).2 scenario_A (normalized scenario_A) eq_refl).
  - vm_compute. reflexivity.
  - vm_compute. reflexivity.
Defined.

(** ** Empty input *)

(** X14.  When the course, timeslot or classroom list of a dataset with its
    required fields is empty or absent, the call returns [False] with
    "Insufficient data to generate timetable!" and touches nothing else. *)
Theorem empty_list_is_insufficient lib Solve tl w raw :
  data_file w = Some raw →
  required_fields_present raw →
  get (raw_courses raw) [] = [] ∨ get (raw_timeslots raw) [] = [] ∨
  get (raw_classrooms raw) [] = [] →
  generate_timetable lib Solve tl w
  = (Return false, after_failure w ["Insufficient data to generate timetable!"] []).
Proof.
  intros Hfile Hreq Hempty. destruct (normalize_data_total raw Hreq) as [d Hnorm].
  eapply generate_timetable_insufficient; [done..|].
  apply normalize_data_Return in Hnorm as (_ & _ & _ & _ & _ & Hc & Hr & Ht).
  intros (Hcs & Hts & Hrs).
  destruct Hempty as [He|[He|He]]; rewrite He in *.
  - by apply Forall2_nil_inv_l in Hc.
  - by apply Forall2_nil_inv_l in Ht.
  - by apply Forall2_nil_inv_l in Hr.
Qed.

Lemma empty_list_is_insufficient_witness :
  generate_timetable reference_library exhaustive_search 30 (a_world (Some oversized_no_timeslot))
  = (Return false,
     after_failure (a_world (Some oversized_no_timeslot))
       ["Insufficient data to generate timetable!"] []).
Proof.
  apply (empty_list_is_insufficient reference_library exhaustive_search 30
           (a_world (Some oversized_no_timeslot))
           oversized_no_timeslot eq_refl).
  - repeat split; cbn; repeat constructor; by eexists.
  - right. left. reflexivity.
Defined.

(** ** Counting arguments *)

(** Rows that fall into slots, at most one per slot, are no more than the
    slots. *)
Lemma length_le_slots {A K} `{EqDecision K} (g : A → K) (rows : list A) (L : list K) :
  (∀ e, e ∈ rows → g e ∈ L) →
  (∀ x, x ∈ L → (length (filter (λ e, g e = x) rows) ≤ 1)%nat) →
  (length rows ≤ length L)%nat.
Proof.
  revert rows. induction L as [|x L IH]; intros rows Hin Hone.
  - destruct rows as [|e rows]; [done|]. specialize (Hin e ltac:(by left)).
    by apply elem_of_nil in Hin.
  - assert (length rows
            = (length (filter (λ e, g e = x) rows) + length (filter (λ e, g e ≠ x) rows))%nat)
      as ->.
    { clear. induction rows as [|e rows IHr]; [done|]. rewrite !filter_cons.
      destruct (decide (g e = x)), (decide (g e ≠ x)); cbn; try tauto; lia. }
    specialize (Hone x ltac:(by left)) as Hx.
    enough (length (filter (λ e, g e ≠ x) rows) ≤ length L)%nat by (cbn; lia).
    apply IH.
    + intros e [Hne He]%list_elem_of_filter.
      specialize (Hin e He). apply elem_of_cons in Hin as [?|?]; done.
    + intros y Hy. etransitivity; [|apply (Hone y); by right].
      clear. induction rows as [|e rows IHr]; [done|]. rewrite !filter_cons.
      destruct (decide (g e ≠ x)); rewrite ?filter_cons;
        destruct (decide (g e = y)); cbn; lia.
Qed.

Lemma length_room_slots d :
  length (room_slots d) = (length (timeslots d) * length (classrooms d))%nat.
Proof.
  unfold room_slots. induction (timeslots d) as [|t ts IH]; [done|].
  cbn. rewrite length_app, length_fmap, IH. done.
Qed.

Lemma elem_of_room_slots d t r :
  t ∈ timeslots d → r ∈ classrooms d → (t_id t, r_id r) ∈ room_slots d.
Proof.
  intros Ht Hr. unfold room_slots. apply list_elem_of_bind. exists t. split; [|done].
  apply list_elem_of_fmap. by exists r.
Qed.

Lemma room_slots_elem_of d x :
  x ∈ room_slots d → ∃ t r, t ∈ timeslots d ∧ r ∈ classrooms d ∧ x = (t_id t, r_id r).
Proof.
  unfold room_slots. intros (t & (r & -> & Hr)%list_elem_of_fmap & Ht)%list_elem_of_bind.
  eauto.
Qed.

(** X15.  With a sound solver, a schedule never has more rows than there
    are (timeslot, classroom) pairs. *)
Theorem schedule_fits_room_slots lib Solve tl w w' raw d :
  sound Solve →
  data_file w = Some raw →
  _normalize_data raw = Return d →
  generate_timetable lib Solve tl w = (Return true, w') →
  (length (db_timetable w') ≤ length (timeslots d) * length (classrooms d))%nat.
Proof.
  intros Hsound Hfile Hnorm Hrun.
  rewrite <- length_room_slots.
  apply (length_le_slots (λ e, (timeslot_id e, classroom_id e))).
  - intros e He.
    destruct (generate_timetable_true _ _ _ _ _ _ _ Hfile Hnorm Hrun)
      as (model & assign & records & rows & _ & _ & _ & Hrows & ->).
    cbn in He. pose proof (collect_rows_same_session _ _ _ _ _ Hrows) as HF.
    apply list_elem_of_lookup in He as [i Hi].
    destruct (Forall2_lookup_r _ _ _ _ _ HF Hi)
      as (rec & _ & c & f & r & t & _ & _ & Hr & Ht & _).
    apply find_classroom_Some in Hr as [Hr <-]. apply find_timeslot_Some in Ht as [Ht <-].
    by apply elem_of_room_slots.
  - intros x (t & r & Ht & Hr & ->)%room_slots_elem_of.
    pose proof (room_exclusive _ _ _ _ _ _ _ t r Hsound Hfile Hnorm Hrun Ht Hr) as Hone.
    unfold rows_in_room in Hone.
    erewrite list_filter_iff; [exact Hone|]. intros e. cbn. split.
    + by intros [= -> ->].
    + by intros [-> ->].
Qed.

Lemma schedule_fits_room_slots_witness :
  (length (db_timetable (run_of exhaustive_search scenario_A).2)
   ≤ length (timeslots (normalized scenario_A))
     * length (classrooms (normalized scenario_A)))%nat.
Proof.
  apply (schedule_fits_room_slots reference_library exhaustive_search 30 (a_world (Some scenario_A))
           (run_of exhaustive_search scenario_A).2 scenario_A (normalized scenario_A)
           exhaustive_search_sound eq_refl).
  - vm_compute. reflexivity.
  - vm_compute. reflexivity.
Defined.

Lemma length_filter_filter_le {A} (P Q R : A → Prop)
    `{!∀ x, Decision (P x)} `{!∀ x, Decision (Q x)} `{!∀ x, Decision (R x)} (l : list A) :
  (∀ x, x ∈ l → Q x → P x → R x) →
  (length (filter P (filter Q l)) ≤ length (filter R l))%nat.
Proof.
  induction l as [|x l IH]; intros Himp; [done|]. rewrite !filter_cons.
  assert (length (filter P (filter Q l)) ≤ length (filter R l))%nat as IH'
    by (apply IH; intros y Hy; apply Himp; by right).
  destruct (decide (Q x)) as [HQ|HQ]; rewrite ?filter_cons.
  - destruct (decide (P x)) as [HP|HP], (decide (R x)) as [HR|HR]; cbn; try lia.
    destruct HR. apply Himp; [by left|done..].
  - destruct (decide (R x)); cbn; lia.
Qed.

(** X16.  With a sound solver and pairwise distinct course identifiers, a
    call returns [True] only if every course requires between 0 and as
    many sessions as there are timeslots. *)
Theorem sessions_fit_timeslots lib Solve tl w w' raw d c :
  sound Solve →
  data_file w = Some raw →
  _normalize_data raw = Return d →
  NoDup (rc_id <$> get (raw_courses raw) []) →
  generate_timetable lib Solve tl w = (Return true, w') →
  c ∈ courses d →
  0 ≤ sessions_per_week c ≤ Z.of_nat (length (timeslots d)).
Proof.
  intros Hsound Hfile Hnorm Hnd Hrun Hc.
  pose proof (normalized_course_ids_NoDup _ _ Hnorm Hnd) as Hids.
  destruct (generate_timetable_true _ _ _ _ _ _ _ Hfile Hnorm Hrun)
    as (model & assign & records & rows & _ & Hbuild & Hst & Hrows & Hw').
  assert (Z.of_nat (length (rows_of_course rows (c_id c))) = sessions_per_week c) as <-.
  { rewrite (rows_of_course_count _ _ _ _ _ _ Hrows).
    apply build_model_inl in Hbuild as (_ & Hcov & _).
    apply (Hcov c _ Hc). by apply sound_satisfies. }
  split; [lia|]. apply Nat2Z.inj_le.
  rewrite <- (length_fmap t_id (timeslots d)).
  pose proof (collect_rows_same_session _ _ _ _ _ Hrows) as HF.
  assert (∀ e, e ∈ rows_of_course rows (c_id c) →
               ∃ f t, f ∈ faculties d ∧ f_id f = faculty_id c ∧ db_faculty_id e = faculty_id c ∧
                      t ∈ timeslots d ∧ t_id t = timeslot_id e) as Hrow.
  { intros e [Hce He]%list_elem_of_filter.
    apply list_elem_of_lookup in He as [i Hi].
    destruct (Forall2_lookup_r _ _ _ _ _ HF Hi)
      as (rec & _ & c0 & f & r & t & Hc0 & Hf & _ & Ht & Hfid & _).
    apply find_course_Some in Hc0 as [Hc0 Hid0].
    assert (c0 = c) as -> by (eapply (NoDup_fmap_eq c_id); [exact Hids|done..|congruence]).
    apply find_faculty_Some in Hf as [Hf Hfe]. apply find_timeslot_Some in Ht as [Ht Hte].
    exists f, t. repeat split; try done. congruence. }
  apply (length_le_slots timeslot_id).
  - intros e He. destruct (Hrow e He) as (_ & t & _ & _ & _ & Ht & <-).
    apply list_elem_of_fmap. eauto.
  - intros x (t & -> & Ht)%list_elem_of_fmap.
    destruct (filter (λ e, timeslot_id e = t_id t) (rows_of_course rows (c_id c)))
      as [|e0 l0] eqn:Hfil; [cbn; lia|]. rewrite <- Hfil.
    assert (e0 ∈ rows_of_course rows (c_id c)) as He0.
    { assert (e0 ∈ filter (λ e, timeslot_id e = t_id t) (rows_of_course rows (c_id c)))
        as Hin by (rewrite Hfil; by left).
      by apply list_elem_of_filter in Hin as [_ ?]. }
    destruct (Hrow e0 He0) as (f & _ & Hf & Hfid & _).
    pose proof (faculty_exclusive _ _ _ _ _ _ _ t f Hsound Hfile Hnorm Hrun Hnd Ht Hf) as Hone.
    subst w'. cbn [after_success db_timetable] in Hone.
    etransitivity; [|exact Hone]. unfold rows_of_course, rows_of_faculty.
    apply length_filter_filter_le. intros e Hin Hce Hte. split; [done|].
    assert (e ∈ rows_of_course rows (c_id c)) as He
      by (by apply list_elem_of_filter).
    destruct (Hrow e He) as (f' & _ & _ & _ & He' & _). congruence.
Qed.

Lemma sessions_fit_timeslots_witness :
  0 ≤ sessions_per_week scenario_A_course
    ≤ Z.of_nat (length (timeslots (normalized scenario_A))).
Proof.
  apply (sessions_fit_timeslots reference_library exhaustive_search 30 (a_world (Some scenario_A))
           (run_of exhaustive_search scenario_A).2 scenario_A (normalized scenario_A)
           scenario_A_course exhaustive_search_sound eq_refl).
  - vm_compute. reflexivity.
  - compute_done.
  - vm_compute. reflexivity.
  - vm_compute. by left.
Defined.

(** ** The endpoints *)

(** X17.  /timetable/generate answers "success" exactly when
    [generate_timetable] returns [True], and then the table read back by
    /timetable is what the last commit wrote.  Every other outcome is
    answered with status 500, never 400: the 400 raised in the [try] block
    when the call returns [False] is caught by its own [except Exception]
    and reported inside the detail of a 500, with the store as it was; an
    exception of the call is reported the same way. *)
Theorem endpoint_status_codes str lib Solve w :
  ((generate_timetable lib Solve 30 w).1 = Return true →
   (generate_timetable_endpoint str lib Solve w).1
   = Replied {| gb_status := "success"; gb_message := "Timetable generated successfully!" |} ∧
   ∃ evs, trace (generate_timetable_endpoint str lib Solve w).2
          = evs ++ [EvCommit (get_timetable (generate_timetable_endpoint str lib Solve w).2)]) ∧
  ((generate_timetable lib Solve 30 w).1 = Return false →
   (generate_timetable_endpoint str lib Solve w).1
   = Failed 500
       ("Error generating timetable: "
        +:+ str (HTTPException 400
                   "Failed to generate timetable. Check if data.json exists and contains valid data.")) ∧
   store (generate_timetable_endpoint str lib Solve w).2 = store w) ∧
  (∀ e, (generate_timetable lib Solve 30 w).1 = Raised e →
        (generate_timetable_endpoint str lib Solve w).1
        = Failed 500 ("Error generating timetable: " +:+ str (SchedulerError e))).
Proof.
  unfold generate_timetable_endpoint, get_timetable.
  pose proof (generate_timetable_run lib Solve 30 w) as R.
  destruct (generate_timetable lib Solve 30 w) as [res w1]. cbn [fst snd] in *.
  split; [|split].
  - intros ->. cbn. split; [done|].
    inversion R as [ | | | | | | |
                   | raw d model assign records rows Hfile Hnorm Hs Hb Hst Hrows Hexcel ];
      subst. cbn.
    exists (trace w ++ [EvSolve model 30; EvClear]).
    rewrite <- app_assoc. done.
  - intros ->. cbn. split; [done|]. inversion R; subst; done.
  - by intros e ->.
Qed.
